(** * SNMPv3 User Security Model of gosnmp (v3.go): a shallow embedding

    The file follows the order of [v3.go]: key localization, the
    authenticator, the per-packet salt counters, engine discovery, the
    message builder and the message parser.  Go values are modelled as
    follows.

    - [byte], [uint8], [uint32], [uint64]: integers of [Z]; every place
      where Go truncates ([byte(len(s))], [uint32(n)], [atomic.AddUint32])
      has its wrap-around written out.
    - [int]: [Z].  Cursors and lengths are bounded by the capacity of the
      slice they index, and a sum that leaves that range raises the same
      run-time panic as the out-of-range index does.
    - [string]: the list of its bytes; error messages are Rocq strings.
    - [[]byte]: a [slice], the backing array from the slice's first element
      up to its capacity together with the length.
    - [*UsmSecurityParameters]: a location in a store of
      [UsmSecurityParameters] records, so that the connection and a packet
      may share one object.
    - a function that may return an error or raise a run-time panic returns
      an [outcome]. *)

From stdpp Require Import base option list gmap strings.
From Stdlib Require Import ZArith Lia.

Local Open Scope Z_scope.

(** ** Go run-time model *)

Abbreviation byte := Z.
Abbreviation bytes := (list Z).

(** Run-time panics of Go that the code of [v3.go] can raise. *)
Inductive panic : Type :=
  | DivideByZero        (* integer divide by zero *)
  | IndexOutOfRange     (* s[i] with i outside [0, len(s)) *)
  | SliceBounds         (* s[a:b] outside 0 <= a <= b <= cap(s) *)
  | NilDereference      (* field access through a nil pointer *)
  | NotFullBlocks.      (* crypto/cipher: input not full blocks *)

(** A call either returns its value, returns a non-nil [error] (the other
    results are then the zero values), or panics. *)
Inductive outcome (A : Type) : Type :=
  | Ok (a : A)
  | Err (e : string)
  | Panic (p : panic).
Arguments Ok {A} a.
Arguments Err {A} e.
Arguments Panic {A} p.

#[global] Instance outcome_ret : MRet outcome := fun A a => Ok a.
#[global] Instance outcome_bind : MBind outcome := fun A B f m =>
  match m with
  | Ok a => f a
  | Err e => Err e
  | Panic p => Panic p
  end.

Definition is_ok {A} (m : outcome A) : bool :=
  match m with Ok _ => true | _ => false end.
Definition is_err {A} (m : outcome A) : bool :=
  match m with Err _ => true | _ => false end.
Definition is_panic {A} (m : outcome A) : bool :=
  match m with Panic _ => true | _ => false end.

Definition len {A} (l : list A) : Z := Z.of_nat (length l).

(** [s[i]] on a string or an array. *)
Definition index (s : bytes) (i : Z) : outcome byte :=
  if (0 <=? i) && (i <? len s) then Ok (nth (Z.to_nat i) s 0) else Panic IndexOutOfRange.

(** [a % b] on [int]: truncated remainder, panics on a zero divisor. *)
Definition go_rem (a b : Z) : outcome Z :=
  if b =? 0 then Panic DivideByZero else Ok (Z.rem a b).

Definition uint8 (z : Z) : Z := z mod 2 ^ 8.
Definition uint32 (z : Z) : Z := z mod 2 ^ 32.
Definition uint64 (z : Z) : Z := z mod 2 ^ 64.

(** [make([]byte, n)] *)
Definition zeros (n : Z) : bytes := replicate (Z.to_nat n) 0.

(** [binary.BigEndian.PutUint32] and [PutUint64] as byte lists. *)
Definition be32 (v : Z) : bytes :=
  [ Z.shiftr v 24 mod 256; Z.shiftr v 16 mod 256; Z.shiftr v 8 mod 256; v mod 256 ].
Definition be64 (v : Z) : bytes := be32 (Z.shiftr v 32 mod 2 ^ 32) ++ be32 (v mod 2 ^ 32).
Definition le32 (v : Z) : bytes := rev (be32 v).

(** [copy(dst[at:], src)] on an array of fixed size: overwrite from [at],
    never beyond the end of [dst]. *)
Definition copy_into (dst : bytes) (at_ : nat) (src : bytes) : bytes :=
  take at_ dst ++ take (length dst - at_) src ++ drop (at_ + length src) dst.

Definition xor_bytes (a b : bytes) : bytes := zip_with Z.lxor a b.

(** ** crypto/md5 and crypto/sha1

    Both are Go standard-library packages; v3.go only uses [New], [Write]
    and [Sum(nil)].  The digests are RFC 1321 and FIPS 180-1 on 32-bit
    words carried by [Z]. *)

Module Digest.

Definition add32 (a b : Z) : Z := (a + b) mod 2 ^ 32.
Definition not32 (a : Z) : Z := Z.lxor a 0xFFFFFFFF.
Definition rotl32 (x n : Z) : Z :=
  Z.lor (Z.shiftl x n mod 2 ^ 32) (Z.shiftr x (32 - n)).

(** Message padding: 0x80, zeros up to 56 mod 64, then the bit length on
    8 bytes (little-endian for MD5, big-endian for SHA-1). *)
Definition pad (little : bool) (m : bytes) : bytes :=
  let bits := be64 (uint64 (8 * len m)) in
  m ++ [0x80] ++ zeros ((55 - len m) mod 64) ++ (if little then rev bits else bits).

Fixpoint blocks (n : nat) (size : nat) (m : bytes) : list bytes :=
  match n with
  | O => []
  | S n' => take size m :: blocks n' size (drop size m)
  end.

Definition word_le (b : bytes) : Z :=
  match b with
  | [b0; b1; b2; b3] => b0 + Z.shiftl b1 8 + Z.shiftl b2 16 + Z.shiftl b3 24
  | _ => 0
  end.
Definition word_be (b : bytes) : Z := word_le (rev b).

Definition md5_K : list Z :=
  [ 0xd76aa478; 0xe8c7b756; 0x242070db; 0xc1bdceee; 0xf57c0faf; 0x4787c62a; 0xa8304613; 0xfd469501;
    0x698098d8; 0x8b44f7af; 0xffff5bb1; 0x895cd7be; 0x6b901122; 0xfd987193; 0xa679438e; 0x49b40821;
    0xf61e2562; 0xc040b340; 0x265e5a51; 0xe9b6c7aa; 0xd62f105d; 0x02441453; 0xd8a1e681; 0xe7d3fbc8;
    0x21e1cde6; 0xc33707d6; 0xf4d50d87; 0x455a14ed; 0xa9e3e905; 0xfcefa3f8; 0x676f02d9; 0x8d2a4c8a;
    0xfffa3942; 0x8771f681; 0x6d9d6122; 0xfde5380c; 0xa4beea44; 0x4bdecfa9; 0xf6bb4b60; 0xbebfbc70;
    0x289b7ec6; 0xeaa127fa; 0xd4ef3085; 0x04881d05; 0xd9d4d039; 0xe6db99e5; 0x1fa27cf8; 0xc4ac5665;
    0xf4292244; 0x432aff97; 0xab9423a7; 0xfc93a039; 0x655b59c3; 0x8f0ccc92; 0xffeff47d; 0x85845dd1;
    0x6fa87e4f; 0xfe2ce6e0; 0xa3014314; 0x4e0811a1; 0xf7537e82; 0xbd3af235; 0x2ad7d2bb; 0xeb86d391 ].

Definition md5_S : list Z :=
  [ 7; 12; 17; 22; 7; 12; 17; 22; 7; 12; 17; 22; 7; 12; 17; 22;
    5; 9; 14; 20; 5; 9; 14; 20; 5; 9; 14; 20; 5; 9; 14; 20;
    4; 11; 16; 23; 4; 11; 16; 23; 4; 11; 16; 23; 4; 11; 16; 23;
    6; 10; 15; 21; 6; 10; 15; 21; 6; 10; 15; 21; 6; 10; 15; 21 ].

Definition md5_step (M : list Z) (st : Z * Z * Z * Z) (i : Z) : Z * Z * Z * Z :=
  let '(a, b, c, d) := st in
  let '(f, g) :=
    if i <? 16 then (Z.lor (Z.land b c) (Z.land (not32 b) d), i)
    else if i <? 32 then (Z.lor (Z.land d b) (Z.land (not32 d) c), (5 * i + 1) mod 16)
    else if i <? 48 then (Z.lxor (Z.lxor b c) d, (3 * i + 5) mod 16)
    else (Z.lxor c (Z.lor b (not32 d)), (7 * i) mod 16) in
  let f' := add32 (add32 (add32 f a) (nth (Z.to_nat i) md5_K 0)) (nth (Z.to_nat g) M 0) in
  (d, add32 b (rotl32 f' (nth (Z.to_nat i) md5_S 0)), b, c).

Definition rounds (n : Z) : list Z := Z.of_nat <$> seq 0 (Z.to_nat n).

Definition md5_block (st : Z * Z * Z * Z) (blk : bytes) : Z * Z * Z * Z :=
  let M := word_le <$> blocks 16 4 blk in
  let '(a, b, c, d) := st in
  let '(a', b', c', d') := fold_left (md5_step M) (rounds 64) st in
  (add32 a a', add32 b b', add32 c c', add32 d d').

Definition md5 (m : bytes) : bytes :=
  let p := pad true m in
  let '(a, b, c, d) :=
    fold_left md5_block (blocks (length p / 64) 64 p)
              (0x67452301, 0xefcdab89, 0x98badcfe, 0x10325476) in
  le32 a ++ le32 b ++ le32 c ++ le32 d.

(** SHA-1: the message schedule keeps the last 16 words, newest last. *)
Definition sha1_step (acc : list Z * (Z * Z * Z * Z * Z)) (i : Z)
  : list Z * (Z * Z * Z * Z * Z) :=
  let '(w, (a, b, c, d, e)) := acc in
  let wi := nth 0 w 0 in
  let '(f, k) :=
    if i <? 20 then (Z.lor (Z.land b c) (Z.land (not32 b) d), 0x5A827999)
    else if i <? 40 then (Z.lxor (Z.lxor b c) d, 0x6ED9EBA1)
    else if i <? 60 then (Z.lor (Z.lor (Z.land b c) (Z.land b d)) (Z.land c d), 0x8F1BBCDC)
    else (Z.lxor (Z.lxor b c) d, 0xCA62C1D6) in
  let t := add32 (add32 (add32 (add32 (rotl32 a 5) f) e) k) wi in
  let next :=
    rotl32 (Z.lxor (Z.lxor (Z.lxor (nth 13 w 0) (nth 8 w 0)) (nth 2 w 0)) (nth 0 w 0)) 1 in
  (drop 1 w ++ [next], (t, a, rotl32 b 30, c, d)).

Definition sha1_block (st : Z * Z * Z * Z * Z) (blk : bytes) : Z * Z * Z * Z * Z :=
  let W := word_be <$> blocks 16 4 blk in
  let '(a, b, c, d, e) := st in
  let '(_, (a', b', c', d', e')) := fold_left sha1_step (rounds 80) (W, st) in
  (add32 a a', add32 b b', add32 c c', add32 d d', add32 e e').

Definition sha1 (m : bytes) : bytes :=
  let p := pad false m in
  let '(a, b, c, d, e) :=
    fold_left sha1_block (blocks (length p / 64) 64 p)
              (0x67452301, 0xEFCDAB89, 0x98BADCFE, 0x10325476, 0xC3D2E1F0) in
  be32 a ++ be32 b ++ be32 c ++ be32 d ++ be32 e.

End Digest.

(** ** The [hash.Hash] objects of v3.go

    A hash object remembers which digest it computes and the chunks written
    to it, in order; [Sum(nil)] is the digest of their concatenation. *)

Inductive hash_alg : Type := AlgMD5 | AlgSHA1.

Definition digest (alg : hash_alg) (m : bytes) : bytes :=
  match alg with
  | AlgMD5 => Digest.md5 m
  | AlgSHA1 => Digest.sha1 m
  end.

Record Hash : Type := mkHash { h_alg : hash_alg; h_written : list bytes }.

Definition hash_New (alg : hash_alg) : Hash := mkHash alg [].
Definition hash_Write (h : Hash) (p : bytes) : Hash :=
  mkHash (h_alg h) (h_written h ++ [p]).
Definition hash_Sum (h : Hash) : bytes := digest (h_alg h) (concat (h_written h)).

(** ** Slices

    [s_arr] is the backing array from the first element of the slice to its
    capacity, [s_len] the length; the elements of the slice are the first
    [s_len] of [s_arr].  Slicing checks its bounds against the capacity and
    indexing against the length, as the Go run time does. *)

Record slice : Type := mkSlice { s_arr : bytes; s_len : Z }.

Definition s_cap (s : slice) : Z := len (s_arr s).
Definition s_bytes (s : slice) : bytes := take (Z.to_nat (s_len s)) (s_arr s).

(** The slice a fresh [[]byte] value gives: capacity equal to length. *)
Definition slice_of (b : bytes) : slice := mkSlice b (len b).

(** [s[i]] *)
Definition slice_index (s : slice) (i : Z) : outcome byte :=
  if (0 <=? i) && (i <? s_len s) then Ok (nth (Z.to_nat i) (s_arr s) 0)
  else Panic IndexOutOfRange.

(** [s[a:]] *)
Definition slice_from (s : slice) (a : Z) : outcome slice :=
  if (0 <=? a) && (a <=? s_len s)
  then Ok (mkSlice (drop (Z.to_nat a) (s_arr s)) (s_len s - a))
  else Panic SliceBounds.

(** [s[:b]] *)
Definition slice_upto (s : slice) (b : Z) : outcome slice :=
  if (0 <=? b) && (b <=? s_cap s) then Ok (mkSlice (s_arr s) b)
  else Panic SliceBounds.

(** [copy(s[a:b], src)]: the write goes to the array [s] shares. *)
Definition slice_copy (s : slice) (a b : Z) (src : bytes) : outcome slice :=
  if (0 <=? a) && (a <=? b) && (b <=? s_cap s)
  then Ok (mkSlice (copy_into (s_arr s) (Z.to_nat a) (take (Z.to_nat (b - a)) src)) (s_len s))
  else Panic SliceBounds.

(** [copy(s[a:], src)] *)
Definition slice_copy_from (s : slice) (a : Z) (src : bytes) : outcome slice :=
  if (0 <=? a) && (a <=? s_len s)
  then Ok (mkSlice (copy_into (s_arr s) (Z.to_nat a) (take (Z.to_nat (s_len s - a)) src)) (s_len s))
  else Panic SliceBounds.

(** [b[:n]] and [b[n:]] on a value whose capacity is its length. *)
Definition bytes_upto (b : bytes) (n : Z) : outcome bytes :=
  if (0 <=? n) && (n <=? len b) then Ok (take (Z.to_nat n) b) else Panic SliceBounds.
Definition bytes_from (b : bytes) (n : Z) : outcome bytes :=
  if (0 <=? n) && (n <=? len b) then Ok (drop (Z.to_nat n) b) else Panic SliceBounds.

(** ** Types of v3.go (lines 25-86) *)

Definition NoAuthNoPriv : Z := 0x0.
Definition AuthNoPriv : Z := 0x1.
Definition AuthPriv : Z := 0x3.
Definition Reportable : Z := 0x4.

Definition UserSecurityModel : Z := 3.

Definition NoAuth : Z := 1.
Definition MD5 : Z := 2.
Definition SHA : Z := 3.

Definition NoPriv : Z := 1.
Definition DES : Z := 2.
Definition AES : Z := 3.

Record UsmSecurityParameters : Type := mkUsm {
  AuthoritativeEngineID : bytes;
  AuthoritativeEngineBoots : Z;
  AuthoritativeEngineTime : Z;
  UserName : bytes;
  AuthenticationParameters : bytes;
  PrivacyParameters : bytes;
  AuthenticationProtocol : Z;
  PrivacyProtocol : Z;
  AuthenticationPassphrase : bytes;
  PrivacyPassphrase : bytes;
  localDESSalt : Z;
  localAESSalt : Z
}.

(** [&UsmSecurityParameters{}] *)
Definition usm_zero : UsmSecurityParameters := mkUsm [] 0 0 [] [] [] 0 0 [] [] 0 0.

Definition set_AuthoritativeEngineID (v : bytes) (u : UsmSecurityParameters) :=
  mkUsm v (AuthoritativeEngineBoots u) (AuthoritativeEngineTime u) (UserName u)
        (AuthenticationParameters u) (PrivacyParameters u) (AuthenticationProtocol u)
        (PrivacyProtocol u) (AuthenticationPassphrase u) (PrivacyPassphrase u)
        (localDESSalt u) (localAESSalt u).
Definition set_AuthoritativeEngineBoots (v : Z) (u : UsmSecurityParameters) :=
  mkUsm (AuthoritativeEngineID u) v (AuthoritativeEngineTime u) (UserName u)
        (AuthenticationParameters u) (PrivacyParameters u) (AuthenticationProtocol u)
        (PrivacyProtocol u) (AuthenticationPassphrase u) (PrivacyPassphrase u)
        (localDESSalt u) (localAESSalt u).
Definition set_AuthoritativeEngineTime (v : Z) (u : UsmSecurityParameters) :=
  mkUsm (AuthoritativeEngineID u) (AuthoritativeEngineBoots u) v (UserName u)
        (AuthenticationParameters u) (PrivacyParameters u) (AuthenticationProtocol u)
        (PrivacyProtocol u) (AuthenticationPassphrase u) (PrivacyPassphrase u)
        (localDESSalt u) (localAESSalt u).
Definition set_UserName (v : bytes) (u : UsmSecurityParameters) :=
  mkUsm (AuthoritativeEngineID u) (AuthoritativeEngineBoots u) (AuthoritativeEngineTime u) v
        (AuthenticationParameters u) (PrivacyParameters u) (AuthenticationProtocol u)
        (PrivacyProtocol u) (AuthenticationPassphrase u) (PrivacyPassphrase u)
        (localDESSalt u) (localAESSalt u).
Definition set_AuthenticationParameters (v : bytes) (u : UsmSecurityParameters) :=
  mkUsm (AuthoritativeEngineID u) (AuthoritativeEngineBoots u) (AuthoritativeEngineTime u)
        (UserName u) v (PrivacyParameters u) (AuthenticationProtocol u)
        (PrivacyProtocol u) (AuthenticationPassphrase u) (PrivacyPassphrase u)
        (localDESSalt u) (localAESSalt u).
Definition set_PrivacyParameters (v : bytes) (u : UsmSecurityParameters) :=
  mkUsm (AuthoritativeEngineID u) (AuthoritativeEngineBoots u) (AuthoritativeEngineTime u)
        (UserName u) (AuthenticationParameters u) v (AuthenticationProtocol u)
        (PrivacyProtocol u) (AuthenticationPassphrase u) (PrivacyPassphrase u)
        (localDESSalt u) (localAESSalt u).
Definition set_localDESSalt (v : Z) (u : UsmSecurityParameters) :=
  mkUsm (AuthoritativeEngineID u) (AuthoritativeEngineBoots u) (AuthoritativeEngineTime u)
        (UserName u) (AuthenticationParameters u) (PrivacyParameters u)
        (AuthenticationProtocol u) (PrivacyProtocol u) (AuthenticationPassphrase u)
        (PrivacyPassphrase u) v (localAESSalt u).
Definition set_localAESSalt (v : Z) (u : UsmSecurityParameters) :=
  mkUsm (AuthoritativeEngineID u) (AuthoritativeEngineBoots u) (AuthoritativeEngineTime u)
        (UserName u) (AuthenticationParameters u) (PrivacyParameters u)
        (AuthenticationProtocol u) (PrivacyProtocol u) (AuthenticationPassphrase u)
        (PrivacyPassphrase u) (localDESSalt u) v.

(** The store of the [UsmSecurityParameters] objects pointers refer to. *)
Abbreviation loc := positive.
Abbreviation store := (gmap loc UsmSecurityParameters).

(** [*p]; Go has no dangling pointers, a location outside the store is
    treated like nil. *)
Definition load (σ : store) (l : loc) : outcome UsmSecurityParameters :=
  match σ !! l with
  | Some u => Ok u
  | None => Panic NilDereference
  end.

(** A value of the interface [SnmpV3SecurityParameters]: nil, a pointer to
    a [UsmSecurityParameters] (itself possibly nil), or an implementation
    other than USM. *)
Inductive SnmpV3SecurityParameters : Type :=
  | NilParameters
  | UsmPointer (p : option loc)
  | OtherParameters.

(** The type assertion of [sp] to a pointer to [UsmSecurityParameters]:
    the pointer and the [ok] flag. *)
Definition as_usm (sp : SnmpV3SecurityParameters) : option loc * bool :=
  match sp with
  | UsmPointer p => (p, true)
  | _ => (None, false)
  end.

(** ** Declarations v3.go takes from the rest of the package *)

(** Modelled from the spec: section 4.4 gives [msgVersion] INTEGER = 3 for
    the constant [Version3] of gosnmp.go. *)
Definition Version3 : Z := 3.

(** Modelled from the spec: section 6 gives the BER tag numbers behind the
    constants [Sequence], [Integer] and [OctetString] of the package. *)
Definition Sequence : Z := 0x30.
Definition Integer : Z := 0x02.
Definition OctetString : Z := 0x04.

(** The fields of [SnmpPacket] (marshal.go) that v3.go reads or writes. *)
Record SnmpPacket : Type := mkPacket {
  Version : Z;
  MsgFlags : Z;
  SecurityModel : Z;
  SecurityParameters : SnmpV3SecurityParameters;
  ContextEngineID : bytes;
  ContextName : bytes;
  PDUType : Z;
  MsgID : Z;
  Logger : Z
}.

Definition set_MsgFlags (v : Z) (p : SnmpPacket) :=
  mkPacket (Version p) v (SecurityModel p) (SecurityParameters p) (ContextEngineID p)
           (ContextName p) (PDUType p) (MsgID p) (Logger p).
Definition set_SecurityModel (v : Z) (p : SnmpPacket) :=
  mkPacket (Version p) (MsgFlags p) v (SecurityParameters p) (ContextEngineID p)
           (ContextName p) (PDUType p) (MsgID p) (Logger p).
Definition set_ContextEngineID (v : bytes) (p : SnmpPacket) :=
  mkPacket (Version p) (MsgFlags p) (SecurityModel p) (SecurityParameters p) v
           (ContextName p) (PDUType p) (MsgID p) (Logger p).
Definition set_ContextName (v : bytes) (p : SnmpPacket) :=
  mkPacket (Version p) (MsgFlags p) (SecurityModel p) (SecurityParameters p)
           (ContextEngineID p) v (PDUType p) (MsgID p) (Logger p).
Definition set_MsgID (v : Z) (p : SnmpPacket) :=
  mkPacket (Version p) (MsgFlags p) (SecurityModel p) (SecurityParameters p)
           (ContextEngineID p) (ContextName p) (PDUType p) v (Logger p).

(** The fields of the connection [GoSNMP] (gosnmp.go) that v3.go reads or
    writes. *)
Module Conn.
Record GoSNMP : Type := mk {
  Version : Z;
  MsgFlags : Z;
  SecurityModel : Z;
  SecurityParameters : SnmpV3SecurityParameters;
  ContextEngineID : bytes;
  msgID : Z;
  Logger : Z
}.
Definition set_MsgFlags (v : Z) (x : GoSNMP) :=
  mk (Version x) v (SecurityModel x) (SecurityParameters x) (ContextEngineID x)
     (msgID x) (Logger x).
Definition set_ContextEngineID (v : bytes) (x : GoSNMP) :=
  mk (Version x) (MsgFlags x) (SecurityModel x) (SecurityParameters x) v
     (msgID x) (Logger x).
Definition set_msgID (v : Z) (x : GoSNMP) :=
  mk (Version x) (MsgFlags x) (SecurityModel x) (SecurityParameters x)
     (ContextEngineID x) v (Logger x).
End Conn.
Abbreviation GoSNMP := Conn.GoSNMP.

(** What [parseRawField] hands back as [interface{}]. *)
Inductive rawField : Type :=
  | RawInt (n : Z)
  | RawString (s : bytes)
  | RawOther.

(** The BER primitives of helper.go and marshal.go, called by v3.go and
    not part of it.  [parseLength] returns the length of the whole field
    and the length of its tag-and-length header; [parseRawField] the value
    and the number of bytes the field takes. *)
Class BerCodec : Type := {
  rxBufSize : Z;
  marshalLength : Z → outcome bytes;
  marshalUvarInt : Z → bytes;
  parseLength : slice → outcome (Z * Z);
  parseRawField : slice → string → outcome (rawField * Z)
}.

(** The PDU layer of marshal.go. *)
Class PduCodec : Type := {
  SnmpPDU : Type;
  GetRequest : Z;
  marshalPDU : SnmpPacket → list SnmpPDU → Z → outcome bytes
}.

(** The block ciphers of crypto/des and crypto/aes: one block under a key. *)
Class BlockCiphers : Type := {
  des_encrypt_block : bytes → bytes → bytes;
  des_decrypt_block : bytes → bytes → bytes;
  aes_encrypt_block : bytes → bytes → bytes
}.

(** [x.sendOneRequest] of gosnmp.go: it may change the connection and the
    objects of the store, and returns the response packet. *)
Class Transport `{PduCodec} : Type := {
  sendOneRequest :
    store → GoSNMP → list SnmpPDU → SnmpPacket → bool → outcome (store * GoSNMP * SnmpPacket)
}.

(** ** Key localization (v3.go lines 245-296) *)

(** The inner loop [for e := 0; e < 64; e++] of [md5HMAC] and [shaHMAC]:
    [n] iterations remain, [pi] is the password index. *)
Fixpoint fill_chunk (n : nat) (password : bytes) (pi : Z) (chunk : bytes)
  : outcome (bytes * Z) :=
  match n with
  | O => Ok (chunk, pi)
  | S n' =>
      r ← go_rem pi (len password);
      b ← index password r;
      fill_chunk n' password (pi + 1) (chunk ++ [b])
  end.

(** The outer loop [for i := 0; i < 1048576; i += 64]: [n] iterations
    remain. *)
Fixpoint feed_password (n : nat) (password : bytes) (pi : Z) (comp : Hash)
  : outcome Hash :=
  match n with
  | O => Ok comp
  | S n' =>
      '(chunk, pi') ← fill_chunk 64 password pi [];
      feed_password n' password pi' (hash_Write comp chunk)
  end.

Definition localize (alg : hash_alg) (password engineID : bytes) : outcome bytes :=
  comp ← feed_password (Z.to_nat (1048576 / 64)) password 0 (hash_New alg);
  let compressed := hash_Sum comp in
  let local := hash_New alg in
  let local := hash_Write local compressed in
  let local := hash_Write local engineID in
  let local := hash_Write local compressed in
  Ok (hash_Sum local).

Definition md5HMAC (password engineID : bytes) : outcome bytes :=
  localize AlgMD5 password engineID.

Definition shaHMAC (password engineID : bytes) : outcome bytes :=
  localize AlgSHA1 password engineID.

Definition genlocalkey (authProtocol : Z) (passphrase engineID : bytes) : outcome bytes :=
  if authProtocol =? SHA then shaHMAC passphrase engineID
  else md5HMAC passphrase engineID.

Definition newline : string := String (Ascii.ascii_of_nat 10) EmptyString.

(** ** Parameter validation (v3.go lines 88-126) *)

Definition validateParametersV3 (σ : store) (x : GoSNMP) : outcome unit :=
  if negb (Conn.SecurityModel x =? UserSecurityModel) then
    Err "The SNMPV3 User Security Model is the only SNMPV3 security model currently implemented"
  else
    match fst (as_usm (Conn.SecurityParameters x)) with
    | None =>
        Err "The SecurityParameters field does not contain a populated instance of UsmSecurityParameters"
    | Some l =>
        usm ← load σ l;
        let securityLevel := Z.land (Conn.MsgFlags x) AuthPriv in
        let caseNoAuthNoPriv : outcome unit :=
          if decide (UserName usm = []) then Err "SecurityParameters.UserName is required"
          else Ok () in
        let caseAuthNoPriv : outcome unit :=
          if AuthenticationProtocol usm <=? NoAuth then
            Err "SecurityParameters.AuthenticationProtocol is required"
          else if decide (AuthenticationPassphrase usm = []) then
            Err "SecurityParameters.AuthenticationPassphrase is required"
          else caseNoAuthNoPriv in
        let caseAuthPriv : outcome unit :=
          if PrivacyProtocol usm <=? NoPriv then
            Err "SecurityParameters.PrivacyProtocol is required"
          else if decide (PrivacyPassphrase usm = []) then
            Err "SecurityParameters.PrivacyPassphrase is required"
          else caseAuthNoPriv in
        if securityLevel =? AuthPriv then caseAuthPriv
        else if securityLevel =? AuthNoPriv then caseAuthNoPriv
        else if securityLevel =? NoAuthNoPriv then caseNoAuthNoPriv
        else Err "MsgFlags must be populated with an appropriate security level"
    end.

(** ** Copy (v3.go lines 128-144)

    The receiver is a pointer; the result is a pointer to a new object with
    the twelve fields of the old one.  [PrivacyParameters] is the one field
    of slice type: the two objects share its array, which v3.go only ever
    replaces as a whole. *)
Definition Copy (σ : store) (sp : option loc) : outcome (store * SnmpV3SecurityParameters) :=
  match sp with
  | None => Panic NilDereference
  | Some l =>
      u ← load σ l;
      let l' := fresh (dom σ) in
      Ok (<[l' := {| AuthoritativeEngineID := AuthoritativeEngineID u;
                     AuthoritativeEngineBoots := AuthoritativeEngineBoots u;
                     AuthoritativeEngineTime := AuthoritativeEngineTime u;
                     UserName := UserName u;
                     AuthenticationParameters := AuthenticationParameters u;
                     PrivacyParameters := PrivacyParameters u;
                     AuthenticationProtocol := AuthenticationProtocol u;
                     PrivacyProtocol := PrivacyProtocol u;
                     AuthenticationPassphrase := AuthenticationPassphrase u;
                     PrivacyPassphrase := PrivacyPassphrase u;
                     localDESSalt := localDESSalt u;
                     localAESSalt := localAESSalt u |}]> σ,
          UsmPointer (Some l'))
  end.

(** ** Authentication (v3.go lines 145-243) *)

(** [extkey], [k1] and [k2]: the key copied into a 64-byte array of zeros,
    XORed with 0x36 and with 0x5c. *)
Definition extkey_of (secretKey : bytes) : bytes := copy_into (zeros 64) 0 secretKey.
Definition k1_of (secretKey : bytes) : bytes := (λ b, Z.lxor b 0x36) <$> extkey_of secretKey.
Definition k2_of (secretKey : bytes) : bytes := (λ b, Z.lxor b 0x5c) <$> extkey_of secretKey.

Definition alg_of (authProtocol : Z) : hash_alg :=
  if authProtocol =? SHA then AlgSHA1 else AlgMD5.

(** Lines 182-197 and 219-234: [h2.Sum(nil)] after the two nested hashes. *)
Definition keyed_digest (authProtocol : Z) (secretKey msg : bytes) : bytes :=
  let h := hash_New (alg_of authProtocol) in
  let h2 := hash_New (alg_of authProtocol) in
  let h := hash_Write h (k1_of secretKey) in
  let h := hash_Write h msg in
  let d1 := hash_Sum h in
  let h2 := hash_Write h2 (k2_of secretKey) in
  let h2 := hash_Write h2 d1 in
  hash_Sum h2.

(** The body of [authenticate], before the deferred [recover]. *)
Definition authenticate_body (σ : store) (packet : SnmpPacket) (msg : slice)
    (authParamStart : Z) : outcome slice :=
  if negb (Version packet =? Version3) then Ok msg
  else if Z.land (MsgFlags packet) AuthNoPriv =? 0 then Ok msg
  else if negb (SecurityModel packet =? UserSecurityModel) then
    Err "Error authenticating message: Unknown security model."
  else
    match fst (as_usm (SecurityParameters packet)) with
    | None => Err "Error authenticating message: Unable to extract UsmSecurityParameters"
    | Some l =>
        secParams ← load σ l;
        secretKey ← genlocalkey (AuthenticationProtocol secParams)
                                (AuthenticationPassphrase secParams)
                                (AuthoritativeEngineID secParams);
        let sum := keyed_digest (AuthenticationProtocol secParams) secretKey (s_bytes msg) in
        tag ← bytes_upto sum 12;
        slice_copy msg authParamStart (uint32 (authParamStart + 12)) tag
    end.

(** [authenticate]: a panic of the body is recovered by the deferred
    function, and the call then returns the zero values [(nil, nil)]. *)
Definition authenticate (σ : store) (packet : SnmpPacket) (msg : slice)
    (authParamStart : Z) : option slice * option string :=
  match authenticate_body σ packet msg authParamStart with
  | Ok m => (Some m, None)
  | Err e => (None, Some e)
  | Panic _ => (None, None)
  end.

(** The loop of [isAuthentic] (lines 237-242) from index [k] on. *)
Fixpoint compare_tag (result : bytes) (k : Z) (authParams : bytes) : outcome bool :=
  match authParams with
  | [] => Ok true
  | v :: rest =>
      r ← index result k;
      if negb (r =? v) then Ok false else compare_tag result (k + 1) rest
  end.

Definition isAuthentic (msg : bytes) (authParams : bytes) (authProtocol : Z)
    (authPassphrase authEngineID : bytes) : outcome bool :=
  secretKey ← genlocalkey authProtocol authPassphrase authEngineID;
  result ← bytes_upto (keyed_digest authProtocol secretKey msg) 12;
  compare_tag result 0 authParams.

(** ** Per-packet salts (v3.go lines 304-376) *)

Definition buildPacket3 (σ : store) (x : GoSNMP) (msgID : Z) (allMsgIDs : list Z)
    (packetOut : SnmpPacket) : outcome (store * GoSNMP * SnmpPacket) :=
  let msgID := uint32 (Conn.msgID x + 1) in
  let x := Conn.set_msgID msgID x in
  let allMsgIDs := allMsgIDs ++ [msgID] in
  if (Z.land (Conn.MsgFlags x) AuthPriv >? AuthNoPriv)
     && (Conn.SecurityModel x =? UserSecurityModel) then
    match fst (as_usm (Conn.SecurityParameters x)) with
    | None =>
        Err "&GoSNMP.SecurityModel indicates the User Security Model, but &GoSNMP.SecurityParameters is not of type &UsmSecurityParameters"
    | Some bl =>
        baseSecParams ← load σ bl;
        let '(σ, newPktLocalAESSalt, newPktLocalDESSalt) :=
          if PrivacyProtocol baseSecParams =? AES then
            let v := uint64 (localAESSalt baseSecParams + 1) in
            (<[bl := set_localAESSalt v baseSecParams]> σ, v, 0)
          else if PrivacyProtocol baseSecParams =? DES then
            let v := uint32 (localDESSalt baseSecParams + 1) in
            (<[bl := set_localDESSalt v baseSecParams]> σ, 0, v)
          else (σ, 0, 0) in
        if (Version packetOut =? Version3)
           && (SecurityModel packetOut =? UserSecurityModel)
           && (Z.land (MsgFlags packetOut) AuthPriv >? AuthNoPriv) then
          match as_usm (SecurityParameters packetOut) with
          | (_, false) =>
              Err "packetOut.SecurityModel indicates the User Security Model, but packetOut.SecurityParameters is not of type &UsmSecurityParameters"
          | (None, true) => Panic NilDereference
          | (Some pl, true) =>
              pktSecParams ← load σ pl;
              let salt :=
                if PrivacyProtocol pktSecParams =? AES then be64 newPktLocalAESSalt
                else be32 (AuthoritativeEngineBoots pktSecParams) ++ be32 newPktLocalDESSalt in
              Ok (<[pl := set_PrivacyParameters salt pktSecParams]> σ, x, packetOut)
          end
        else Ok (σ, x, packetOut)
    end
  else Ok (σ, x, packetOut).

(** [setSalt]; [rand n] stands for [crand.Read] on [n] bytes, which gives
    the bytes or an error. *)
Definition setSalt (rand : Z → outcome bytes) (σ : store) (x : GoSNMP)
  : outcome (store * GoSNMP) :=
  let x := Conn.set_MsgFlags (Z.lor (Conn.MsgFlags x) Reportable) x in
  if Conn.SecurityModel x =? UserSecurityModel then
    match fst (as_usm (Conn.SecurityParameters x)) with
    | None =>
        Err "&GoSNMP.SecurityModel indicates the User Security Model, but &GoSNMP.SecurityParameters is not of type &UsmSecurityParameters"
    | Some l =>
        secParams ← load σ l;
        if PrivacyProtocol secParams =? AES then
          match rand 8 with
          | Ok salt =>
              let v := Digest.word_be (take 4 salt) * 2 ^ 32 + Digest.word_be (drop 4 salt) in
              Ok (<[l := set_localAESSalt v secParams]> σ, x)
          | Err e => Err ("Error creating a cryptographically secure salt: " +:+ e +:+ newline)
          | Panic p => Panic p
          end
        else if PrivacyProtocol secParams =? DES then
          match rand 4 with
          | Ok salt => Ok (<[l := set_localDESSalt (Digest.word_be salt) secParams]> σ, x)
          | Err e => Err ("Error creating a cryptographically secure salt: " +:+ e +:+ newline)
          | Panic p => Panic p
          end
        else Ok (σ, x)
    end
  else Ok (σ, x).

(** ** Engine discovery (v3.go lines 383-491) *)

(** save the connection security parameters after a request/response *)
Definition storeSecurityParameters (σ : store) (x : GoSNMP) (result : SnmpPacket)
  : outcome (store * GoSNMP) :=
  if negb (Conn.Version x =? Version3) || negb (Version result =? Version3) then
    Err "storeParameters called with non Version3 connection or packet"
  else if negb (Conn.SecurityModel x =? SecurityModel result) then
    Err "connection security model does not match security model extracted from packet"
  else if SecurityModel result =? UserSecurityModel then
    match fst (as_usm (SecurityParameters result)) with
    | None =>
        Err "result.SecurityModel indicates the User Security Model, but result.SecurityParameters is not of type &UsmSecurityParameters"
    | Some nl =>
        newSecParams ← load σ nl;
        σ ← match fst (as_usm (Conn.SecurityParameters x)) with
            | Some cl =>
                connSecParams ← load σ cl;
                Ok (<[cl :=
                       set_AuthoritativeEngineTime (AuthoritativeEngineTime newSecParams)
                         (set_AuthoritativeEngineBoots (AuthoritativeEngineBoots newSecParams)
                            (set_AuthoritativeEngineID (AuthoritativeEngineID newSecParams)
                               connSecParams))]> σ)
            | None => Ok σ
            end;
        let x :=
          if decide (Conn.ContextEngineID x = [])
          then Conn.set_ContextEngineID (AuthoritativeEngineID newSecParams) x
          else x in
        Ok (σ, x)
    end
  else Ok (σ, x).

(** update packet security parameters to match connection security parameters *)
Definition updatePktSecurityParameters (σ : store) (x : GoSNMP) (packetOut : SnmpPacket)
  : outcome (store * SnmpPacket) :=
  if negb (Conn.Version x =? Version3) || negb (Version packetOut =? Version3) then
    Err "updatePktSecurityParameters called with non Version3 connection or packet"
  else if negb (Conn.SecurityModel x =? SecurityModel packetOut) then
    Err "connection security model does not match security model extracted from packet"
  else
    σ ← (if Conn.SecurityModel x =? UserSecurityModel then
           match fst (as_usm (Conn.SecurityParameters x)) with
           | None =>
               Err "connection indicates UserSecurityModel but connection SecurityParameters are not of type *UsmSecurityParameters"
           | Some cl =>
               connectionSecParams ← load σ cl;
               match fst (as_usm (SecurityParameters packetOut)) with
               | None =>
                   Err "packetOut.SecurityModel indicates the UserSecurityModel, but packetOut.SecurityParameters is not of type *UsmSecurityParameters"
               | Some pl =>
                   pktSecParams ← load σ pl;
                   Ok (<[pl :=
                          set_AuthoritativeEngineTime (AuthoritativeEngineTime connectionSecParams)
                            (set_AuthoritativeEngineBoots (AuthoritativeEngineBoots connectionSecParams)
                               (set_AuthoritativeEngineID (AuthoritativeEngineID connectionSecParams)
                                  pktSecParams))]> σ)
               end
           end
         else Ok σ);
    let packetOut :=
      if decide (ContextEngineID packetOut = [])
      then set_ContextEngineID (Conn.ContextEngineID x) packetOut
      else packetOut in
    Ok (σ, packetOut).

Section Discovery.
Context `{PC : PduCodec} `{!Transport}.

(** A call of [x.sendOneRequest]: the PDUs, the packet, the store the
    packet's pointers refer to, and the [wait] flag. *)
Record request : Type := mkRequest {
  req_pdus : list SnmpPDU;
  req_packet : SnmpPacket;
  req_store : store;
  req_wait : bool
}.

(** The blank packet of lines 399-406; [l] is the new
    [&UsmSecurityParameters{}]. *)
Definition blankPacket (x : GoSNMP) (l : loc) : SnmpPacket :=
  {| Version := Version3;
     MsgFlags := Z.lor Reportable NoAuthNoPriv;
     SecurityModel := UserSecurityModel;
     SecurityParameters := UsmPointer (Some l);
     ContextEngineID := [];
     ContextName := [];
     PDUType := GetRequest;
     MsgID := 0;
     Logger := Conn.Logger x |}.

(** [negotiateInitialSecurityParameters]: the requests handed to
    [x.sendOneRequest], and the result. *)
Definition negotiateInitialSecurityParameters (σ : store) (x : GoSNMP)
    (packetOut : SnmpPacket) (wait : bool)
  : list request * outcome (store * GoSNMP * SnmpPacket) :=
  if negb (Conn.Version x =? Version3) || negb (Version packetOut =? Version3) then
    ([], Err "negotiateInitialSecurityParameters called with non Version3 connection or packet")
  else if negb (Conn.SecurityModel x =? SecurityModel packetOut) then
    ([], Err "connection security model does not match security model defined in packet")
  else if SecurityModel packetOut =? UserSecurityModel then
    match fst (as_usm (SecurityParameters packetOut)) with
    | None =>
        ([], Err "packetOut.SecurityModel indicates the User Security Model, but packetOut.SecurityParameters is not of type &UsmSecurityParameters")
    | Some l =>
        match load σ l with
        | Ok secParams =>
            if decide (AuthoritativeEngineID secParams = []) then
              let bl := fresh (dom σ) in
              let σ1 := <[bl := usm_zero]> σ in
              let blank := blankPacket x bl in
              let emptyPdus : list SnmpPDU := [] in
              ([mkRequest emptyPdus blank σ1 wait],
               '(σ2, x2, result) ← sendOneRequest σ1 x emptyPdus blank wait;
               '(σ3, x3) ← storeSecurityParameters σ2 x2 result;
               '(σ4, packetOut) ← updatePktSecurityParameters σ3 x3 packetOut;
               Ok (σ4, x3, packetOut))
            else ([], Ok (σ, x, packetOut))
        | Err e => ([], Err e)
        | Panic p => ([], Panic p)
        end
    end
  else ([], Ok (σ, x, packetOut)).
End Discovery.

(** ** Cipher modes of crypto/cipher over a block function *)

Fixpoint cbc_encrypt (enc : bytes → bytes) (n : nat) (iv src : bytes) : bytes :=
  match n with
  | O => []
  | S n' =>
      let c := enc (xor_bytes (take 8 src) iv) in
      c ++ cbc_encrypt enc n' c (drop 8 src)
  end.

Fixpoint cbc_decrypt (dec : bytes → bytes) (n : nat) (iv src : bytes) : bytes :=
  match n with
  | O => []
  | S n' =>
      let c := take 8 src in
      xor_bytes (dec c) iv ++ cbc_decrypt dec n' c (drop 8 src)
  end.

Fixpoint cfb_encrypt (enc : bytes → bytes) (n : nat) (iv src : bytes) : bytes :=
  match n with
  | O => []
  | S n' =>
      let c := xor_bytes (take 16 src) (enc iv) in
      c ++ cfb_encrypt enc n' c (drop 16 src)
  end.

Fixpoint cfb_decrypt (enc : bytes → bytes) (n : nat) (iv src : bytes) : bytes :=
  match n with
  | O => []
  | S n' =>
      let c := take 16 src in
      xor_bytes c (enc iv) ++ cfb_decrypt enc n' c (drop 16 src)
  end.

(** [des.BlockSize] *)
Definition des_BlockSize : Z := 8.

(** [mode.CryptBlocks(dst, src)] of a CBC mode over DES, [dst] as long as
    [src]. *)
Definition CryptBlocks (blk : bytes → bytes) (decrypt : bool) (iv src : bytes)
  : outcome bytes :=
  if negb (len src mod des_BlockSize =? 0) then Panic NotFullBlocks
  else
    let n := Z.to_nat (len src / des_BlockSize) in
    Ok (if decrypt then cbc_decrypt blk n iv src else cbc_encrypt blk n iv src).

(** [stream.XORKeyStream(dst, src)] of a CFB mode over AES from a fresh
    stream, [dst] as long as [src]. *)
Definition XORKeyStream (blk : bytes → bytes) (decrypt : bool) (iv src : bytes) : bytes :=
  let n := Z.to_nat ((len src + 15) / 16) in
  if decrypt then cfb_decrypt blk n iv src else cfb_encrypt blk n iv src.

(** [des.NewCipher] and [aes.NewCipher] check the size of the key. *)
Definition des_NewCipher (key : bytes) : outcome bytes :=
  if len key =? 8 then Ok key else Err "crypto/des: invalid key size".
Definition aes_NewCipher (key : bytes) : outcome bytes :=
  if (len key =? 16) || (len key =? 24) || (len key =? 32) then Ok key
  else Err "crypto/aes: invalid key size".

(** The AES initialization vector of lines 606-609 and 888-891. *)
Definition aes_iv (secParams : UsmSecurityParameters) : bytes :=
  let iv := zeros 16 in
  let iv := copy_into iv 0 (be32 (AuthoritativeEngineBoots secParams)) in
  let iv := copy_into iv 4 (be32 (AuthoritativeEngineTime secParams)) in
  copy_into iv 8 (PrivacyParameters secParams).

(** The DES initialization vector of lines 625-629 and 906-910: [n] turns
    of the loop remain, [i] is the index. *)
Fixpoint des_iv (n : nat) (i : Z) (preiv privacyParameters iv : bytes) : outcome bytes :=
  match n with
  | O => Ok iv
  | S n' =>
      a ← index preiv i;
      b ← index privacyParameters i;
      des_iv n' (i + 1) preiv privacyParameters (copy_into iv (Z.to_nat i) [Z.lxor a b])
  end.

(** [fmt.Errorf(prefix + "%s", err.Error())] on a failing call. *)
Definition wrap_err {A} (prefix : string) (m : outcome A) : outcome A :=
  match m with
  | Err e => Err (prefix +:+ e)
  | _ => m
  end.

(** ** Message builder (v3.go lines 494-721) *)

Section Builder.
Context `{BC : BerCodec} `{PC : PduCodec} `{CI : BlockCiphers}.

(** marshal a snmp version 3 packet header *)
Definition marshalSnmpV3Header (packet : SnmpPacket) (msgid : Z) : outcome bytes :=
  let buf := [Integer; 4] in
  let buf := buf ++ be32 msgid in
  let maxmsgsize := marshalUvarInt rxBufSize in
  let buf := buf ++ [Integer; uint8 (len maxmsgsize)] in
  let buf := buf ++ maxmsgsize in
  let buf := buf ++ [OctetString; 1; uint8 (MsgFlags packet)] in
  let buf := buf ++ [Integer; 1; uint8 (SecurityModel packet)] in
  Ok buf.

(** marshal a snmp version 3 security parameters field for the User
    Security Model *)
Definition marshalSnmpV3UsmSecurityParameters (σ : store) (packet : SnmpPacket)
  : outcome (bytes * Z) :=
  match fst (as_usm (SecurityParameters packet)) with
  | None => Err "packet.SecurityParameters is not of type &UsmSecurityParameters"
  | Some l =>
      secParams ← load σ l;
      let buf := [OctetString; uint8 (len (AuthoritativeEngineID secParams))] in
      let buf := buf ++ AuthoritativeEngineID secParams in
      let msgAuthoritativeEngineBoots := marshalUvarInt (AuthoritativeEngineBoots secParams) in
      let buf := buf ++ [Integer; uint8 (len msgAuthoritativeEngineBoots)] in
      let buf := buf ++ msgAuthoritativeEngineBoots in
      let msgAuthoritativeEngineTime := marshalUvarInt (AuthoritativeEngineTime secParams) in
      let buf := buf ++ [Integer; uint8 (len msgAuthoritativeEngineTime)] in
      let buf := buf ++ msgAuthoritativeEngineTime in
      let buf := buf ++ [OctetString; uint8 (len (UserName secParams))] in
      let buf := buf ++ UserName secParams in
      let authParamStart := uint32 (len buf + 2) in
      let buf :=
        if Z.land (MsgFlags packet) AuthNoPriv >? 0
        then buf ++ [OctetString; 12; 0; 0; 0; 0; 0; 0; 0; 0; 0; 0; 0; 0]
        else buf ++ [OctetString; 0] in
      buf ← (if Z.land (MsgFlags packet) AuthPriv >? AuthNoPriv then
               privlen ← marshalLength (len (PrivacyParameters secParams));
               Ok (buf ++ [OctetString] ++ privlen ++ PrivacyParameters secParams)
             else Ok (buf ++ [OctetString; 0]));
      paramLen ← marshalLength (len buf);
      let tmpseq := [Sequence] ++ paramLen in
      let authParamStart := uint32 (authParamStart + uint32 (len tmpseq)) in
      let tmpseq := tmpseq ++ buf in
      Ok (tmpseq, authParamStart)
  end.

(** prepare the plain text of a snmp version 3 Scoped PDU *)
Definition prepareSnmpV3ScopedPDU (packet : SnmpPacket) (pdus : list SnmpPDU)
    (requestid : Z) : outcome bytes :=
  idlen ← marshalLength (len (ContextEngineID packet));
  let buf := [OctetString] ++ idlen in
  let buf := buf ++ ContextEngineID packet in
  namelen ← marshalLength (len (ContextName packet));
  let buf := buf ++ ([OctetString] ++ namelen) in
  let buf := buf ++ ContextName packet in
  data ← marshalPDU packet pdus requestid;
  Ok (buf ++ data).

(** Lines 586-595 of [marshalSnmpV3ScopedPDU]: the plaintext scoped PDU
    under its sequence header. *)
Definition plainScopedPDU (packet : SnmpPacket) (pdus : list SnmpPDU) (requestid : Z)
  : outcome bytes :=
  scopedPdu ← prepareSnmpV3ScopedPDU packet pdus requestid;
  pduLen ← marshalLength (len scopedPdu);
  let b := [Sequence] ++ pduLen in
  Ok (b ++ scopedPdu).

(** marshal and encrypt (if necessary) a snmp version 3 Scoped PDU *)
Definition marshalSnmpV3ScopedPDU (σ : store) (packet : SnmpPacket)
    (pdus : list SnmpPDU) (requestid : Z) : outcome bytes :=
  scopedPdu ← plainScopedPDU packet pdus requestid;
  if (Z.land (MsgFlags packet) AuthPriv >? AuthNoPriv)
     && (SecurityModel packet =? UserSecurityModel) then
    match fst (as_usm (SecurityParameters packet)) with
    | None =>
        Err "packet.SecurityModel indicates the User Security Model, but packet.SecurityParameters is not of type &UsmSecurityParameters"
    | Some l =>
        secParams ← load σ l;
        privkey ← genlocalkey (AuthenticationProtocol secParams)
                              (PrivacyPassphrase secParams)
                              (AuthoritativeEngineID secParams);
        if PrivacyProtocol secParams =? AES then
          let iv := aes_iv secParams in
          key ← bytes_upto privkey 16;
          block ← aes_NewCipher key;
          let ciphertext := XORKeyStream (aes_encrypt_block block) false iv scopedPdu in
          pduLen ← marshalLength (len ciphertext);
          let b := [OctetString] ++ pduLen in
          Ok (b ++ ciphertext)
        else
          preiv ← bytes_from privkey 8;
          iv ← des_iv 8 0 preiv (PrivacyParameters secParams) (zeros 8);
          key ← bytes_upto privkey 8;
          block ← des_NewCipher key;
          let pad := zeros (des_BlockSize - Z.rem (len scopedPdu) des_BlockSize) in
          let scopedPdu := scopedPdu ++ pad in
          ciphertext ← CryptBlocks (des_encrypt_block block) false iv scopedPdu;
          pduLen ← marshalLength (len ciphertext);
          let b := [OctetString] ++ pduLen in
          Ok (b ++ ciphertext)
    end
  else Ok scopedPdu.

(** [prepV3pPDU]: the buffer with the message appended, and the offset of
    the authentication parameters in it. *)
Definition prepV3pPDU (σ : store) (packet : SnmpPacket) (msgid : Z) (buf : bytes)
    (pdus : list SnmpPDU) (requestid : Z) : outcome (bytes * Z) :=
  header ← marshalSnmpV3Header packet msgid;
  let buf := buf ++ [Sequence; uint8 (len header)] in
  let buf := buf ++ header in
  '(securityParameters, authParamStart) ←
    (if SecurityModel packet =? UserSecurityModel
     then marshalSnmpV3UsmSecurityParameters σ packet
     else Ok ([], 0));
  let buf := buf ++ [OctetString] in
  secParamLen ← marshalLength (len securityParameters);
  let buf := buf ++ secParamLen in
  let authParamStart := uint32 (authParamStart + uint32 (len buf)) in
  let buf := buf ++ securityParameters in
  scopedPdu ← marshalSnmpV3ScopedPDU σ packet pdus requestid;
  let buf := buf ++ scopedPdu in
  Ok (buf, authParamStart).
End Builder.

(** ** Message parser (v3.go lines 723-957)

    [extractV3Packet] is cut in three: the global header (lines 728-776),
    the USM security parameters (lines 778-870) and the scoped PDU (lines
    871-956); the second part is cut again around the authenticity check
    and the third around the decryption.  The receiver is used for logging
    only. *)

Section Parser.
Context `{BC : BerCodec} `{CI : BlockCiphers}.

(** Lines 728-776: the cursor after the header of [msgSecurityParameters]
    and the response with [MsgID], [MsgFlags] and [SecurityModel] set. *)
Definition extractV3Packet_header (packet : slice) (cursor : Z) (response : SnmpPacket)
  : outcome (Z * SnmpPacket) :=
  t ← slice_index packet cursor;
  if negb (t =? Sequence) then Err ("Invalid SNMPV3 Header" +:+ newline) else
  s ← slice_from packet cursor;
  '(_, cursorTmp) ← parseLength s;
  let cursor := cursor + cursorTmp in
  s ← slice_from packet cursor;
  '(rawMsgID, count) ← wrap_err "Error parsing SNMPV3 message ID: " (parseRawField s "msgID");
  let cursor := cursor + count in
  let response :=
    match rawMsgID with RawInt MsgID => set_MsgID (uint32 MsgID) response | _ => response end in
  s ← slice_from packet cursor;
  '(_, count) ← wrap_err "Error parsing SNMPV3 maxMsgSize: " (parseRawField s "maxMsgSize");
  let cursor := cursor + count in
  s ← slice_from packet cursor;
  '(rawMsgFlags, count) ← wrap_err "Error parsing SNMPV3 msgFlags: " (parseRawField s "msgFlags");
  let cursor := cursor + count in
  response ← match rawMsgFlags with
             | RawString MsgFlags => f ← index MsgFlags 0; Ok (set_MsgFlags f response)
             | _ => Ok response
             end;
  s ← slice_from packet cursor;
  '(rawSecModel, count) ←
    wrap_err "Error parsing SNMPV3 msgSecModel: " (parseRawField s "msgSecurityModel");
  let cursor := cursor + count in
  let response :=
    match rawSecModel with
    | RawInt SecModel => set_SecurityModel (uint8 SecModel) response
    | _ => response
    end in
  t ← slice_index packet cursor;
  if negb (t =? OctetString) then Err ("Invalid SNMPV3 Security Parameters" +:+ newline) else
  s ← slice_from packet cursor;
  '(_, cursorTmp) ← parseLength s;
  let cursor := cursor + cursorTmp in
  Ok (cursor, response).

(** Lines 840-856: the authenticity check.  [count] is the size of the
    [msgAuthenticationParameters] field that starts at [cursor]. *)
Definition extractV3Packet_auth (packet : slice) (cursor count : Z)
    (response : SnmpPacket) (secParameters : UsmSecurityParameters)
    (OrigAuthEngineID : bytes) : outcome slice :=
  let OrigMsgFlags := MsgFlags response in
  if Z.land OrigMsgFlags AuthNoPriv >? 0 then
    if negb (count =? 14) then
      Err "Error authenticating incoming packet: msgAuthenticationParameters is not the correct size"
    else
      let blank := zeros 12 in
      packet ← slice_copy packet (cursor + 2) (cursor + 14) blank;
      authentic ← isAuthentic (s_bytes packet) (AuthenticationParameters secParameters)
                              (AuthenticationProtocol secParameters)
                              (AuthenticationPassphrase secParameters)
                              OrigAuthEngineID;
      if negb authentic then Err "Incoming packet is not authentic, discarding"
      else Ok packet
  else Ok packet.

(** Lines 784-839: the five fields before the authenticity check.  The
    result is the cursor at [msgAuthenticationParameters], the size of
    that field, and the security parameters read so far. *)
Definition extractV3Packet_fields (packet : slice) (cursor : Z)
    (secParameters : UsmSecurityParameters)
  : outcome (Z * Z * UsmSecurityParameters) :=
  t ← slice_index packet cursor;
  if negb (t =? Sequence) then
    Err ("Error parsing SNMPV3 User Security Model parameters" +:+ newline)
  else
  s ← slice_from packet cursor;
  '(_, cursorTmp) ← parseLength s;
  let cursor := cursor + cursorTmp in
  s ← slice_from packet cursor;
  '(raw, count) ←
    wrap_err "Error parsing SNMPV3 User Security Model msgAuthoritativeEngineID: "
             (parseRawField s "msgAuthoritativeEngineID");
  let cursor := cursor + count in
  let secParameters :=
    match raw with
    | RawString v => set_AuthoritativeEngineID v secParameters
    | _ => secParameters
    end in
  s ← slice_from packet cursor;
  '(raw, count) ←
    wrap_err "Error parsing SNMPV3 User Security Model msgAuthoritativeEngineBoots: "
             (parseRawField s "msgAuthoritativeEngineBoots");
  let cursor := cursor + count in
  let secParameters :=
    match raw with
    | RawInt v => set_AuthoritativeEngineBoots (uint32 v) secParameters
    | _ => secParameters
    end in
  s ← slice_from packet cursor;
  '(raw, count) ←
    wrap_err "Error parsing SNMPV3 User Security Model msgAuthoritativeEngineTime: "
             (parseRawField s "msgAuthoritativeEngineTime");
  let cursor := cursor + count in
  let secParameters :=
    match raw with
    | RawInt v => set_AuthoritativeEngineTime (uint32 v) secParameters
    | _ => secParameters
    end in
  s ← slice_from packet cursor;
  '(raw, count) ←
    wrap_err "Error parsing SNMPV3 User Security Model msgUserName: "
             (parseRawField s "msgUserName");
  let cursor := cursor + count in
  let secParameters :=
    match raw with
    | RawString v => set_UserName v secParameters
    | _ => secParameters
    end in
  s ← slice_from packet cursor;
  '(raw, count) ←
    wrap_err "Error parsing SNMPV3 User Security Model msgAuthenticationParameters: "
             (parseRawField s "msgAuthenticationParameters");
  let secParameters :=
    match raw with
    | RawString v => set_AuthenticationParameters v secParameters
    | _ => secParameters
    end in
  Ok (cursor, count, secParameters).

(** Lines 857-867: [msgPrivacyParameters]. *)
Definition extractV3Packet_privacy (packet : slice) (cursor : Z)
    (secParameters : UsmSecurityParameters) : outcome (Z * UsmSecurityParameters) :=
  s ← slice_from packet cursor;
  '(raw, count) ←
    wrap_err "Error parsing SNMPV3 User Security Model msgPrivacyParameters: "
             (parseRawField s "msgPrivacyParameters");
  let cursor := cursor + count in
  let secParameters :=
    match raw with
    | RawString v => set_PrivacyParameters v secParameters
    | _ => secParameters
    end in
  Ok (cursor, secParameters).

(** Lines 778-870. *)
Definition extractV3Packet_usm (σ : store) (packet : slice) (cursor : Z)
    (response : SnmpPacket) (OrigAuthEngineID : bytes) : outcome (store * slice * Z) :=
  if SecurityModel response =? UserSecurityModel then
    match fst (as_usm (SecurityParameters response)) with
    | None =>
        Err "&GoSNMP.SecurityModel indicates the User Security Model, but &GoSNMP.SecurityParameters is not of type &UsmSecurityParameters"
    | Some l =>
        secParameters ← load σ l;
        '(cursor, count, secParameters) ← extractV3Packet_fields packet cursor secParameters;
        packet ← extractV3Packet_auth packet cursor count response secParameters
                                      OrigAuthEngineID;
        let cursor := cursor + count in
        '(cursor, secParameters) ← extractV3Packet_privacy packet cursor secParameters;
        Ok (<[l := secParameters]> σ, packet, cursor)
    end
  else Ok (σ, packet, cursor).

(** Lines 873-925, the case of an encrypted PDU: the plaintext is copied
    over the octet string and the packet cut after it. *)
Definition extractV3Packet_decrypt (σ : store) (packet : slice) (cursor : Z)
    (response : SnmpPacket) : outcome slice :=
  s ← slice_from packet cursor;
  '(_, cursorTmp) ← parseLength s;
  let cursorTmp := cursorTmp + cursor in
  if SecurityModel response =? UserSecurityModel then
    match fst (as_usm (SecurityParameters response)) with
    | None =>
        Err "response.SecurityModel indicates the User Security Model, but response.SecurityParameters is not of type &UsmSecurityParameters"
    | Some l =>
        secParams ← load σ l;
        privkey ← genlocalkey (AuthenticationProtocol secParams)
                              (PrivacyPassphrase secParams)
                              (AuthoritativeEngineID secParams);
        if PrivacyProtocol secParams =? AES then
          let iv := aes_iv secParams in
          key ← bytes_upto privkey 16;
          block ← aes_NewCipher key;
          src ← slice_from packet cursorTmp;
          let plaintext := XORKeyStream (aes_encrypt_block block) true iv (s_bytes src) in
          packet ← slice_copy_from packet cursor plaintext;
          slice_upto packet (cursor + len plaintext)
        else
          src ← slice_from packet cursorTmp;
          if negb (Z.rem (s_len src) des_BlockSize =? 0) then
            Err "Error decrypting ScopedPDU: not multiple of des block size."
          else
          preiv ← bytes_from privkey 8;
          iv ← des_iv 8 0 preiv (PrivacyParameters secParams) (zeros 8);
          key ← bytes_upto privkey 8;
          block ← des_NewCipher key;
          plaintext ← CryptBlocks (des_decrypt_block block) true iv (s_bytes src);
          packet ← slice_copy_from packet cursor plaintext;
          slice_upto packet (cursor + len plaintext)
    end
  else Ok packet.

(** Lines 929-951, the case of a plaintext PDU, which the encrypted case
    falls through to. *)
Definition extractV3Packet_plain (packet : slice) (cursor : Z) (response : SnmpPacket)
  : outcome (SnmpPacket * slice * Z) :=
  s ← slice_from packet cursor;
  '(tlength, cursorTmp) ← parseLength s;
  packet ← slice_upto packet (cursor + tlength);
  let cursor := cursor + cursorTmp in
  s ← slice_from packet cursor;
  '(raw, count) ←
    wrap_err "Error parsing SNMPV3 contextEngineID: " (parseRawField s "contextEngineID");
  let cursor := cursor + count in
  let response :=
    match raw with RawString v => set_ContextEngineID v response | _ => response end in
  s ← slice_from packet cursor;
  '(raw, count) ←
    wrap_err "Error parsing SNMPV3 contextName: " (parseRawField s "contextName");
  let cursor := cursor + count in
  let response :=
    match raw with RawString v => set_ContextName v response | _ => response end in
  Ok (response, packet, cursor).

(** Lines 871-956. *)
Definition extractV3Packet_scoped (σ : store) (packet : slice) (cursor : Z)
    (response : SnmpPacket) : outcome (SnmpPacket * slice * Z) :=
  t ← slice_index packet cursor;
  if t =? OctetString then
    packet ← extractV3Packet_decrypt σ packet cursor response;
    extractV3Packet_plain packet cursor response
  else if t =? Sequence then
    extractV3Packet_plain packet cursor response
  else Err ("Error parsing SNMPV3 scoped PDU" +:+ newline).

(** [extractV3Packet]: the store and the response as the parse leaves
    them, the packet and the cursor it returns. *)
Definition extractV3Packet (σ : store) (x : GoSNMP) (packet : slice) (cursor : Z)
    (response : SnmpPacket) (OrigAuthEngineID : bytes)
  : outcome (store * SnmpPacket * slice * Z) :=
  '(cursor, response) ← extractV3Packet_header packet cursor response;
  '(σ, packet, cursor) ← extractV3Packet_usm σ packet cursor response OrigAuthEngineID;
  '(response, packet, cursor) ← extractV3Packet_scoped σ packet cursor response;
  Ok (σ, response, packet, cursor).
End Parser.

(** ** Stand-ins for the code outside v3.go

    The examples at the end of the file need values for the BER primitives,
    the PDU layer and the block ciphers. *)

Module Std.

(** [s[a:b]] as a string. *)
Definition slice_sub (s : slice) (a b : Z) : outcome bytes :=
  if (0 <=? a) && (a <=? b) && (b <=? s_cap s)
  then Ok (take (Z.to_nat (b - a)) (drop (Z.to_nat a) (s_arr s)))
  else Panic SliceBounds.

Fixpoint be_value (b : bytes) (acc : Z) : Z :=
  match b with
  | [] => acc
  | x :: rest => be_value rest (acc * 256 + x)
  end.

(** The bytes of [n] without leading zeros, most significant first;
    [fuel] bounds their number. *)
Fixpoint be_digits (fuel : nat) (n : Z) (acc : bytes) : bytes :=
  match fuel with
  | O => acc
  | S fuel' => if n =? 0 then acc else be_digits fuel' (n / 256) (n mod 256 :: acc)
  end.

(** Modelled from the spec: section 6, "Length encoding: short form
    (< 128) and long form with up to 4 length bytes", and section 7,
    [SerializeTooLarge], for [marshalLength] of helper.go. *)
Definition marshalLength (n : Z) : outcome bytes :=
  if n <? 0 then Err "length must be greater than zero"
  else if n <? 128 then Ok [n]
  else if n <? 2 ^ 32 then
    let d := be_digits 4 n [] in Ok ((128 + len d) :: d)
  else Err "length exceeds the long form supported".

(** Modelled from the spec: section 4.5, integers of 1 to 5 bytes with a
    leading zero when the top bit is set, for [marshalUvarInt] of
    helper.go. *)
Definition marshalUvarInt (x : Z) : bytes :=
  let d := match be_digits 4 (uint32 x) [] with [] => [0] | d => d end in
  if 128 <=? hd 0 d then 0 :: d else d.

(** Modelled from the spec: section 6, the length octets after the tag,
    for [parseLength] of helper.go: the length of the whole field and of
    its header. *)
Definition parseLength (s : slice) : outcome (Z * Z) :=
  b ← slice_index s 1;
  if b <? 128 then Ok (b + 2, 2)
  else
    let numOctets := b - 128 in
    octets ← slice_sub s 2 (2 + numOctets);
    if negb (2 + numOctets <=? s_len s) then Panic IndexOutOfRange
    else Ok (be_value octets 0 + 2 + numOctets, 2 + numOctets).

(** Modelled from the spec: section 6, INTEGER = 0x02 and OCTET STRING =
    0x04 fields, for [parseRawField] of helper.go. *)
Definition parseRawField (s : slice) (msg : string) : outcome (rawField * Z) :=
  t ← slice_index s 0;
  if t =? Integer then
    length ← slice_index s 1;
    v ← slice_sub s 2 (2 + length);
    if negb (2 + length <=? s_len s) then Err "not enough data for Integer"
    else Ok (RawInt (be_value v 0), length + 2)
  else if t =? OctetString then
    '(length, cursor) ← parseLength s;
    v ← slice_sub s cursor length;
    Ok (RawString v, length)
  else Err "Unknown field type".

Definition codec : BerCodec :=
  Build_BerCodec 65535 marshalLength marshalUvarInt parseLength parseRawField.

(** Modelled from the spec: section 4.7, a GetRequest PDU (tag 0xa0) with
    a request id, error status 0, error index 0 and the empty varbind
    list the discovery probe carries, for [marshalPDU] of marshal.go; the
    PDUs themselves are left out. *)
Definition marshalPDU (packet : SnmpPacket) (pdus : list unit) (requestid : Z)
  : outcome bytes :=
  let rid := marshalUvarInt requestid in
  let body := [Integer; len rid] ++ rid ++ [Integer; 1; 0; Integer; 1; 0; Sequence; 0] in
  Ok ([PDUType packet; len body] ++ body).

Definition pdus : PduCodec := Build_PduCodec unit 0xa0 marshalPDU.

(** A block cipher to run the modes on: XOR with the key, repeated to the
    size of the block.  It is its own inverse. *)
Fixpoint cycle_key (n : nat) (key k : bytes) : bytes :=
  match n with
  | O => []
  | S n' =>
      match k with
      | [] => match key with [] => 0 :: cycle_key n' key [] | x :: r => x :: cycle_key n' key r end
      | x :: r => x :: cycle_key n' key r
      end
  end.
Definition xor_block (key block : bytes) : bytes :=
  xor_bytes block (cycle_key (length block) key key).

Definition ciphers : BlockCiphers := Build_BlockCiphers xor_block xor_block xor_block.

(** A transport whose agent answers every request with the report
    [reply], whose USM parameters are stored at a fresh location. *)
Definition sendOneRequest (reply : UsmSecurityParameters)
    (σ : store) (x : GoSNMP) (pdus : list unit) (packetOut : SnmpPacket) (wait : bool)
  : outcome (store * GoSNMP * SnmpPacket) :=
  let l := fresh (dom σ) in
  Ok (<[l := reply]> σ, x,
      mkPacket Version3 NoAuthNoPriv UserSecurityModel (UsmPointer (Some l))
               (AuthoritativeEngineID reply) [] 0xa8 (MsgID packetOut) (Logger packetOut)).

Definition transport (reply : UsmSecurityParameters) : @Transport pdus :=
  @Build_Transport pdus (sendOneRequest reply).

End Std.

(** The stream RFC 3414 A.2 hashes: the first [n] bytes of the passphrase
    repeated cyclically, here from position [start] on. *)
Definition cyclic_part (p : bytes) (start n : nat) : bytes :=
  (λ k, nth (k mod length p)%nat p 0) <$> seq start n.
Definition cyclic_stream (p : bytes) (n : nat) : bytes := cyclic_part p 0 n.

(** [n] outbound builds in a row on one connection, as the request loop
    runs them; the result lists the privacy parameters each build left in
    the packet. *)
Fixpoint builds (n : nat) (σ : store) (x : GoSNMP) (packetOut : SnmpPacket)
  : outcome (store * GoSNMP * list bytes) :=
  match n with
  | O => Ok (σ, x, [])
  | S n' =>
      '(σ, x, packetOut) ← buildPacket3 σ x 0 [] packetOut;
      salt ← match fst (as_usm (SecurityParameters packetOut)) with
             | Some pl => u ← load σ pl; Ok (PrivacyParameters u)
             | None => Ok []
             end;
      '(σ, x, salts) ← builds n' σ x packetOut;
      Ok (σ, x, salt :: salts)
  end.

(** RFC 3414 A.2 in the words of the specification: [Ku] is the digest of
    the first 1,048,576 bytes of the cyclic stream, and the localized key
    is the digest of [Ku || engine_id || Ku]. *)
Definition localized_key (alg : hash_alg) (passphrase engine_id : bytes) : bytes :=
  let Ku := digest alg (cyclic_stream passphrase (Z.to_nat 1048576)) in
  digest alg (Ku ++ engine_id ++ Ku).

(** RFC 2104 in the words of the specification: [H(K0 xor opad || H(K0 xor
    ipad || text))], where [K0] is the key extended with zeros to the
    64-byte block, ipad is 0x36 and opad is 0x5C in every byte. *)
Definition hmac_rfc2104 (H : bytes → bytes) (K text : bytes) : bytes :=
  let K0 := K ++ zeros (64 - len K) in
  let ipad := replicate 64 0x36 in
  let opad := replicate 64 0x5C in
  H (xor_bytes K0 opad ++ H (xor_bytes K0 ipad ++ text)).

(** * Properties *)

(** ** Digests *)

Example md5_abc :
  Digest.md5 [97; 98; 99]
  = [0x90; 0x01; 0x50; 0x98; 0x3c; 0xd2; 0x4f; 0xb0; 0xd6; 0x96; 0x3f; 0x7d; 0x28; 0xe1; 0x7f; 0x72].
Proof. vm_compute. reflexivity. Qed.

Example sha1_abc :
  Digest.sha1 [97; 98; 99]
  = [0xa9; 0x99; 0x3e; 0x36; 0x47; 0x06; 0x81; 0x6a; 0xba; 0x3e;
     0x25; 0x71; 0x78; 0x50; 0xc2; 0x6c; 0x9c; 0xd0; 0xd8; 0x9d].
Proof. vm_compute. reflexivity. Qed.

Lemma md5_length m : length (Digest.md5 m) = 16%nat.
Proof.
  unfold Digest.md5.
  destruct (fold_left _ _ _) as [[[a b] c] d]. reflexivity.
Qed.

Lemma sha1_length m : length (Digest.sha1 m) = 20%nat.
Proof.
  unfold Digest.sha1.
  destruct (fold_left _ _ _) as [[[[a b] c] d] e]. reflexivity.
Qed.

Definition digest_size (alg : hash_alg) : nat :=
  match alg with AlgMD5 => 16 | AlgSHA1 => 20 end.

Lemma digest_length alg m : length (digest alg m) = digest_size alg.
Proof. destruct alg; [apply md5_length | apply sha1_length]. Qed.

(** ** Key localization *)

Section Localize.
Variable p : bytes.
Hypothesis p_nonempty : p ≠ [].

Lemma len_pos : 0 < len p.
Proof. unfold len. destruct p; [congruence | simpl; lia]. Qed.

Lemma fill_chunk_spec n : ∀ (s : nat) chunk,
  fill_chunk n p (Z.of_nat s) chunk = Ok (chunk ++ cyclic_part p s n, Z.of_nat (s + n)).
Proof.
  pose proof len_pos as Hp.
  induction n as [|n IH]; intros s chunk.
  - simpl. unfold cyclic_part. simpl. rewrite app_nil_r, Nat.add_0_r. reflexivity.
  - cbn [fill_chunk]. unfold go_rem.
    destruct (Z.eqb_spec (len p) 0) as [E|_]; [lia|].
    cbn. rewrite Z.rem_mod_nonneg by lia.
    unfold index.
    pose proof (Z.mod_pos_bound (Z.of_nat s) (len p) Hp) as Hb.
    destruct (Z.leb_spec 0 (Z.of_nat s mod len p)); [|lia].
    destruct (Z.ltb_spec (Z.of_nat s mod len p) (len p)); [|lia].
    cbn. replace (Z.of_nat s + 1) with (Z.of_nat (S s)) by lia.
    rewrite IH. f_equal. f_equal.
    + rewrite <- app_assoc. f_equal. unfold cyclic_part. cbn. f_equal.
      unfold len. rewrite <- Nat2Z.inj_mod, Nat2Z.id. reflexivity.
    + lia.
Qed.

(** The chunks written by [n] turns of the outer loop that start at
    password index [s]. *)
Definition chunks_from (s n : nat) : list bytes :=
  (λ j, cyclic_part p (s + 64 * j) 64) <$> seq 0 n.

Lemma chunks_from_S s n :
  chunks_from s (S n) = cyclic_part p s 64 :: chunks_from (s + 64) n.
Proof.
  unfold chunks_from. cbn [seq fmap list_fmap]. f_equal.
  - f_equal. lia.
  - rewrite <- seq_shift, <- list_fmap_compose. apply list_fmap_ext.
    intros _ j _. unfold compose. f_equal. lia.
Qed.

Lemma feed_password_spec n : ∀ (s : nat) comp,
  feed_password n p (Z.of_nat s) comp
  = Ok (mkHash (h_alg comp) (h_written comp ++ chunks_from s n)).
Proof.
  induction n as [|n IH]; intros s comp.
  - cbn. rewrite app_nil_r. destruct comp; reflexivity.
  - cbn [feed_password]. rewrite fill_chunk_spec.
    unfold mbind, outcome_bind. cbv beta iota.
    rewrite IH, chunks_from_S. unfold hash_Write. cbn [h_alg h_written app].
    rewrite <- app_assoc. reflexivity.
Qed.

Lemma chunks_from_length s n : length (chunks_from s n) = n.
Proof. unfold chunks_from. rewrite length_fmap, length_seq. reflexivity. Qed.

Lemma chunks_from_sizes s n : Forall (λ c, length c = 64%nat) (chunks_from s n).
Proof.
  unfold chunks_from. apply Forall_fmap, Forall_forall. intros j _.
  unfold compose, cyclic_part. rewrite length_fmap, length_seq. reflexivity.
Qed.

Lemma chunks_from_concat n : ∀ s,
  concat (chunks_from s n) = cyclic_part p s (64 * n).
Proof.
  induction n as [|n IH]; intros s.
  - reflexivity.
  - rewrite chunks_from_S. cbn [concat]. rewrite IH.
    unfold cyclic_part. rewrite <- fmap_app, <- seq_app. do 2 f_equal. lia.
Qed.

Lemma localize_spec alg e :
  let Ku := digest alg (cyclic_stream p (Z.to_nat 1048576)) in
  localize alg p e = Ok (digest alg (Ku ++ e ++ Ku)).
Proof.
  unfold localize.
  rewrite (feed_password_spec _ 0%nat).
  unfold mbind, outcome_bind, hash_Sum, hash_Write, hash_New.
  cbn [h_alg h_written app concat]. rewrite chunks_from_concat, app_nil_r.
  change (1048576 / 64) with 16384.
  replace (64 * Z.to_nat 16384)%nat with (Z.to_nat 1048576) by lia.
  unfold cyclic_stream. reflexivity.
Qed.

Lemma genlocalkey_spec proto e :
  genlocalkey proto p e = Ok (localized_key (alg_of proto) p e).
Proof.
  unfold genlocalkey, alg_of, shaHMAC, md5HMAC.
  destruct (proto =? SHA); apply localize_spec.
Qed.
End Localize.

Lemma localized_key_length alg p e : length (localized_key alg p e) = digest_size alg.
Proof. apply digest_length. Qed.

(** ** The monad of outcomes *)

Lemma bind_Ok {A B} (m : outcome A) (f : A → outcome B) (b : B) :
  m ≫= f = Ok b ↔ ∃ a, m = Ok a ∧ f a = Ok b.
Proof.
  destruct m as [a|e|q]; cbn; split.
  - eauto.
  - intros (a' & [= <-] & ?). assumption.
  - discriminate.
  - intros (? & [=] & _).
  - discriminate.
  - intros (? & [=] & _).
Qed.

Lemma Ok_inj {A} (a b : A) : Ok a = Ok b → a = b.
Proof. congruence. Qed.

Lemma wrap_err_Ok {A} (s : string) (m : outcome A) (a : A) :
  wrap_err s m = Ok a ↔ m = Ok a.
Proof. destruct m; cbn; split; congruence. Qed.

(** Takes a hypothesis [H : m ≫= f = Ok b] apart, as far as it goes. *)
Ltac inv_bind H :=
  let a := fresh "a" in
  let Ha := fresh "Hstep" in
  apply bind_Ok in H as (a & Ha & H);
  try apply wrap_err_Ok in Ha.

Lemma uint32_small z : 0 ≤ z < 2 ^ 32 → uint32 z = z.
Proof. intros. unfold uint32. apply Z.mod_small. assumption. Qed.

Lemma uint32_range z : 0 ≤ uint32 z < 2 ^ 32.
Proof. unfold uint32. apply Z.mod_pos_bound. lia. Qed.

Lemma len_app {A} (a b : list A) : len (a ++ b) = len a + len b.
Proof. unfold len. rewrite length_app. lia. Qed.

Lemma len_nonneg {A} (a : list A) : 0 ≤ len a.
Proof. unfold len. lia. Qed.

(** ** Copying into an array *)

Lemma copy_into_length dst at_ src :
  (at_ ≤ length dst)%nat → length (copy_into dst at_ src) = length dst.
Proof.
  intros. unfold copy_into. rewrite !length_app, !length_take, length_drop. lia.
Qed.

Lemma copy_into_outside dst at_ src (i : nat) :
  (at_ ≤ length dst)%nat → (i < at_ ∨ at_ + length src ≤ i)%nat →
  copy_into dst at_ src !! i = dst !! i.
Proof.
  intros Hat Hi. unfold copy_into.
  destruct Hi as [Hi|Hi].
  - rewrite lookup_app_l by (rewrite length_take; lia).
    apply lookup_take_lt. lia.
  - rewrite lookup_app_r by (rewrite length_take; lia).
    rewrite length_take, Nat.min_l by lia.
    rewrite lookup_app_r by (rewrite length_take; lia).
    rewrite length_take, lookup_drop.
    destruct (decide (length src ≤ length dst - at_)%nat).
    + f_equal. lia.
    + rewrite !lookup_ge_None_2; [reflexivity | lia | lia].
Qed.

Lemma copy_into_fits dst at_ src :
  (at_ + length src ≤ length dst)%nat →
  copy_into dst at_ src = take at_ dst ++ src ++ drop (at_ + length src) dst.
Proof.
  intros. unfold copy_into. rewrite (take_ge src) by lia. reflexivity.
Qed.

(** ** Key localization, as a whole *)

(** The passphrase and engine id of RFC 3414 A.3: "maplesyrup" and
    00 00 00 00 00 00 00 00 00 00 00 02. *)
Definition maplesyrup : bytes := [109; 97; 112; 108; 101; 115; 121; 114; 117; 112].
Definition engine_a3 : bytes := [0; 0; 0; 0; 0; 0; 0; 0; 0; 0; 0; 2].

(** C1.  For a non-empty passphrase [p] and an engine id [e], key
    localization writes to the hash 64-byte chunks whose concatenation is
    the 1,048,576-byte stream of [p] repeated cyclically, takes [Ku] as the
    digest of it and returns [H(Ku || e || Ku)], which is [localized_key];
    the key has 16 bytes for MD5 and 20 bytes for SHA-1.  The result is the
    value of a function of [p] and [e] alone, so equal inputs give equal
    keys. *)
Theorem key_localization (p e : bytes) :
  p ≠ [] →
  let stream := cyclic_stream p (Z.to_nat 1048576) in
  length stream = Z.to_nat 1048576 ∧
  (∀ alg, ∃ comp,
      feed_password (Z.to_nat (1048576 / 64)) p 0 (hash_New alg) = Ok comp ∧
      Forall (λ chunk, length chunk = 64%nat) (h_written comp) ∧
      concat (h_written comp) = stream ∧
      localize alg p e = Ok (digest alg (hash_Sum comp ++ e ++ hash_Sum comp))) ∧
  md5HMAC p e = Ok (localized_key AlgMD5 p e) ∧
  shaHMAC p e = Ok (localized_key AlgSHA1 p e) ∧
  genlocalkey MD5 p e = md5HMAC p e ∧
  genlocalkey SHA p e = shaHMAC p e ∧
  length (localized_key AlgMD5 p e) = 16%nat ∧
  length (localized_key AlgSHA1 p e) = 20%nat.
Proof.
  intros Hp stream.
  split; [|split; [|split; [|split; [|split; [|split; [|split]]]]]].
  - unfold stream, cyclic_stream, cyclic_part. rewrite length_fmap, length_seq. reflexivity.
  - intros alg. eexists. split; [|split; [|split]].
    + change 0 with (Z.of_nat 0). apply (feed_password_spec p Hp).
    + cbn [h_written hash_New app]. apply chunks_from_sizes.
    + cbn [h_written hash_New app]. rewrite chunks_from_concat.
      change (1048576 / 64) with 16384.
      replace (64 * Z.to_nat 16384)%nat with (Z.to_nat 1048576) by lia.
      subst stream. unfold cyclic_stream. reflexivity.
    + rewrite (localize_spec p Hp). unfold localized_key, hash_Sum.
      cbn [h_written h_alg hash_New app]. rewrite chunks_from_concat.
      change (1048576 / 64) with 16384.
      replace (64 * Z.to_nat 16384)%nat with (Z.to_nat 1048576) by lia.
      unfold cyclic_stream. reflexivity.
  - apply (localize_spec p Hp).
  - apply (localize_spec p Hp).
  - reflexivity.
  - reflexivity.
  - exact (localized_key_length AlgMD5 p e).
  - exact (localized_key_length AlgSHA1 p e).
Qed.

Lemma key_localization_witness :
  md5HMAC maplesyrup engine_a3 = Ok (localized_key AlgMD5 maplesyrup engine_a3)
  ∧ length (localized_key AlgMD5 maplesyrup engine_a3) = 16%nat
  ∧ length (localized_key AlgSHA1 maplesyrup engine_a3) = 20%nat.
Proof.
  destruct (key_localization maplesyrup engine_a3 ltac:(discriminate))
    as (_ & _ & Hmd5 & _ & _ & _ & H16 & H20).
  exact (conj Hmd5 (conj H16 H20)).
Defined.

Lemma localize_empty alg e : localize alg [] e = Panic DivideByZero.
Proof. vm_compute. reflexivity. Qed.

Lemma genlocalkey_empty proto e : genlocalkey proto [] e = Panic DivideByZero.
Proof.
  unfold genlocalkey, shaHMAC, md5HMAC.
  destruct (proto =? SHA); apply localize_empty.
Qed.

#[global] Opaque Digest.md5 Digest.sha1 localize.

(** ** The authenticator *)

Lemma keyed_digest_length proto key msg :
  length (keyed_digest proto key msg) = digest_size (alg_of proto).
Proof. unfold keyed_digest, hash_Sum. cbn [h_alg hash_Write hash_New]. apply digest_length. Qed.

Lemma digest_size_ge alg : (16 ≤ digest_size alg)%nat.
Proof. destruct alg; cbn; lia. Qed.

Lemma tag_length proto key msg : length (take 12 (keyed_digest proto key msg)) = 12%nat.
Proof.
  rewrite length_take, keyed_digest_length.
  pose proof (digest_size_ge (alg_of proto)). lia.
Qed.

Lemma bytes_upto_tag proto key msg :
  bytes_upto (keyed_digest proto key msg) 12 = Ok (take 12 (keyed_digest proto key msg)).
Proof.
  unfold bytes_upto, len. rewrite keyed_digest_length.
  pose proof (digest_size_ge (alg_of proto)).
  destruct (Z.leb_spec 12 (Z.of_nat (digest_size (alg_of proto)))); [reflexivity | lia].
Qed.

Lemma index_lookup (s : bytes) (k : nat) x :
  s !! k = Some x → index s (Z.of_nat k) = Ok x.
Proof.
  intros H. unfold index, len.
  pose proof (lookup_lt_Some _ _ _ H).
  destruct (Z.leb_spec 0 (Z.of_nat k)); [|lia].
  destruct (Z.ltb_spec (Z.of_nat k) (Z.of_nat (length s))); [|lia].
  cbn. rewrite Nat2Z.id. f_equal. apply nth_lookup_Some with (d := 0) in H. assumption.
Qed.

Lemma compare_tag_spec result : ∀ authParams (k : nat),
  (k + length authParams ≤ length result)%nat →
  compare_tag result (Z.of_nat k) authParams
  = Ok (bool_decide (authParams = take (length authParams) (drop k result))).
Proof.
  induction authParams as [|v rest IH]; intros k Hk.
  - cbn. reflexivity.
  - cbn [length] in Hk. cbn [compare_tag].
    destruct (lookup_lt_is_Some_2 result k ltac:(lia)) as [r Hr].
    rewrite (index_lookup _ _ _ Hr). cbn [mbind outcome_bind].
    rewrite (drop_S _ _ _ Hr). cbn [length take].
    destruct (Z.eqb_spec r v) as [->|Hne]; cbn [negb].
    + replace (Z.of_nat k + 1) with (Z.of_nat (S k)) by lia.
      rewrite IH by lia. f_equal. apply bool_decide_ext. split; congruence.
    + rewrite bool_decide_false; [reflexivity | congruence].
Qed.

Lemma isAuthentic_spec msg authParams proto pass eng :
  pass ≠ [] → (length authParams ≤ 12)%nat →
  isAuthentic msg authParams proto pass eng
  = Ok (bool_decide
          (authParams
           = take (length authParams)
                  (take 12 (keyed_digest proto (localized_key (alg_of proto) pass eng) msg)))).
Proof.
  intros Hp Hn. unfold isAuthentic.
  rewrite (genlocalkey_spec pass Hp). cbn [mbind outcome_bind].
  rewrite bytes_upto_tag. cbn [mbind outcome_bind].
  change 0 with (Z.of_nat 0). rewrite compare_tag_spec.
  - rewrite drop_0. reflexivity.
  - rewrite tag_length. lia.
Qed.

(** C9.  [isAuthentic] compares the received authentication parameters
    with the prefix of the same length of the recomputed 12-byte tag: for a
    received string of at most 12 bytes the answer is whether it equals
    that prefix, so every prefix of the tag, the empty string included, is
    accepted. *)
Theorem isAuthentic_accepts_prefix (msg authPassphrase authEngineID : bytes)
    (authProtocol : Z) :
  authPassphrase ≠ [] →
  let key := localized_key (alg_of authProtocol) authPassphrase authEngineID in
  let tag := take 12 (keyed_digest authProtocol key msg) in
  genlocalkey authProtocol authPassphrase authEngineID = Ok key ∧
  length tag = 12%nat ∧
  (∀ authParams, (length authParams ≤ 12)%nat →
     isAuthentic msg authParams authProtocol authPassphrase authEngineID
     = Ok (bool_decide (authParams = take (length authParams) tag))) ∧
  (∀ n, isAuthentic msg (take n tag) authProtocol authPassphrase authEngineID = Ok true) ∧
  isAuthentic msg [] authProtocol authPassphrase authEngineID = Ok true.
Proof.
  intros Hp key tag.
  split; [apply (genlocalkey_spec _ Hp)|].
  split; [apply tag_length|].
  split; [|split].
  - intros authParams Hn. apply isAuthentic_spec; assumption.
  - intros n. rewrite isAuthentic_spec; [|assumption|].
    + f_equal. apply bool_decide_true. fold key. fold tag.
      rewrite length_take.
      destruct (decide (n ≤ length tag)%nat).
      * rewrite Nat.min_l by lia. reflexivity.
      * rewrite Nat.min_r by lia. rewrite !take_ge by lia. reflexivity.
    + rewrite length_take. fold key. fold tag. pose proof (tag_length authProtocol key msg).
      fold tag in H. lia.
  - rewrite isAuthentic_spec; [reflexivity | assumption | cbn; lia].
Qed.

Lemma isAuthentic_accepts_prefix_witness :
  isAuthentic [48; 0] [] MD5 maplesyrup engine_a3 = Ok true.
Proof.
  exact (proj2 (proj2 (proj2 (proj2
    (isAuthentic_accepts_prefix [48; 0] maplesyrup engine_a3 MD5 ltac:(discriminate)))))).
Defined.

Lemma zip_with_repeat {A B C} (f : A → B → C) (l : list A) (c : B) :
  zip_with f l (replicate (length l) c) = (λ x, f x c) <$> l.
Proof. induction l as [|x l IH]; cbn; [reflexivity | rewrite IH; reflexivity]. Qed.

Lemma zeros_length n : length (zeros n) = Z.to_nat n.
Proof. unfold zeros. apply length_replicate. Qed.

Lemma extkey_of_short key :
  (length key ≤ 64)%nat → extkey_of key = key ++ zeros (64 - len key).
Proof.
  intros H. unfold extkey_of, copy_into.
  rewrite take_0, Nat.sub_0_r, zeros_length. cbn [app].
  rewrite take_ge by lia. f_equal.
  unfold zeros. rewrite drop_replicate. f_equal. unfold len. lia.
Qed.

(** The nested hashes of [authenticate] and [isAuthentic] are HMAC as RFC
    2104 defines it, for a key no longer than the block. *)
Lemma keyed_digest_rfc2104 proto key msg :
  (length key ≤ 64)%nat →
  keyed_digest proto key msg = hmac_rfc2104 (digest (alg_of proto)) key msg.
Proof.
  intros H. unfold keyed_digest, hmac_rfc2104, hash_Sum, hash_Write, hash_New.
  cbn [h_alg h_written app concat]. rewrite !app_nil_r.
  unfold k1_of, k2_of. rewrite (extkey_of_short key H).
  assert (Hl : length (key ++ zeros (64 - len key)) = 64%nat).
  { rewrite length_app, zeros_length. unfold len. lia. }
  unfold xor_bytes.
  rewrite <- (zip_with_repeat Z.lxor _ 0x5C), <- (zip_with_repeat Z.lxor _ 0x36), Hl.
  reflexivity.
Qed.

Lemma authenticate_body_skip σ packet msg authParamStart :
  Version packet ≠ Version3 ∨ Z.land (MsgFlags packet) AuthNoPriv = 0 →
  authenticate_body σ packet msg authParamStart = Ok msg.
Proof.
  intros H. unfold authenticate_body.
  destruct (Z.eqb_spec (Version packet) Version3) as [Hv|Hv]; cbn [negb]; [|reflexivity].
  destruct H as [H|H]; [contradiction|]. rewrite H. reflexivity.
Qed.

(** What [authenticate] does when it gets to the end: the tag is copied to
    [msg[authParamStart:authParamStart+12]]. *)
Lemma authenticate_body_usm σ packet msg authParamStart l secParams :
  Version packet = Version3 →
  Z.land (MsgFlags packet) AuthNoPriv ≠ 0 →
  SecurityModel packet = UserSecurityModel →
  SecurityParameters packet = UsmPointer (Some l) →
  σ !! l = Some secParams →
  AuthenticationPassphrase secParams ≠ [] →
  authenticate_body σ packet msg authParamStart
  = slice_copy msg authParamStart (uint32 (authParamStart + 12))
      (take 12 (keyed_digest (AuthenticationProtocol secParams)
                  (localized_key (alg_of (AuthenticationProtocol secParams))
                     (AuthenticationPassphrase secParams) (AuthoritativeEngineID secParams))
                  (s_bytes msg))).
Proof.
  intros Hv Hf Hm Hsp Hl Hp. unfold authenticate_body.
  rewrite Hv, Hm, Hsp. cbn [negb Z.eqb fst as_usm].
  rewrite Z.eqb_refl. cbn [negb].
  destruct (Z.eqb_spec (Z.land (MsgFlags packet) AuthNoPriv) 0) as [E|_]; [contradiction|].
  rewrite Z.eqb_refl. cbn [negb].
  unfold load. rewrite Hl. cbn [mbind outcome_bind].
  rewrite (genlocalkey_spec _ Hp). cbn [mbind outcome_bind].
  rewrite bytes_upto_tag. reflexivity.
Qed.

Lemma uint32_le z : 0 ≤ z → uint32 z ≤ z.
Proof. intros. unfold uint32. apply Z.mod_le; lia. Qed.

Lemma slice_copy_frame msg a b src out :
  slice_copy msg a b src = Ok out →
  s_len out = s_len msg ∧ length (s_arr out) = length (s_arr msg) ∧
  ∀ i : nat, Z.of_nat i < a ∨ b ≤ Z.of_nat i → s_arr out !! i = s_arr msg !! i.
Proof.
  unfold slice_copy, s_cap, len. intros H.
  destruct (Z.leb_spec 0 a); [|discriminate].
  destruct (Z.leb_spec a b); [|discriminate].
  destruct (Z.leb_spec b (Z.of_nat (length (s_arr msg)))); [|discriminate].
  cbn in H. injection H as <-. cbn [s_len s_arr].
  split; [reflexivity|]. split.
  - apply copy_into_length. lia.
  - intros i Hi. apply copy_into_outside; [lia|].
    rewrite length_take. lia.
Qed.

Lemma authenticate_body_frame σ packet msg authParamStart out :
  authenticate_body σ packet msg authParamStart = Ok out →
  s_len out = s_len msg ∧ length (s_arr out) = length (s_arr msg) ∧
  ∀ i : nat, Z.of_nat i < authParamStart ∨ authParamStart + 12 ≤ Z.of_nat i →
             s_arr out !! i = s_arr msg !! i.
Proof.
  unfold authenticate_body. intros H.
  destruct (negb (Version packet =? Version3)); [injection H as <-; auto|].
  destruct (Z.land (MsgFlags packet) AuthNoPriv =? 0); [injection H as <-; auto|].
  destruct (negb (SecurityModel packet =? UserSecurityModel)); [discriminate|].
  destruct (fst (as_usm (SecurityParameters packet))) as [l|]; [|discriminate].
  inv_bind H. inv_bind H. inv_bind H.
  pose proof H as Hc.
  apply slice_copy_frame in H as (Hlen & Harr & Hout).
  split; [assumption|]. split; [assumption|].
  intros i Hi. apply Hout.
  unfold slice_copy in Hc.
  destruct (Z.leb_spec 0 authParamStart); [|discriminate].
  pose proof (uint32_le (authParamStart + 12) ltac:(lia)). lia.
Qed.

(** C10.  [authenticate] returns the message as it is, and no error, when
    the packet is not of version 3 or its Auth flag is clear; and whenever
    it returns a message, the length and the capacity are those of the
    message it was given and every byte outside
    [authParamStart, authParamStart + 12) is unchanged. *)
Theorem authenticate_frame σ packet msg authParamStart :
  (Version packet ≠ Version3 ∨ Z.land (MsgFlags packet) AuthNoPriv = 0 →
   authenticate σ packet msg authParamStart = (Some msg, None)) ∧
  (∀ out err,
     authenticate σ packet msg authParamStart = (Some out, err) →
     err = None ∧ s_len out = s_len msg ∧ length (s_arr out) = length (s_arr msg) ∧
     ∀ i : nat, Z.of_nat i < authParamStart ∨ authParamStart + 12 ≤ Z.of_nat i →
                s_arr out !! i = s_arr msg !! i).
Proof.
  split.
  - intros H. unfold authenticate. rewrite authenticate_body_skip by assumption. reflexivity.
  - intros out err H. unfold authenticate in H.
    destruct (authenticate_body σ packet msg authParamStart) as [m|e|q] eqn:Hb;
      [|discriminate|discriminate].
    injection H as <- <-. split; [reflexivity|].
    eapply authenticate_body_frame; eassumption.
Qed.

Definition packet_v1 : SnmpPacket := mkPacket 0 0 0 NilParameters [] [] 0 0 0.

Lemma authenticate_frame_witness :
  authenticate ∅ packet_v1 (slice_of [48; 0]) 0 = (Some (slice_of [48; 0]), None)
  ∧ s_len (slice_of [48; 0]) = s_len (slice_of [48; 0]).
Proof.
  assert (Hv : Version packet_v1 ≠ Version3) by (cbv; discriminate).
  pose proof (authenticate_frame ∅ packet_v1 (slice_of [48; 0]) 0) as [Hskip Hframe].
  pose proof (Hskip (or_introl Hv)) as Hrun.
  split; [exact Hrun|].
  exact (proj1 (proj2 (Hframe _ _ Hrun))).
Defined.

(** ** The builder and the offset it reports *)

Lemma land1_pos flags : Z.land flags AuthNoPriv ≠ 0 → (Z.land flags AuthNoPriv >? 0) = true.
Proof.
  intros H. unfold AuthNoPriv in *.
  assert (0 ≤ Z.land flags 1) by (apply Z.land_nonneg; lia).
  apply Z.gtb_lt. lia.
Qed.

Section BuilderFacts.
Context `{BC : BerCodec} `{PC : PduCodec} `{CI : BlockCiphers}.

(** The security parameters block holds twelve zero bytes at the offset
    reported with it. *)
Lemma usm_parameters_slot σ packet out off :
  marshalSnmpV3UsmSecurityParameters σ packet = Ok (out, off) →
  Z.land (MsgFlags packet) AuthNoPriv ≠ 0 →
  len out < 2 ^ 32 →
  ∃ pre post, out = pre ++ zeros 12 ++ post ∧ off = len pre.
Proof.
  intros H Hf Hsz. unfold marshalSnmpV3UsmSecurityParameters in H.
  destruct (fst (as_usm (SecurityParameters packet))) as [l|]; [|discriminate].
  inv_bind H. rewrite (land1_pos _ Hf) in H.
  inv_bind H. inv_bind H. injection H as <- <-.
  match type of Hstep0 with
  | context [?q ++ [OctetString; 12; 0; 0; 0; 0; 0; 0; 0; 0; 0; 0; 0; 0]] =>
      set (pre0 := q) in *
  end.
  assert (Hout : ∃ post, a0 = (pre0 ++ [OctetString; 12]) ++ zeros 12 ++ post).
  { destruct (Z.land (MsgFlags packet) AuthPriv >? AuthNoPriv).
    - inv_bind Hstep0. apply Ok_inj in Hstep0.
      exists ([OctetString] ++ a2 ++ PrivacyParameters a). rewrite <- Hstep0.
      rewrite <- !app_assoc. reflexivity.
    - apply Ok_inj in Hstep0. exists [OctetString; 0]. rewrite <- Hstep0.
      rewrite <- !app_assoc. reflexivity. }
  destruct Hout as [post ->].
  exists (Sequence :: a1 ++ pre0 ++ [OctetString; 12]), post. split.
  - cbn [app]. rewrite <- !app_assoc. reflexivity.
  - change (uint32 (uint32 (len pre0 + 2) + uint32 (len (Sequence :: a1)))
            = len (Sequence :: a1 ++ pre0 ++ [OctetString; 12])).
    unfold len in *. rewrite ?length_cons, ?length_app, ?zeros_length in *.
    cbn [length] in *.
    rewrite (uint32_small (Z.of_nat (length pre0) + 2)) by lia.
    rewrite (uint32_small (Z.of_nat (S (length a1)))) by lia.
    rewrite uint32_small by lia. lia.
Qed.

(** So does the whole message [prepV3pPDU] lays out. *)
Lemma prepV3pPDU_slot σ packet msgid buf pdus requestid buf' off :
  prepV3pPDU σ packet msgid buf pdus requestid = Ok (buf', off) →
  SecurityModel packet = UserSecurityModel →
  Z.land (MsgFlags packet) AuthNoPriv ≠ 0 →
  len buf' < 2 ^ 32 →
  ∃ pre post, buf' = pre ++ zeros 12 ++ post ∧ off = len pre.
Proof.
  intros H Hm Hf Hsz. unfold prepV3pPDU in H.
  inv_bind H. rewrite Hm, Z.eqb_refl in H.
  inv_bind H. destruct a0 as [securityParameters authParamStart].
  inv_bind H. inv_bind H. apply Ok_inj in H. injection H as Hb Ho.
  match type of Ho with
  | context [len ?q] => set (front := q) in *
  end.
  assert (Hs : len securityParameters < 2 ^ 32).
  { subst buf'. unfold len in *. rewrite !length_app in Hsz. lia. }
  destruct (usm_parameters_slot _ _ _ _ Hstep0 Hf Hs) as (pre & post & -> & ->).
  exists (front ++ pre), (post ++ a1). split.
  - subst buf'. rewrite <- !app_assoc. reflexivity.
  - subst buf' off. unfold len in *. rewrite !length_app in *.
    rewrite (uint32_small (Z.of_nat (length front))) by lia.
    rewrite uint32_small by lia. lia.
Qed.
End BuilderFacts.

Lemma localized_key_short alg p e : (length (localized_key alg p e) ≤ 64)%nat.
Proof. rewrite localized_key_length. destruct alg; cbn; lia. Qed.

Lemma s_bytes_spare (m spare : bytes) : s_bytes (mkSlice (m ++ spare) (len m)) = m.
Proof.
  unfold s_bytes, len. cbn [s_len s_arr]. rewrite Nat2Z.id.
  rewrite take_app_length. reflexivity.
Qed.

(** Copying a 12-byte tag over a slot inside the elements of a slice. *)
Lemma slice_copy_slot (pre slot post spare tag : bytes) :
  length slot = 12%nat → length tag = 12%nat →
  len (pre ++ slot ++ post) < 2 ^ 32 →
  slice_copy (mkSlice ((pre ++ slot ++ post) ++ spare) (len (pre ++ slot ++ post)))
             (len pre) (uint32 (len pre + 12)) tag
  = Ok (mkSlice ((pre ++ tag ++ post) ++ spare) (len (pre ++ slot ++ post))).
Proof.
  intros Hslot Htag Hsz. unfold slice_copy, s_cap, len in *. cbn [s_arr s_len].
  rewrite !length_app in *. rewrite Hslot in *.
  rewrite uint32_small by lia.
  destruct (Z.leb_spec 0 (Z.of_nat (length pre))); [|lia].
  destruct (Z.leb_spec (Z.of_nat (length pre)) (Z.of_nat (length pre) + 12)); [|lia].
  destruct (Z.leb_spec (Z.of_nat (length pre) + 12)
                       (Z.of_nat (length pre + (12 + length post) + length spare))); [|lia].
  cbn [andb]. f_equal. f_equal.
  rewrite Nat2Z.id.
  replace (Z.to_nat (Z.of_nat (length pre) + 12 - Z.of_nat (length pre))) with 12%nat by lia.
  rewrite (take_ge tag) by lia.
  rewrite copy_into_fits by (rewrite !length_app, Hslot, Htag; lia).
  rewrite <- !app_assoc. rewrite take_app_length. f_equal. f_equal.
  rewrite <- drop_drop, drop_app_length, Htag, <- Hslot, drop_app_length. reflexivity.
Qed.

Section Authenticate.
Context `{BC : BerCodec} `{PC : PduCodec} `{CI : BlockCiphers}.

(** C2.  For a version-3 USM packet with the Auth flag set and a
    non-empty authentication passphrase, let [buf'] and [off] be the
    message and the offset [prepV3pPDU] returns, and let the message be
    framed by a header [hdr] whose length is added to the offset.  Then
    the twelve bytes of the framed message at the offset are zero, and
    [authenticate] returns the message with exactly these twelve bytes
    replaced by the first twelve bytes of HMAC (RFC 2104: 64-byte block,
    ipad 0x36, opad 0x5C) of the framed message, zeros in the slot, under
    the localized key. *)
Theorem authenticate_hmac σ packet msgid buf pdus requestid hdr buf' off l secParams
    (spare : bytes) :
  Version packet = Version3 →
  Z.land (MsgFlags packet) AuthNoPriv ≠ 0 →
  SecurityModel packet = UserSecurityModel →
  SecurityParameters packet = UsmPointer (Some l) →
  σ !! l = Some secParams →
  AuthenticationPassphrase secParams ≠ [] →
  prepV3pPDU σ packet msgid buf pdus requestid = Ok (buf', off) →
  len (hdr ++ buf') < 2 ^ 32 →
  let msg := hdr ++ buf' in
  let start := uint32 (off + uint32 (len hdr)) in
  let alg := alg_of (AuthenticationProtocol secParams) in
  let key := localized_key alg (AuthenticationPassphrase secParams)
                           (AuthoritativeEngineID secParams) in
  let tag := take 12 (hmac_rfc2104 (digest alg) key msg) in
  genlocalkey (AuthenticationProtocol secParams) (AuthenticationPassphrase secParams)
              (AuthoritativeEngineID secParams) = Ok key ∧
  start + 12 ≤ len msg ∧
  take 12 (drop (Z.to_nat start) msg) = zeros 12 ∧
  length tag = 12%nat ∧
  authenticate σ packet (mkSlice (msg ++ spare) (len msg)) start
  = (Some (mkSlice ((take (Z.to_nat start) msg ++ tag ++ drop (Z.to_nat start + 12) msg)
                      ++ spare) (len msg)), None).
Proof.
  intros Hv Hf Hm Hsp Hl Hp Hprep Hsz msg start alg key tag.
  assert (Hb : len buf' < 2 ^ 32).
  { unfold len in *. rewrite length_app in Hsz. lia. }
  destruct (prepV3pPDU_slot _ _ _ _ _ _ _ _ Hprep Hm Hf Hb) as (pre & post & Hbuf & Hoff).
  assert (Hstart : start = len (hdr ++ pre)).
  { subst start off buf'. unfold len in *. rewrite !length_app in *.
    rewrite (uint32_small (Z.of_nat (length hdr))) by lia.
    rewrite uint32_small by lia. lia. }
  assert (Hmsg : msg = (hdr ++ pre) ++ zeros 12 ++ post).
  { subst msg buf'. rewrite <- !app_assoc. reflexivity. }
  assert (Htag : length tag = 12%nat).
  { unfold tag, key, alg.
    rewrite <- keyed_digest_rfc2104 by apply localized_key_short.
    apply tag_length. }
  split; [apply (genlocalkey_spec _ Hp)|].
  split; [rewrite Hstart, Hmsg; unfold len; rewrite !length_app, zeros_length; lia|].
  split; [rewrite Hstart, Hmsg; unfold len; rewrite Nat2Z.id, drop_app_length;
          apply take_app_length'; rewrite zeros_length; lia|].
  split; [exact Htag|].
  unfold authenticate.
  rewrite (authenticate_body_usm σ packet _ start l secParams Hv Hf Hm Hsp Hl Hp).
  rewrite s_bytes_spare.
  rewrite keyed_digest_rfc2104 by apply localized_key_short.
  fold alg. fold key. fold tag.
  rewrite Hstart. rewrite Hmsg in *.
  rewrite slice_copy_slot;
    [|rewrite zeros_length; lia|exact Htag|rewrite <- Hmsg; exact Hsz].
  unfold len. rewrite Nat2Z.id.
  rewrite take_app_length.
  replace (length (hdr ++ pre) + 12)%nat
    with (length ((hdr ++ pre) ++ zeros 12)) by (rewrite length_app, zeros_length; lia).
  rewrite (app_assoc (hdr ++ pre) (zeros 12) post), drop_app_length.
  reflexivity.
Qed.
End Authenticate.

(** ** A user and its packets, for the examples *)

Definition user_name : bytes := [117; 115; 101; 114].

(** An MD5 user without privacy, with the passphrase and the engine id of
    RFC 3414 A.3. *)
Definition usm_auth : UsmSecurityParameters :=
  mkUsm engine_a3 1 2 user_name [] [] MD5 NoPriv maplesyrup [] 0 0.

Definition store_auth : store := {[ 1%positive := usm_auth ]}.

Definition packet_auth : SnmpPacket :=
  mkPacket Version3 AuthNoPriv UserSecurityModel (UsmPointer (Some 1%positive))
           engine_a3 [] 0xa0 0 0.

(** The version field and the outer header marshalMsg puts around the
    message. *)
Definition version_field : bytes := [Integer; 1; Version3].

Lemma authenticate_hmac_witness :
  ∃ buf' off,
    @prepV3pPDU Std.codec Std.pdus Std.ciphers store_auth packet_auth 1 version_field [] 1
    = Ok (buf', off)
    ∧ off + 2 + 12 ≤ len ([Sequence; len buf'] ++ buf')
    ∧ take 12 (drop (Z.to_nat (off + 2)) ([Sequence; len buf'] ++ buf')) = zeros 12.
Proof.
  destruct (@prepV3pPDU Std.codec Std.pdus Std.ciphers store_auth packet_auth 1
              version_field [] 1) as [[buf' off]|e|q] eqn:Hprep;
    [|vm_compute in Hprep; discriminate|vm_compute in Hprep; discriminate].
  exists buf', off. split; [reflexivity|].
  assert (Hf : Z.land (MsgFlags packet_auth) AuthNoPriv ≠ 0) by (cbv; discriminate).
  assert (Hp : AuthenticationPassphrase usm_auth ≠ []) by (cbv; discriminate).
  assert (Hl : store_auth !! 1%positive = Some usm_auth) by reflexivity.
  assert (Hsz : len ([Sequence; len buf'] ++ buf') < 2 ^ 32).
  { vm_compute in Hprep. injection Hprep as <- <-. vm_compute. reflexivity. }
  assert (Hoff : uint32 (off + uint32 (len [Sequence; len buf'])) = off + 2).
  { vm_compute in Hprep. injection Hprep as <- <-. vm_compute. reflexivity. }
  pose proof (@authenticate_hmac Std.codec Std.pdus Std.ciphers store_auth packet_auth 1
                version_field [] 1 [Sequence; len buf'] buf' off 1%positive usm_auth []
                eq_refl Hf eq_refl eq_refl Hl Hp Hprep Hsz) as H.
  cbv zeta in H. rewrite Hoff in H.
  destruct H as (_ & Hin & Hzero & _ & _).
  exact (conj Hin Hzero).
Defined.

(** ** Panics and error values *)

Lemma land_level_auth flags :
  Z.land (Z.land flags AuthPriv) AuthNoPriv = Z.land flags AuthNoPriv.
Proof. rewrite <- Z.land_assoc. reflexivity. Qed.

(** [validateParametersV3] lets no empty authentication passphrase through
    when the Auth flag is set. *)
Lemma validateParametersV3_passphrase σ x :
  validateParametersV3 σ x = Ok () →
  Z.land (Conn.MsgFlags x) AuthNoPriv ≠ 0 →
  ∃ l usm, fst (as_usm (Conn.SecurityParameters x)) = Some l ∧ σ !! l = Some usm
           ∧ AuthenticationPassphrase usm ≠ [].
Proof.
  unfold validateParametersV3. intros H Hf.
  destruct (negb (Conn.SecurityModel x =? UserSecurityModel)); [discriminate|].
  destruct (fst (as_usm (Conn.SecurityParameters x))) as [l|]; [|discriminate].
  unfold load in H. destruct (σ !! l) as [usm|] eqn:Hl; [|discriminate].
  cbn [mbind outcome_bind] in H.
  exists l, usm. split; [reflexivity|]. split; [exact Hl|].
  rewrite <- land_level_auth in Hf.
  destruct (Z.eqb_spec (Z.land (Conn.MsgFlags x) AuthPriv) AuthPriv) as [E|_].
  - destruct (PrivacyProtocol usm <=? NoPriv); [discriminate|].
    destruct (decide (PrivacyPassphrase usm = [])); [discriminate|].
    destruct (AuthenticationProtocol usm <=? NoAuth); [discriminate|].
    destruct (decide (AuthenticationPassphrase usm = [])); [discriminate|assumption].
  - destruct (Z.eqb_spec (Z.land (Conn.MsgFlags x) AuthPriv) AuthNoPriv) as [E|_].
    + destruct (AuthenticationProtocol usm <=? NoAuth); [discriminate|].
      destruct (decide (AuthenticationPassphrase usm = [])); [discriminate|assumption].
    + destruct (Z.eqb_spec (Z.land (Conn.MsgFlags x) AuthPriv) NoAuthNoPriv) as [E|_];
        [|discriminate].
      rewrite E in Hf. contradiction Hf. reflexivity.
Qed.



Definition usm_nopass : UsmSecurityParameters :=
  mkUsm engine_a3 1 2 user_name [] [] MD5 NoPriv [] [] 0 0.
Definition store_nopass : store := {[ 1%positive := usm_nopass ]}.
Definition conn_auth : GoSNMP :=
  Conn.mk Version3 AuthNoPriv UserSecurityModel (UsmPointer (Some 1%positive)) [] 0 0.


(** ** The salt counters *)

Lemma load_Some (σ : store) l u : σ !! l = Some u → load σ l = Ok u.
Proof. intros H. unfold load. rewrite H. reflexivity. Qed.

Lemma load_Ok (σ : store) l u : load σ l = Ok u → σ !! l = Some u.
Proof. unfold load. destruct (σ !! l); [congruence | discriminate]. Qed.

Lemma gt_gtb a b : a > b → (a >? b) = true.
Proof. intros. apply Z.gtb_lt. lia. Qed.

(** The store after the counter of the connection has been advanced
    (lines 319-324), and the value the packet gets. *)
Definition advance_salt (σ : store) (bl : loc) (base : UsmSecurityParameters) : store :=
  if PrivacyProtocol base =? AES
  then <[bl := set_localAESSalt (uint64 (localAESSalt base + 1)) base]> σ
  else if PrivacyProtocol base =? DES
  then <[bl := set_localDESSalt (uint32 (localDESSalt base + 1)) base]> σ
  else σ.

Definition packet_salt (base pkt : UsmSecurityParameters) : bytes :=
  if PrivacyProtocol pkt =? AES
  then be64 (if PrivacyProtocol base =? AES then uint64 (localAESSalt base + 1) else 0)
  else be32 (AuthoritativeEngineBoots pkt)
       ++ be32 (if PrivacyProtocol base =? AES then 0
                else if PrivacyProtocol base =? DES then uint32 (localDESSalt base + 1)
                else 0).

Lemma buildPacket3_privacy σ x msgID ids packetOut bl base pl pkt :
  Z.land (Conn.MsgFlags x) AuthPriv > AuthNoPriv →
  Conn.SecurityModel x = UserSecurityModel →
  Conn.SecurityParameters x = UsmPointer (Some bl) →
  σ !! bl = Some base →
  Version packetOut = Version3 →
  SecurityModel packetOut = UserSecurityModel →
  Z.land (MsgFlags packetOut) AuthPriv > AuthNoPriv →
  SecurityParameters packetOut = UsmPointer (Some pl) →
  advance_salt σ bl base !! pl = Some pkt →
  buildPacket3 σ x msgID ids packetOut
  = Ok (<[pl := set_PrivacyParameters (packet_salt base pkt) pkt]> (advance_salt σ bl base),
        Conn.set_msgID (uint32 (Conn.msgID x + 1)) x, packetOut).
Proof.
  intros Hf Hm Hsp Hl Hv Hpm Hpf Hpsp Hpl.
  unfold buildPacket3. cbn [Conn.MsgFlags Conn.SecurityModel Conn.SecurityParameters Conn.set_msgID].
  rewrite (gt_gtb _ _ Hf), Hm, Z.eqb_refl, Hsp. cbn [andb fst as_usm].
  rewrite (load_Some _ _ _ Hl). cbn [mbind outcome_bind].
  rewrite Hv, Hpm, (gt_gtb _ _ Hpf), Hpsp, !Z.eqb_refl. cbn [andb as_usm].
  unfold advance_salt, packet_salt in *.
  destruct (PrivacyProtocol base =? AES).
  - rewrite (load_Some _ _ _ Hpl). reflexivity.
  - destruct (PrivacyProtocol base =? DES).
    + rewrite (load_Some _ _ _ Hpl). reflexivity.
    + rewrite (load_Some _ _ _ Hpl). reflexivity.
Qed.

Lemma be32_inj a b : 0 ≤ a < 2 ^ 32 → 0 ≤ b < 2 ^ 32 → be32 a = be32 b → a = b.
Proof.
  intros Ha Hb H. unfold be32 in H. rewrite !Z.shiftr_div_pow2 in H by lia.
  injection H as H3 H2 H1 H0.
  change (2 ^ 24) with 16777216 in *. change (2 ^ 16) with 65536 in *.
  change (2 ^ 8) with 256 in *. change (2 ^ 32) with 4294967296 in *.
  Z.to_euclidean_division_equations. lia.
Qed.

Lemma be32_length v : length (be32 v) = 4%nat.
Proof. reflexivity. Qed.

Lemma be64_length v : length (be64 v) = 8%nat.
Proof. reflexivity. Qed.

(** The fields of a user no build writes. *)
Definition usm_static (u : UsmSecurityParameters) :=
  (AuthoritativeEngineID u, AuthoritativeEngineBoots u, AuthoritativeEngineTime u,
   UserName u, AuthenticationProtocol u, PrivacyProtocol u,
   AuthenticationPassphrase u, PrivacyPassphrase u).

Definition next_des (base : UsmSecurityParameters) : Z :=
  if PrivacyProtocol base =? DES then uint32 (localDESSalt base + 1) else localDESSalt base.
Definition next_aes (base : UsmSecurityParameters) : Z :=
  if PrivacyProtocol base =? AES then uint64 (localAESSalt base + 1) else localAESSalt base.

Lemma advance_salt_base (σ : store) bl base :
  σ !! bl = Some base →
  ∃ base1, advance_salt σ bl base !! bl = Some base1
           ∧ usm_static base1 = usm_static base
           ∧ PrivacyParameters base1 = PrivacyParameters base
           ∧ localDESSalt base1 = next_des base
           ∧ localAESSalt base1 = next_aes base.
Proof.
  intros Hl. unfold advance_salt, next_des, next_aes.
  destruct (Z.eqb_spec (PrivacyProtocol base) AES) as [Ea|Ea].
  - destruct (Z.eqb_spec (PrivacyProtocol base) DES) as [Ed|Ed];
      [rewrite Ea in Ed; discriminate|].
    eexists. split; [apply lookup_insert_eq|]. repeat split.
  - destruct (Z.eqb_spec (PrivacyProtocol base) DES) as [Ed|Ed].
    + eexists. split; [apply lookup_insert_eq|]. repeat split.
    + exists base. repeat split. assumption.
Qed.

Lemma advance_salt_other (σ : store) bl base pl :
  pl ≠ bl → advance_salt σ bl base !! pl = σ !! pl.
Proof.
  intros Hne. unfold advance_salt.
  destruct (PrivacyProtocol base =? AES); [apply lookup_insert_ne; congruence|].
  destruct (PrivacyProtocol base =? DES); [apply lookup_insert_ne; congruence|reflexivity].
Qed.

(** One privacy-enabled build, connection and packet seen together. *)
Lemma buildPacket3_step σ x msgID ids packetOut bl base pl pkt0 :
  Z.land (Conn.MsgFlags x) AuthPriv > AuthNoPriv →
  Conn.SecurityModel x = UserSecurityModel →
  Conn.SecurityParameters x = UsmPointer (Some bl) →
  σ !! bl = Some base →
  Version packetOut = Version3 →
  SecurityModel packetOut = UserSecurityModel →
  Z.land (MsgFlags packetOut) AuthPriv > AuthNoPriv →
  SecurityParameters packetOut = UsmPointer (Some pl) →
  σ !! pl = Some pkt0 →
  ∃ σ' base' pkt',
    buildPacket3 σ x msgID ids packetOut
    = Ok (σ', Conn.set_msgID (uint32 (Conn.msgID x + 1)) x, packetOut)
    ∧ σ' !! bl = Some base' ∧ σ' !! pl = Some pkt'
    ∧ usm_static base' = usm_static base
    ∧ localDESSalt base' = next_des base
    ∧ localAESSalt base' = next_aes base
    ∧ usm_static pkt' = usm_static pkt0
    ∧ PrivacyParameters pkt'
      = (if PrivacyProtocol pkt0 =? AES
         then be64 (if PrivacyProtocol base =? AES then next_aes base else 0)
         else be32 (AuthoritativeEngineBoots pkt0)
              ++ be32 (if PrivacyProtocol base =? DES then next_des base else 0)).
Proof.
  intros Hf Hm Hsp Hl Hv Hpm Hpf Hpsp Hpl.
  destruct (advance_salt_base σ bl base Hl) as (base1 & Hb1 & Hst1 & Hpp1 & Hd1 & Ha1).
  assert (Hpkt : ∃ pkt, advance_salt σ bl base !! pl = Some pkt
                        ∧ usm_static pkt = usm_static pkt0
                        ∧ (pl = bl → pkt = base1)).
  { destruct (decide (pl = bl)) as [->|Hne].
    - exists base1. split; [assumption|]. split; [|reflexivity].
      rewrite Hst1. congruence.
    - exists pkt0. rewrite advance_salt_other by assumption. repeat split.
      + assumption.
      + intros E. contradiction. }
  destruct Hpkt as (pkt & Hpkt & Hst & Halias).
  rewrite (buildPacket3_privacy σ x msgID ids packetOut bl base pl pkt)
    by assumption.
  assert (Hproto : PrivacyProtocol pkt = PrivacyProtocol pkt0).
  { unfold usm_static in Hst. congruence. }
  assert (Hboots : AuthoritativeEngineBoots pkt = AuthoritativeEngineBoots pkt0).
  { unfold usm_static in Hst. congruence. }
  assert (Hsalt : packet_salt base pkt
                  = (if PrivacyProtocol pkt0 =? AES
                     then be64 (if PrivacyProtocol base =? AES then next_aes base else 0)
                     else be32 (AuthoritativeEngineBoots pkt0)
                          ++ be32 (if PrivacyProtocol base =? DES then next_des base else 0))).
  { unfold packet_salt, next_aes, next_des. rewrite Hproto, Hboots.
    destruct (Z.eqb_spec (PrivacyProtocol base) AES) as [Ea|Ea];
      destruct (Z.eqb_spec (PrivacyProtocol base) DES) as [Ed|Ed];
      try reflexivity.
    rewrite Ea in Ed. discriminate. }
  destruct (decide (pl = bl)) as [->|Hne].
  - pose proof (Halias eq_refl) as ->.
    eexists _, _, _. split; [reflexivity|].
    split; [apply lookup_insert_eq|]. split; [apply lookup_insert_eq|].
    split; [exact Hst1|]. split; [exact Hd1|]. split; [exact Ha1|].
    split; [exact Hst|]. exact Hsalt.
  - eexists _, base1, _. split; [reflexivity|].
    split; [rewrite lookup_insert_ne by congruence; exact Hb1|].
    split; [apply lookup_insert_eq|].
    split; [exact Hst1|]. split; [exact Hd1|]. split; [exact Ha1|].
    split; [exact Hst|]. exact Hsalt.
Qed.

Lemma be64_inj a b : 0 ≤ a < 2 ^ 64 → 0 ≤ b < 2 ^ 64 → be64 a = be64 b → a = b.
Proof.
  intros Ha Hb H. unfold be64 in H.
  apply app_inj_1 in H as [Hhi Hlo]; [|reflexivity].
  rewrite !Z.shiftr_div_pow2 in Hhi by lia.
  apply be32_inj in Hhi; [|apply Z.mod_pos_bound; lia..].
  apply be32_inj in Hlo; [|apply Z.mod_pos_bound; lia..].
  change (2 ^ 32) with 4294967296 in *. change (2 ^ 64) with 18446744073709551616 in *.
  Z.to_euclidean_division_equations. lia.
Qed.

Lemma uint32_add_l a b : uint32 (uint32 a + b) = uint32 (a + b).
Proof. unfold uint32. apply Zplus_mod_idemp_l. Qed.

Lemma uint64_add_l a b : uint64 (uint64 a + b) = uint64 (a + b).
Proof. unfold uint64. apply Zplus_mod_idemp_l. Qed.

Lemma uint64_range z : 0 ≤ uint64 z < 2 ^ 64.
Proof. unfold uint64. apply Z.mod_pos_bound. lia. Qed.

Section Builds.
Variables (packetOut : SnmpPacket) (bl pl : loc).
Hypothesis Hv : Version packetOut = Version3.
Hypothesis Hpm : SecurityModel packetOut = UserSecurityModel.
Hypothesis Hpf : Z.land (MsgFlags packetOut) AuthPriv > AuthNoPriv.
Hypothesis Hpsp : SecurityParameters packetOut = UsmPointer (Some pl).

(** The privacy parameters of the [i]-th build from now. *)
Definition salt_at (base pkt0 : UsmSecurityParameters) (i : nat) : bytes :=
  if PrivacyProtocol base =? AES
  then be64 (uint64 (localAESSalt base + Z.of_nat i))
  else be32 (AuthoritativeEngineBoots pkt0) ++ be32 (uint32 (localDESSalt base + Z.of_nat i)).

Lemma builds_salts n : ∀ σ x base pkt0,
  Z.land (Conn.MsgFlags x) AuthPriv > AuthNoPriv →
  Conn.SecurityModel x = UserSecurityModel →
  Conn.SecurityParameters x = UsmPointer (Some bl) →
  σ !! bl = Some base → σ !! pl = Some pkt0 →
  PrivacyProtocol base = AES ∨ PrivacyProtocol base = DES →
  PrivacyProtocol pkt0 = PrivacyProtocol base →
  ∃ σ' x', builds n σ x packetOut = Ok (σ', x', salt_at base pkt0 <$> seq 1 n).
Proof.
  induction n as [|n IH]; intros σ x base pkt0 Hf Hm Hsp Hl Hpl Hproto Hsame.
  - eexists _, _. reflexivity.
  - destruct (buildPacket3_step σ x 0 [] packetOut bl base pl pkt0
                Hf Hm Hsp Hl Hv Hpm Hpf Hpsp Hpl)
      as (σ1 & base1 & pkt1 & Hrun & Hb1 & Hp1 & Hst1 & Hd1 & Ha1 & Hstp & Hpp).
    assert (Hpr1 : PrivacyProtocol base1 = PrivacyProtocol base)
      by (unfold usm_static in Hst1; congruence).
    assert (Hpr2 : PrivacyProtocol pkt1 = PrivacyProtocol pkt0)
      by (unfold usm_static in Hstp; congruence).
    assert (Hbo : AuthoritativeEngineBoots pkt1 = AuthoritativeEngineBoots pkt0)
      by (unfold usm_static in Hstp; congruence).
    destruct (IH σ1 (Conn.set_msgID (uint32 (Conn.msgID x + 1)) x) base1 pkt1)
      as (σ' & x' & Hrest); try assumption.
    { rewrite Hpr1. assumption. }
    { congruence. }
    exists σ', x'. cbn [builds]. rewrite Hrun. cbn [mbind outcome_bind].
    rewrite Hpsp. cbn [fst as_usm]. rewrite (load_Some _ _ _ Hp1).
    cbn [mbind outcome_bind]. rewrite Hrest. cbn [mbind outcome_bind].
    f_equal. f_equal. cbn [seq fmap list_fmap]. f_equal.
    + rewrite Hpp. unfold salt_at, next_aes, next_des. rewrite Hsame.
      destruct Hproto as [E|E]; rewrite E; reflexivity.
    + rewrite <- (fmap_S_seq 1 n), <- list_fmap_compose. apply list_fmap_ext.
      intros _ i _. unfold compose, salt_at. rewrite Hpr1, Hbo, Hd1, Ha1.
      unfold next_des, next_aes.
      destruct Hproto as [E|E]; rewrite E; cbn [Z.eqb AES DES Pos.eqb].
      * rewrite uint64_add_l. do 2 f_equal. lia.
      * rewrite uint32_add_l. do 3 f_equal. lia.
Qed.

(** Fewer builds than the counter has values give pairwise different
    privacy parameters. *)
Lemma salt_at_NoDup base pkt0 n :
  PrivacyProtocol base = AES ∨ PrivacyProtocol base = DES →
  Z.of_nat n ≤ (if PrivacyProtocol base =? AES then 2 ^ 64 else 2 ^ 32) →
  NoDup (salt_at base pkt0 <$> seq 1 n).
Proof.
  intros Hproto Hn. apply NoDup_fmap_2_strong; [|apply NoDup_seq].
  intros i j Hi Hj H. apply elem_of_seq in Hi, Hj. unfold salt_at in H.
  destruct Hproto as [E|E]; rewrite E in *; cbn [Z.eqb AES DES Pos.eqb] in *.
  - apply be64_inj in H; [|apply uint64_range..].
    unfold uint64 in H. change (2 ^ 64) with 18446744073709551616 in *.
    Z.to_euclidean_division_equations. lia.
  - apply app_inj_1 in H as [_ H]; [|reflexivity].
    apply be32_inj in H; [|apply uint32_range..].
    unfold uint32 in H. change (2 ^ 32) with 4294967296 in *.
    Z.to_euclidean_division_equations. lia.
Qed.
End Builds.

(** A DES user whose salt counter stands at [c]; the connection holds one
    object and the packet a copy of it. *)
Definition usm_des (c : Z) : UsmSecurityParameters :=
  mkUsm engine_a3 1 2 user_name [] [] MD5 DES maplesyrup maplesyrup c 0.
Definition store_priv (c : Z) : store :=
  {[ 1%positive := usm_des c; 2%positive := usm_des c ]}.
Definition conn_priv : GoSNMP :=
  Conn.mk Version3 AuthPriv UserSecurityModel (UsmPointer (Some 1%positive)) [] 0 0.
Definition packet_priv : SnmpPacket :=
  mkPacket Version3 AuthPriv UserSecurityModel (UsmPointer (Some 2%positive))
           engine_a3 [] 0xa0 0 0.


Lemma buildPacket3_no_privacy σ x msgID ids packetOut :
  Z.land (Conn.MsgFlags x) AuthPriv ≤ AuthNoPriv →
  buildPacket3 σ x msgID ids packetOut
  = Ok (σ, Conn.set_msgID (uint32 (Conn.msgID x + 1)) x, packetOut).
Proof.
  intros H. unfold buildPacket3.
  cbn [Conn.MsgFlags Conn.SecurityModel Conn.SecurityParameters Conn.set_msgID].
  replace (Z.land (Conn.MsgFlags x) AuthPriv >? AuthNoPriv) with false; [reflexivity|].
  symmetry. rewrite Z.gtb_ltb. apply Z.ltb_ge. assumption.
Qed.



(** ** Cipher modes *)

(** What the proofs need of the block ciphers: blocks keep their size, and
    DES decryption undoes DES encryption. *)
Class BlockCipherLaws `{CI : BlockCiphers} : Prop := {
  des_block_length : ∀ k b, length b = 8%nat → length (des_encrypt_block k b) = 8%nat;
  des_block_inverse : ∀ k b, length b = 8%nat → des_decrypt_block k (des_encrypt_block k b) = b;
  aes_block_length : ∀ k b, length b = 16%nat → length (aes_encrypt_block k b) = 16%nat
}.

Lemma xor_bytes_length a b : length (xor_bytes a b) = (length a `min` length b)%nat.
Proof. unfold xor_bytes. apply length_zip_with. Qed.

Lemma xor_bytes_cancel a b : length a = length b → xor_bytes (xor_bytes a b) b = a.
Proof.
  revert b. induction a as [|x a IH]; intros [|y b] H; try discriminate; [reflexivity|].
  cbn in *. f_equal.
  - rewrite Z.lxor_assoc, Z.lxor_nilpotent, Z.lxor_0_r. reflexivity.
  - apply IH. lia.
Qed.

Lemma cfb_encrypt_nil enc n iv : cfb_encrypt enc n iv [] = [].
Proof. revert iv. induction n as [|n IH]; intros iv; [reflexivity|]. cbn. apply IH. Qed.

Lemma cfb_encrypt_length enc :
  (∀ b, length b = 16%nat → length (enc b) = 16%nat) →
  ∀ n iv src, length iv = 16%nat → (length src ≤ 16 * n)%nat →
              length (cfb_encrypt enc n iv src) = length src.
Proof.
  intros Henc. induction n as [|n IH]; intros iv src Hiv Hn.
  - destruct src; [reflexivity | cbn in Hn; lia].
  - cbn [cfb_encrypt]. rewrite length_app.
    destruct (decide (16 ≤ length src)%nat) as [Hge|Hlt].
    + rewrite IH.
      * rewrite xor_bytes_length, length_take, length_drop, Henc by assumption. lia.
      * rewrite xor_bytes_length, length_take, Henc by assumption. lia.
      * rewrite length_drop. lia.
    + rewrite (drop_ge src) by lia. rewrite cfb_encrypt_nil.
      rewrite xor_bytes_length, length_take, Henc by assumption. cbn [length]. lia.
Qed.

Lemma aes_iv_salt u :
  length (PrivacyParameters u) = 8%nat →
  aes_iv u = be32 (AuthoritativeEngineBoots u) ++ be32 (AuthoritativeEngineTime u)
             ++ PrivacyParameters u.
Proof.
  intros H. unfold aes_iv.
  destruct (PrivacyParameters u) as [|p0 [|p1 [|p2 [|p3 [|p4 [|p5 [|p6 [|p7 [|]]]]]]]]];
    try discriminate H.
  reflexivity.
Qed.

Lemma bytes_upto_key alg p e n :
  0 ≤ n ≤ 16 → bytes_upto (localized_key alg p e) n = Ok (take (Z.to_nat n) (localized_key alg p e)).
Proof.
  intros Hn. unfold bytes_upto, len. rewrite localized_key_length.
  pose proof (digest_size_ge alg).
  destruct (Z.leb_spec 0 n); [|lia].
  destruct (Z.leb_spec n (Z.of_nat (digest_size alg))); [reflexivity|lia].
Qed.

Lemma bytes_from_key alg p e n :
  0 ≤ n ≤ 16 → bytes_from (localized_key alg p e) n = Ok (drop (Z.to_nat n) (localized_key alg p e)).
Proof.
  intros Hn. unfold bytes_from, len. rewrite localized_key_length.
  pose proof (digest_size_ge alg).
  destruct (Z.leb_spec 0 n); [|lia].
  destruct (Z.leb_spec n (Z.of_nat (digest_size alg))); [reflexivity|lia].
Qed.

Section Privacy.
Context `{BC : BerCodec} `{PC : PduCodec} `{CI : BlockCiphers}.

(** The privacy key and the AES ciphertext of a scoped PDU. *)
Definition privacy_key (secParams : UsmSecurityParameters) : bytes :=
  localized_key (alg_of (AuthenticationProtocol secParams))
                (PrivacyPassphrase secParams) (AuthoritativeEngineID secParams).

Definition aes_ciphertext (secParams : UsmSecurityParameters) (plain : bytes) : bytes :=
  cfb_encrypt (aes_encrypt_block (take 16 (privacy_key secParams)))
              (Z.to_nat ((len plain + 15) / 16)) (aes_iv secParams) plain.

Lemma marshalSnmpV3ScopedPDU_aes σ packet pdus requestid l secParams plain :
  Z.land (MsgFlags packet) AuthPriv > AuthNoPriv →
  SecurityModel packet = UserSecurityModel →
  SecurityParameters packet = UsmPointer (Some l) →
  σ !! l = Some secParams →
  PrivacyProtocol secParams = AES →
  PrivacyPassphrase secParams ≠ [] →
  plainScopedPDU packet pdus requestid = Ok plain →
  marshalSnmpV3ScopedPDU σ packet pdus requestid
  = (pduLen ← marshalLength (len (aes_ciphertext secParams plain));
     Ok ([OctetString] ++ pduLen ++ aes_ciphertext secParams plain)).
Proof.
  intros Hf Hm Hsp Hl Hproto Hp Hplain. unfold marshalSnmpV3ScopedPDU.
  rewrite Hplain. cbn [mbind outcome_bind].
  rewrite (gt_gtb _ _ Hf), Hm, Z.eqb_refl, Hsp. cbn [andb fst as_usm].
  rewrite (load_Some _ _ _ Hl). cbn [mbind outcome_bind].
  rewrite (genlocalkey_spec _ Hp). cbn [mbind outcome_bind].
  rewrite Hproto, Z.eqb_refl.
  rewrite bytes_upto_key by lia. cbn [mbind outcome_bind].
  unfold aes_NewCipher, len. rewrite length_take, localized_key_length.
  pose proof (digest_size_ge (alg_of (AuthenticationProtocol secParams))).
  replace (Z.of_nat (Z.to_nat 16 `min` digest_size (alg_of (AuthenticationProtocol secParams))))
    with 16 by lia.
  cbn [Z.eqb Pos.eqb orb mbind outcome_bind].
  unfold XORKeyStream, aes_ciphertext, privacy_key, len.
  reflexivity.
Qed.

Lemma aes_ciphertext_length `{!BlockCipherLaws} secParams plain :
  length (PrivacyParameters secParams) = 8%nat →
  length (aes_ciphertext secParams plain) = length plain.
Proof.
  intros Hpp. unfold aes_ciphertext. apply cfb_encrypt_length.
  - apply aes_block_length.
  - rewrite aes_iv_salt by assumption. rewrite !length_app, Hpp. reflexivity.
  - unfold len. pose proof (Z.div_mod (Z.of_nat (length plain) + 15) 16 ltac:(lia)).
    pose proof (Z.mod_pos_bound (Z.of_nat (length plain) + 15) 16 ltac:(lia)).
    pose proof (Z.div_pos (Z.of_nat (length plain) + 15) 16 ltac:(lia) ltac:(lia)).
    lia.
Qed.
End Privacy.

Section AesPrivacy.
Context `{BC : BerCodec} `{PC : PduCodec} `{CI : BlockCiphers} `{!BlockCipherLaws}.

(** C5.  On an AES connection and packet, the build advances the 64-bit
    counter and leaves its big-endian encoding as the 8-byte salt in the
    packet; the scoped PDU is then encrypted in CFB mode under the first
    16 bytes of the localized privacy key with the 16-byte IV engine
    boots, engine time (both big-endian on 4 bytes) and salt; the
    ciphertext is as long as the plaintext and goes out as an octet
    string. *)
Theorem aes_privacy σ x msgID ids packetOut pdus requestid bl base pl pkt0 plain plen :
  Z.land (Conn.MsgFlags x) AuthPriv > AuthNoPriv →
  Conn.SecurityModel x = UserSecurityModel →
  Conn.SecurityParameters x = UsmPointer (Some bl) →
  σ !! bl = Some base →
  Version packetOut = Version3 →
  SecurityModel packetOut = UserSecurityModel →
  Z.land (MsgFlags packetOut) AuthPriv > AuthNoPriv →
  SecurityParameters packetOut = UsmPointer (Some pl) →
  σ !! pl = Some pkt0 →
  PrivacyProtocol base = AES →
  PrivacyProtocol pkt0 = AES →
  PrivacyPassphrase pkt0 ≠ [] →
  plainScopedPDU packetOut pdus requestid = Ok plain →
  marshalLength (len plain) = Ok plen →
  let counter := uint64 (localAESSalt base + 1) in
  let salt := be64 counter in
  let iv := be32 (AuthoritativeEngineBoots pkt0) ++ be32 (AuthoritativeEngineTime pkt0)
            ++ salt in
  let key := take 16 (privacy_key pkt0) in
  let ciphertext :=
    cfb_encrypt (aes_encrypt_block key) (Z.to_nat ((len plain + 15) / 16)) iv plain in
  ∃ σ' x' base' pkt',
    buildPacket3 σ x msgID ids packetOut = Ok (σ', x', packetOut)
    ∧ σ' !! bl = Some base' ∧ localAESSalt base' = counter
    ∧ σ' !! pl = Some pkt' ∧ PrivacyParameters pkt' = salt
    ∧ length salt = 8%nat ∧ length iv = 16%nat ∧ length key = 16%nat
    ∧ length ciphertext = length plain
    ∧ marshalSnmpV3ScopedPDU σ' packetOut pdus requestid
      = Ok ([OctetString] ++ plen ++ ciphertext).
Proof.
  intros Hf Hm Hsp Hl Hv Hpm Hpf Hpsp Hpl Hbase Hpkt Hp Hplain Hplen
         counter salt iv key ciphertext.
  destruct (buildPacket3_step σ x msgID ids packetOut bl base pl pkt0
              Hf Hm Hsp Hl Hv Hpm Hpf Hpsp Hpl)
    as (σ1 & base1 & pkt1 & Hrun & Hb1 & Hp1 & Hst1 & Hd1 & Ha1 & Hstp & Hpp).
  unfold next_aes, next_des in *. rewrite Hbase, Hpkt in *.
  cbn [Z.eqb AES DES Pos.eqb] in *.
  assert (Hfields : AuthoritativeEngineBoots pkt1 = AuthoritativeEngineBoots pkt0
                    ∧ AuthoritativeEngineTime pkt1 = AuthoritativeEngineTime pkt0
                    ∧ PrivacyProtocol pkt1 = AES
                    ∧ PrivacyPassphrase pkt1 = PrivacyPassphrase pkt0
                    ∧ privacy_key pkt1 = privacy_key pkt0).
  { unfold usm_static, privacy_key in *.
    injection Hstp as E1 E2 E3 E4 E5 E6 E7 E8.
    repeat split; congruence. }
  destruct Hfields as (Hbo & Hti & Hpr & Hpa & Hkey).
  assert (Hiv : aes_iv pkt1 = iv).
  { rewrite aes_iv_salt by (rewrite Hpp; reflexivity). rewrite Hbo, Hti, Hpp. reflexivity. }
  assert (Hct : aes_ciphertext pkt1 plain = ciphertext).
  { unfold aes_ciphertext. rewrite Hkey, Hiv. reflexivity. }
  assert (Hlen : length ciphertext = length plain).
  { rewrite <- Hct. apply aes_ciphertext_length. rewrite Hpp. reflexivity. }
  exists σ1, (Conn.set_msgID (uint32 (Conn.msgID x + 1)) x), base1, pkt1.
  split; [exact Hrun|]. split; [exact Hb1|]. split; [exact Ha1|].
  split; [exact Hp1|]. split; [exact Hpp|]. split; [reflexivity|].
  split; [reflexivity|].
  split.
  { unfold key, privacy_key. rewrite length_take, localized_key_length.
    pose proof (digest_size_ge (alg_of (AuthenticationProtocol pkt0))). lia. }
  split; [exact Hlen|].
  rewrite (marshalSnmpV3ScopedPDU_aes σ1 packetOut pdus requestid pl pkt1 plain
             Hpf Hpm Hpsp Hp1 Hpr ltac:(rewrite Hpa; exact Hp) Hplain).
  rewrite Hct. unfold len. rewrite Hlen. fold (len plain). rewrite Hplen. reflexivity.
Qed.
End AesPrivacy.

(** ** The stand-in block cipher obeys the laws *)

Lemma cycle_key_length n key : ∀ k, length (Std.cycle_key n key k) = n.
Proof.
  induction n as [|n IH]; intros k; [reflexivity|].
  cbn. destruct k as [|y k]; [destruct key|]; cbn; rewrite IH; reflexivity.
Qed.

Lemma xor_block_length key b : length (Std.xor_block key b) = length b.
Proof. unfold Std.xor_block. rewrite xor_bytes_length, cycle_key_length. lia. Qed.

Lemma xor_block_involutive key b : Std.xor_block key (Std.xor_block key b) = b.
Proof.
  unfold Std.xor_block at 1. rewrite xor_block_length. unfold Std.xor_block.
  apply xor_bytes_cancel. rewrite cycle_key_length. reflexivity.
Qed.

Lemma std_cipher_laws : @BlockCipherLaws Std.ciphers.
Proof.
  split; cbn.
  - intros k b H. rewrite xor_block_length. assumption.
  - intros k b _. apply xor_block_involutive.
  - intros k b H. rewrite xor_block_length. assumption.
Qed.

(** An AES user (SHA-1 for authentication) whose salt counter stands at
    [c]. *)
Definition usm_aes (c : Z) : UsmSecurityParameters :=
  mkUsm engine_a3 1 2 user_name [] [] SHA AES maplesyrup maplesyrup 0 c.
Definition store_aes (c : Z) : store :=
  {[ 1%positive := usm_aes c; 2%positive := usm_aes c ]}.

(** The plaintext scoped PDU of [packet_priv] with no PDUs and request id
    1, under the stand-in codecs. *)
Definition plain_example : bytes :=
  Eval vm_compute in
    match @plainScopedPDU Std.codec Std.pdus packet_priv [] 1 with
    | Ok b => b
    | _ => []
    end.

Lemma plain_example_ok :
  @plainScopedPDU Std.codec Std.pdus packet_priv [] 1 = Ok plain_example.
Proof. vm_compute. reflexivity. Qed.

Lemma aes_privacy_witness :
  ∃ σ' x',
    buildPacket3 (store_aes 41) conn_priv 0 [] packet_priv = Ok (σ', x', packet_priv)
    ∧ PrivacyParameters <$> (σ' !! 2%positive) = Some (be64 42)
    ∧ is_ok (@marshalSnmpV3ScopedPDU Std.codec Std.pdus Std.ciphers σ' packet_priv [] 1)
      = true.
Proof.
  assert (Hf : Z.land (Conn.MsgFlags conn_priv) AuthPriv > AuthNoPriv) by reflexivity.
  assert (Hpf : Z.land (MsgFlags packet_priv) AuthPriv > AuthNoPriv) by reflexivity.
  assert (Hp : PrivacyPassphrase (usm_aes 41) ≠ []) by (cbv; discriminate).
  assert (Hplen : @marshalLength Std.codec (len plain_example) = Ok [len plain_example])
    by (vm_compute; reflexivity).
  destruct (@aes_privacy Std.codec Std.pdus Std.ciphers std_cipher_laws
              (store_aes 41) conn_priv 0 [] packet_priv [] 1 1%positive (usm_aes 41)
              2%positive (usm_aes 41) plain_example [len plain_example]
              Hf eq_refl eq_refl eq_refl eq_refl eq_refl Hpf eq_refl eq_refl eq_refl eq_refl
              Hp plain_example_ok Hplen)
    as (σ' & x' & base' & pkt' & Hrun & _ & _ & Hpkt & Hsalt & _ & _ & _ & _ & Hout).
  exists σ', x'. split; [exact Hrun|].
  split; [rewrite Hpkt; cbn [fmap option_fmap option_map]; rewrite Hsalt; reflexivity|].
  rewrite Hout. reflexivity.
Defined.

(** ** Engine discovery *)

(** The authoritative engine id, boots and time of a user. *)
Definition engine_of (u : UsmSecurityParameters) : bytes * Z * Z :=
  (AuthoritativeEngineID u, AuthoritativeEngineBoots u, AuthoritativeEngineTime u).

Definition with_engine (src dst : UsmSecurityParameters) : UsmSecurityParameters :=
  set_AuthoritativeEngineTime (AuthoritativeEngineTime src)
    (set_AuthoritativeEngineBoots (AuthoritativeEngineBoots src)
       (set_AuthoritativeEngineID (AuthoritativeEngineID src) dst)).

Lemma engine_of_with_engine src dst : engine_of (with_engine src dst) = engine_of src.
Proof. reflexivity. Qed.

Lemma storeSecurityParameters_usm σ x result σ' x' :
  storeSecurityParameters σ x result = Ok (σ', x') →
  SecurityModel result = UserSecurityModel →
  Conn.SecurityModel x = UserSecurityModel ∧
  Conn.SecurityParameters x' = Conn.SecurityParameters x ∧
  Conn.SecurityModel x' = Conn.SecurityModel x ∧
  Conn.Version x' = Conn.Version x ∧
  ∃ nl new,
    fst (as_usm (SecurityParameters result)) = Some nl ∧ σ !! nl = Some new ∧
    Conn.ContextEngineID x'
    = (if decide (Conn.ContextEngineID x = []) then AuthoritativeEngineID new
       else Conn.ContextEngineID x) ∧
    match fst (as_usm (Conn.SecurityParameters x)) with
    | Some cl => ∃ conn, σ !! cl = Some conn ∧ σ' = <[cl := with_engine new conn]> σ
    | None => σ' = σ
    end.
Proof.
  unfold storeSecurityParameters. intros H Hm.
  destruct (negb (Conn.Version x =? Version3) || negb (Version result =? Version3));
    [discriminate|].
  destruct (Z.eqb_spec (Conn.SecurityModel x) (SecurityModel result)) as [Hsame|];
    [|discriminate].
  cbn [negb] in H. rewrite Hm, Z.eqb_refl in H.
  destruct (fst (as_usm (SecurityParameters result))) as [nl|]; [|discriminate].
  inv_bind H. apply load_Ok in Hstep. inv_bind H. apply Ok_inj in H.
  injection H as <- <-.
  split; [congruence|].
  split; [destruct (decide (Conn.ContextEngineID x = [])); reflexivity|].
  split; [destruct (decide (Conn.ContextEngineID x = [])); reflexivity|].
  split; [destruct (decide (Conn.ContextEngineID x = [])); reflexivity|].
  exists nl, a. split; [reflexivity|]. split; [assumption|].
  split; [destruct (decide (Conn.ContextEngineID x = [])); reflexivity|].
  destruct (fst (as_usm (Conn.SecurityParameters x))) as [cl|].
  - inv_bind Hstep0. apply load_Ok in Hstep1. apply Ok_inj in Hstep0.
    exists a1. split; [assumption|]. symmetry. exact Hstep0.
  - apply Ok_inj in Hstep0. symmetry. exact Hstep0.
Qed.

Lemma storeSecurityParameters_model σ x result σ' x' :
  storeSecurityParameters σ x result = Ok (σ', x') →
  Conn.SecurityModel x = SecurityModel result ∧
  (SecurityModel result ≠ UserSecurityModel → x' = x).
Proof.
  unfold storeSecurityParameters. intros H.
  destruct (negb (Conn.Version x =? Version3) || negb (Version result =? Version3));
    [discriminate|].
  destruct (Z.eqb_spec (Conn.SecurityModel x) (SecurityModel result)) as [Hsame|];
    [|discriminate].
  split; [assumption|]. intros Hne. cbn [negb] in H.
  destruct (Z.eqb_spec (SecurityModel result) UserSecurityModel); [contradiction|].
  congruence.
Qed.

Lemma updatePktSecurityParameters_usm σ x packetOut σ' packetOut' :
  updatePktSecurityParameters σ x packetOut = Ok (σ', packetOut') →
  Conn.SecurityModel x = SecurityModel packetOut ∧
  (Conn.SecurityModel x = UserSecurityModel →
   ∃ cl conn pl pkt,
     fst (as_usm (Conn.SecurityParameters x)) = Some cl ∧ σ !! cl = Some conn ∧
     fst (as_usm (SecurityParameters packetOut)) = Some pl ∧ σ !! pl = Some pkt ∧
     σ' = <[pl := with_engine conn pkt]> σ).
Proof.
  unfold updatePktSecurityParameters. intros H.
  destruct (negb (Conn.Version x =? Version3) || negb (Version packetOut =? Version3));
    [discriminate|].
  destruct (Z.eqb_spec (Conn.SecurityModel x) (SecurityModel packetOut)) as [Hsame|];
    [|discriminate].
  split; [assumption|]. intros Hm. cbn [negb] in H.
  rewrite Hm, Z.eqb_refl in H. inv_bind H. apply Ok_inj in H. injection H as <- _.
  destruct (fst (as_usm (Conn.SecurityParameters x))) as [cl|]; [|discriminate].
  inv_bind Hstep. apply load_Ok in Hstep0.
  destruct (fst (as_usm (SecurityParameters packetOut))) as [pl|]; [|discriminate].
  inv_bind Hstep. apply load_Ok in Hstep1. apply Ok_inj in Hstep.
  exists cl, a0, pl, a1. repeat split; try assumption. symmetry. exact Hstep.
Qed.

Section DiscoveryFacts.
Context `{PC : PduCodec} `{TR : !Transport}.

(** C8.  With a version-3 USM connection and a packet whose authoritative
    engine id is still empty, [negotiateInitialSecurityParameters] hands
    exactly one request to [sendOneRequest]: no PDUs, and a packet with
    MsgFlags Reportable|NoAuthNoPriv, PDUType GetRequest and a new, empty
    set of USM security parameters.  When the exchange and the negotiation
    succeed, the connection's security parameters hold the engine id,
    boots and time of the response, and the connection's context engine id
    is the engine id of the response if it was empty, unchanged
    otherwise. *)
Theorem discovery_probe σ x packetOut wait l secParams :
  Conn.Version x = Version3 →
  Version packetOut = Version3 →
  Conn.SecurityModel x = UserSecurityModel →
  SecurityModel packetOut = UserSecurityModel →
  SecurityParameters packetOut = UsmPointer (Some l) →
  σ !! l = Some secParams →
  AuthoritativeEngineID secParams = [] →
  ∃ probe bl,
    fst (negotiateInitialSecurityParameters σ x packetOut wait) = [probe]
    ∧ req_pdus probe = []
    ∧ req_wait probe = wait
    ∧ Version (req_packet probe) = Version3
    ∧ MsgFlags (req_packet probe) = Z.lor Reportable NoAuthNoPriv
    ∧ MsgFlags (req_packet probe) = 4
    ∧ SecurityModel (req_packet probe) = UserSecurityModel
    ∧ PDUType (req_packet probe) = GetRequest
    ∧ SecurityParameters (req_packet probe) = UsmPointer (Some bl)
    ∧ σ !! bl = None
    ∧ req_store probe !! bl = Some usm_zero
    ∧ (∀ σ4 x4 packet4,
         snd (negotiateInitialSecurityParameters σ x packetOut wait) = Ok (σ4, x4, packet4) →
         ∃ σ2 x2 result nl new cl conn,
           sendOneRequest (req_store probe) x (req_pdus probe) (req_packet probe) wait
           = Ok (σ2, x2, result)
           ∧ SecurityParameters result = UsmPointer (Some nl)
           ∧ σ2 !! nl = Some new
           ∧ Conn.SecurityParameters x4 = UsmPointer (Some cl)
           ∧ σ4 !! cl = Some conn
           ∧ engine_of conn = engine_of new
           ∧ Conn.ContextEngineID x4
             = (if decide (Conn.ContextEngineID x2 = []) then AuthoritativeEngineID new
                else Conn.ContextEngineID x2)).
Proof.
  intros Hxv Hpv Hxm Hpm Hsp Hl Hid.
  unfold negotiateInitialSecurityParameters.
  rewrite Hxv, Hpv, Hxm, Hpm, Hsp, !Z.eqb_refl. cbn [negb orb fst as_usm].
  rewrite (load_Some _ _ _ Hl).
  destruct (decide (AuthoritativeEngineID secParams = [])) as [_|Hne]; [|contradiction].
  set (bl := fresh (dom σ)).
  assert (Hfresh : σ !! bl = None).
  { apply not_elem_of_dom. apply is_fresh. }
  eexists _, bl. cbn [fst snd req_pdus req_wait req_packet req_store blankPacket
                      Version MsgFlags SecurityModel PDUType SecurityParameters].
  split; [reflexivity|].
  do 8 (split; [reflexivity|]).
  split; [exact Hfresh|]. split; [apply lookup_insert_eq|].
  intros σ4 x4 packet4 Hneg.
  inv_bind Hneg. destruct a as [[σ2 x2] result].
  inv_bind Hneg. destruct a as [σ3 x3].
  inv_bind Hneg. destruct a as [σ4' packet4'].
  apply Ok_inj in Hneg. injection Hneg as <- <- <-.
  destruct (updatePktSecurityParameters_usm _ _ _ _ _ Hstep1) as [Hm3 Hupd].
  destruct (storeSecurityParameters_model _ _ _ _ _ Hstep0) as [Hm2 Hkeep].
  assert (Hres : SecurityModel result = UserSecurityModel).
  { destruct (decide (SecurityModel result = UserSecurityModel)) as [E|E]; [exact E|].
    rewrite (Hkeep E) in Hm3. congruence. }
  destruct (storeSecurityParameters_usm _ _ _ _ _ Hstep0 Hres)
    as (Hx2m & Hx3p & Hx3m & _ & nl & new & Hnl & Hnew & Hctx & Hstore).
  destruct (Hupd ltac:(congruence)) as (cl & conn & pl & pkt & Hcl & Hconn & Hpl & Hpkt & ->).
  rewrite Hx3p in Hcl. rewrite Hcl in Hstore. destruct Hstore as (conn0 & Hc0 & ->).
  rewrite lookup_insert_eq in Hconn. injection Hconn as <-.
  assert (Hptr : ∀ sp p, fst (as_usm sp) = Some p → sp = UsmPointer (Some p)).
  { intros [|[q|]|] p0 E; cbn in E; congruence. }
  exists σ2, x2, result, nl, new, cl.
  destruct (decide (pl = cl)) as [->|Hne].
  - eexists. split; [exact Hstep|]. split; [apply Hptr; exact Hnl|].
    split; [exact Hnew|]. split; [rewrite Hx3p; apply Hptr; exact Hcl|].
    split; [apply lookup_insert_eq|]. split; [reflexivity|]. exact Hctx.
  - eexists. split; [exact Hstep|]. split; [apply Hptr; exact Hnl|].
    split; [exact Hnew|]. split; [rewrite Hx3p; apply Hptr; exact Hcl|].
    split; [rewrite lookup_insert_ne by congruence; apply lookup_insert_eq|].
    split; [reflexivity|]. exact Hctx.
Qed.
End DiscoveryFacts.

(** A connection that has not met its agent yet, and the report of an
    agent with the engine id of RFC 3414 A.3, 5 boots and 6 seconds. *)
Definition usm_new : UsmSecurityParameters :=
  mkUsm [] 0 0 user_name [] [] MD5 NoPriv maplesyrup [] 0 0.
Definition store_new : store := {[ 1%positive := usm_new; 2%positive := usm_new ]}.
Definition packet_new : SnmpPacket :=
  mkPacket Version3 AuthNoPriv UserSecurityModel (UsmPointer (Some 2%positive))
           [] [] 0xa0 0 0.
Definition usm_report : UsmSecurityParameters :=
  mkUsm engine_a3 5 6 [] [] [] 0 0 [] [] 0 0.

Lemma discovery_probe_witness :
  ∃ probe σ4 x4 packet4 conn,
    fst (@negotiateInitialSecurityParameters Std.pdus (Std.transport usm_report)
           store_new conn_auth packet_new true) = [probe]
    ∧ MsgFlags (req_packet probe) = 4
    ∧ snd (@negotiateInitialSecurityParameters Std.pdus (Std.transport usm_report)
             store_new conn_auth packet_new true) = Ok (σ4, x4, packet4)
    ∧ σ4 !! 1%positive = Some conn
    ∧ engine_of conn = (engine_a3, 5, 6)
    ∧ Conn.ContextEngineID x4 = engine_a3.
Proof.
  destruct (@discovery_probe Std.pdus (Std.transport usm_report) store_new conn_auth
              packet_new true 2%positive usm_new eq_refl eq_refl eq_refl eq_refl eq_refl
              eq_refl eq_refl)
    as (probe & bl & Hsent & _ & _ & _ & _ & Hflags & _ & _ & _ & _ & _ & Hdone).
  destruct (snd (@negotiateInitialSecurityParameters Std.pdus (Std.transport usm_report)
                   store_new conn_auth packet_new true)) as [[[σ4 x4] packet4]|e|q] eqn:Hrun;
    [|vm_compute in Hrun; discriminate|vm_compute in Hrun; discriminate].
  destruct (Hdone σ4 x4 packet4 eq_refl)
    as (σ2 & x2 & result & nl & new & cl & conn & Hsend & Hres & Hnew & Hcl & Hconn & Heng & Hctx).
  assert (Hx4 : Conn.SecurityParameters x4 = UsmPointer (Some 1%positive)
                ∧ Conn.ContextEngineID x4 = engine_a3).
  { vm_compute in Hrun. injection Hrun as _ <- _. split; reflexivity. }
  destruct Hx4 as [Hp4 Hc4]. rewrite Hp4 in Hcl. injection Hcl as <-.
  assert (Hnew' : engine_of new = (engine_a3, 5, 6)).
  { cbn in Hsend. unfold Std.sendOneRequest in Hsend. injection Hsend as <- _ <-.
    injection Hres as <-. rewrite lookup_insert_eq in Hnew. injection Hnew as <-.
    reflexivity. }
  exists probe, σ4, x4, packet4, conn.
  split; [exact Hsent|]. split; [exact Hflags|]. split; [reflexivity|].
  split; [exact Hconn|]. split; [congruence|]. exact Hc4.
Defined.

(** ** DES in CBC mode *)

Lemma cbc_encrypt_length enc :
  (∀ b, length b = 8%nat → length (enc b) = 8%nat) →
  ∀ n iv src, length iv = 8%nat → length src = (8 * n)%nat →
              length (cbc_encrypt enc n iv src) = (8 * n)%nat.
Proof.
  intros Henc. induction n as [|n IH]; intros iv src Hiv Hsrc; [reflexivity|].
  cbn [cbc_encrypt]. rewrite length_app.
  assert (Hc : length (enc (xor_bytes (take 8 src) iv)) = 8%nat).
  { apply Henc. rewrite xor_bytes_length, length_take. lia. }
  rewrite Hc, IH; [lia | exact Hc | rewrite length_drop; lia].
Qed.

Lemma cbc_roundtrip enc dec :
  (∀ b, length b = 8%nat → length (enc b) = 8%nat) →
  (∀ b, length b = 8%nat → dec (enc b) = b) →
  ∀ n iv src, length iv = 8%nat → length src = (8 * n)%nat →
              cbc_decrypt dec n iv (cbc_encrypt enc n iv src) = src.
Proof.
  intros Henc Hdec. induction n as [|n IH]; intros iv src Hiv Hsrc.
  - destruct src; [reflexivity | discriminate].
  - cbn [cbc_encrypt cbc_decrypt].
    assert (Hx : length (xor_bytes (take 8 src) iv) = 8%nat).
    { rewrite xor_bytes_length, length_take. lia. }
    assert (Hc : length (enc (xor_bytes (take 8 src) iv)) = 8%nat) by (apply Henc; exact Hx).
    rewrite take_app_length' by (symmetry; exact Hc).
    rewrite drop_app_length' by (symmetry; exact Hc).
    rewrite Hdec by exact Hx.
    rewrite xor_bytes_cancel by (rewrite length_take; lia).
    rewrite IH; [apply take_drop | exact Hc | rewrite length_drop; lia].
Qed.

Lemma des_iv_spec n : ∀ (i : nat) iv preiv pp,
  (i + n ≤ length iv)%nat → (i + n ≤ length preiv)%nat → (i + n ≤ length pp)%nat →
  des_iv n (Z.of_nat i) preiv pp iv
  = Ok (take i iv ++ xor_bytes (take n (drop i preiv)) (take n (drop i pp))
        ++ drop (i + n) iv).
Proof.
  induction n as [|n IH]; intros i iv preiv pp Hiv Hpre Hpp.
  - cbn [des_iv]. rewrite Nat.add_0_r, !take_0. cbn [xor_bytes zip_with app].
    rewrite take_drop. reflexivity.
  - cbn [des_iv].
    destruct (lookup_lt_is_Some_2 preiv i ltac:(lia)) as [a Ha].
    destruct (lookup_lt_is_Some_2 pp i ltac:(lia)) as [b Hb].
    rewrite (index_lookup _ _ _ Ha), (index_lookup _ _ _ Hb). cbn [mbind outcome_bind].
    rewrite Nat2Z.id.
    replace (Z.of_nat i + 1) with (Z.of_nat (S i)) by lia.
    rewrite copy_into_fits by (cbn [length]; lia).
    rewrite IH; [|rewrite !length_app, length_take, length_drop; cbn [length]; lia|lia|lia].
    f_equal.
    rewrite (drop_S _ _ _ Ha), (drop_S _ _ _ Hb). cbn [take xor_bytes zip_with length].
    assert (Hlen : length (take i iv ++ [Z.lxor a b]) = S i)
      by (rewrite length_app, length_take; cbn [length]; lia).
    rewrite (app_assoc (take i iv) [Z.lxor a b]).
    rewrite take_app_length' by (symmetry; exact Hlen).
    rewrite (drop_app_add' _ _ (S i)) by (symmetry; exact Hlen).
    rewrite drop_drop. replace (i + 1 + n)%nat with (i + S n)%nat by lia.
    rewrite <- !app_assoc. reflexivity.
Qed.

(** The DES key, initialization vector, padded plaintext and ciphertext of
    a scoped PDU (lines 625-640). *)
Definition des_key (secParams : UsmSecurityParameters) : bytes :=
  take 8 (privacy_key secParams).
Definition des_iv_of (secParams : UsmSecurityParameters) : bytes :=
  xor_bytes (take 8 (drop 8 (privacy_key secParams))) (take 8 (PrivacyParameters secParams)).
Definition des_padded (plain : bytes) : bytes :=
  plain ++ zeros (des_BlockSize - Z.rem (len plain) des_BlockSize).

Lemma des_padded_length plain :
  len (des_padded plain) = (len plain / 8 + 1) * 8 ∧ len (des_padded plain) mod 8 = 0.
Proof.
  unfold des_padded, des_BlockSize. rewrite len_app.
  pose proof (len_nonneg plain) as Hn.
  rewrite Z.rem_mod_nonneg by lia.
  pose proof (Z.mod_pos_bound (len plain) 8 ltac:(lia)).
  pose proof (Z.div_mod (len plain) 8 ltac:(lia)).
  assert (Hz : len (zeros (8 - len plain mod 8)) = 8 - len plain mod 8).
  { unfold len at 1. rewrite zeros_length. lia. }
  rewrite Hz.
  replace (len plain + (8 - len plain mod 8)) with ((len plain / 8 + 1) * 8) by lia.
  split; [reflexivity | apply Z_mod_mult].
Qed.

Lemma des_iv_of_length secParams :
  (8 ≤ length (PrivacyParameters secParams))%nat → length (des_iv_of secParams) = 8%nat.
Proof.
  intros H. unfold des_iv_of, privacy_key.
  rewrite xor_bytes_length, !length_take, length_drop, localized_key_length.
  pose proof (digest_size_ge (alg_of (AuthenticationProtocol secParams))). lia.
Qed.

Section DesPrivacy.
Context `{BC : BerCodec} `{PC : PduCodec} `{CI : BlockCiphers}.

Definition des_ciphertext (secParams : UsmSecurityParameters) (plain : bytes) : bytes :=
  cbc_encrypt (des_encrypt_block (des_key secParams))
              (Z.to_nat (len (des_padded plain) / des_BlockSize))
              (des_iv_of secParams) (des_padded plain).

(** Lines 906-910 and 625-629 give the same vector. *)
Lemma des_iv_run secParams :
  (8 ≤ length (PrivacyParameters secParams))%nat →
  des_iv 8 0 (drop 8 (privacy_key secParams)) (PrivacyParameters secParams) (zeros 8)
  = Ok (des_iv_of secParams).
Proof.
  intros H. change 0 with (Z.of_nat 0). rewrite des_iv_spec.
  - rewrite take_0, !drop_0. cbn [app]. unfold des_iv_of.
    replace (drop (0 + 8) (zeros 8)) with (@nil Z) by reflexivity.
    rewrite app_nil_r. reflexivity.
  - rewrite zeros_length. lia.
  - unfold privacy_key. rewrite length_drop, localized_key_length.
    pose proof (digest_size_ge (alg_of (AuthenticationProtocol secParams))). lia.
  - lia.
Qed.

Lemma des_NewCipher_key secParams : des_NewCipher (take 8 (privacy_key secParams)) = Ok (des_key secParams).
Proof.
  unfold des_NewCipher, des_key, privacy_key, len.
  rewrite length_take, localized_key_length.
  pose proof (digest_size_ge (alg_of (AuthenticationProtocol secParams))).
  replace (Z.of_nat (8 `min` digest_size (alg_of (AuthenticationProtocol secParams)))) with 8
    by lia.
  reflexivity.
Qed.

Lemma marshalSnmpV3ScopedPDU_des σ packet pdus requestid l secParams plain :
  Z.land (MsgFlags packet) AuthPriv > AuthNoPriv →
  SecurityModel packet = UserSecurityModel →
  SecurityParameters packet = UsmPointer (Some l) →
  σ !! l = Some secParams →
  PrivacyProtocol secParams ≠ AES →
  PrivacyPassphrase secParams ≠ [] →
  (8 ≤ length (PrivacyParameters secParams))%nat →
  plainScopedPDU packet pdus requestid = Ok plain →
  marshalSnmpV3ScopedPDU σ packet pdus requestid
  = (pduLen ← marshalLength (len (des_ciphertext secParams plain));
     Ok ([OctetString] ++ pduLen ++ des_ciphertext secParams plain)).
Proof.
  intros Hf Hm Hsp Hl Hproto Hp Hpp Hplain. unfold marshalSnmpV3ScopedPDU.
  rewrite Hplain. cbn [mbind outcome_bind].
  rewrite (gt_gtb _ _ Hf), Hm, Z.eqb_refl, Hsp. cbn [andb fst as_usm].
  rewrite (load_Some _ _ _ Hl). cbn [mbind outcome_bind].
  rewrite (genlocalkey_spec _ Hp). cbn [mbind outcome_bind].
  destruct (Z.eqb_spec (PrivacyProtocol secParams) AES) as [E|_]; [contradiction|].
  rewrite bytes_from_key by lia. cbn [mbind outcome_bind].
  change (Z.to_nat 8) with 8%nat.
  pose proof (des_iv_run secParams Hpp) as Hiv. unfold privacy_key in Hiv.
  rewrite Hiv. cbn [mbind outcome_bind].
  rewrite bytes_upto_key by lia. cbn [mbind outcome_bind].
  change (Z.to_nat 8) with 8%nat.
  pose proof (des_NewCipher_key secParams) as Hkey. unfold privacy_key in Hkey.
  rewrite Hkey. cbn [mbind outcome_bind].
  fold (des_padded plain). unfold CryptBlocks.
  destruct (des_padded_length plain) as [_ Hmod].
  unfold des_BlockSize at 1. rewrite Hmod. cbn [Z.eqb negb mbind outcome_bind].
  reflexivity.
Qed.
End DesPrivacy.

(** ** Slices over a message followed by spare capacity *)

(** The slice whose elements are [m], with [spare] behind them in the
    array. *)
Definition over (m spare : bytes) : slice := mkSlice (m ++ spare) (len m).

Lemma s_bytes_over m spare : s_bytes (over m spare) = m.
Proof. apply s_bytes_spare. Qed.

Lemma slice_index_over m spare a x b c :
  m = a ++ x :: b → c = len a → slice_index (over m spare) c = Ok x.
Proof.
  intros -> ->. unfold slice_index, over, len. cbn [s_len s_arr].
  rewrite length_app. cbn [length].
  destruct (Z.leb_spec 0 (Z.of_nat (length a))); [|lia].
  destruct (Z.ltb_spec (Z.of_nat (length a)) (Z.of_nat (length a + S (length b)))); [|lia].
  cbn [andb]. f_equal. rewrite Nat2Z.id, <- app_assoc.
  rewrite app_nth2 by lia. rewrite Nat.sub_diag. reflexivity.
Qed.

Lemma slice_from_over m spare a b c :
  m = a ++ b → c = len a → slice_from (over m spare) c = Ok (over b spare).
Proof.
  intros -> ->. unfold slice_from, over, len. cbn [s_len s_arr].
  rewrite length_app.
  destruct (Z.leb_spec 0 (Z.of_nat (length a))); [|lia].
  destruct (Z.leb_spec (Z.of_nat (length a)) (Z.of_nat (length a + length b))); [|lia].
  cbn [andb]. f_equal. rewrite Nat2Z.id, <- app_assoc, drop_app_length.
  f_equal. lia.
Qed.

Lemma slice_upto_over m spare a b c :
  m = a ++ b → c = len a → slice_upto (over m spare) c = Ok (over a (b ++ spare)).
Proof.
  intros -> ->. unfold slice_upto, over, s_cap, len. cbn [s_len s_arr].
  rewrite !length_app.
  destruct (Z.leb_spec 0 (Z.of_nat (length a))); [|lia].
  destruct (Z.leb_spec (Z.of_nat (length a))
                       (Z.of_nat (length a + length b + length spare))); [|lia].
  cbn [andb]. rewrite <- app_assoc. reflexivity.
Qed.

Lemma slice_copy_from_over m spare a b src c :
  m = a ++ b → c = len a → (length src ≤ length b)%nat →
  slice_copy_from (over m spare) c src
  = Ok (over (a ++ src ++ drop (length src) b) spare).
Proof.
  intros -> -> Hsrc. unfold slice_copy_from, over, len. cbn [s_len s_arr].
  rewrite length_app.
  destruct (Z.leb_spec 0 (Z.of_nat (length a))); [|lia].
  destruct (Z.leb_spec (Z.of_nat (length a)) (Z.of_nat (length a + length b))); [|lia].
  cbn [andb]. f_equal.
  rewrite take_ge by lia. rewrite Nat2Z.id.
  rewrite copy_into_fits by (rewrite !length_app; lia).
  rewrite <- !app_assoc, take_app_length.
  rewrite (drop_app_add' a _ (length a)) by reflexivity.
  rewrite drop_app_le by lia.
  f_equal.
  rewrite !length_app, length_drop. f_equal. lia.
Qed.

Lemma len_cons {A} (x : A) (l : list A) : len (x :: l) = 1 + len l.
Proof. unfold len. cbn [length]. lia. Qed.

Lemma len_nil {A} : len (@nil A) = 0.
Proof. reflexivity. Qed.

(** Splits the lengths of concatenations and closes the goal by linear
    arithmetic. *)
Ltac len_eq :=
  repeat (progress (rewrite ?len_app, ?len_cons, ?len_nil));
  unfold len; lia.

(** Brings both sides of an equation between concatenations to the
    right-nested form and compares them. *)
Ltac list_eq :=
  repeat (progress (rewrite <- ?app_assoc, <- ?app_comm_cons; cbn [app]));
  reflexivity.

(** ** The parser on what the builder wrote *)

(** What the proofs need of the BER primitives: on a field written as tag,
    [marshalLength] of the size of the content, and the content,
    [parseLength] gives the size of the field and of its header, and
    [parseRawField] gives the content of an octet string and the size of
    the field. *)
Class BerCodecLaws `{BC : BerCodec} : Prop := {
  parseLength_field : ∀ (s : slice) (tag : Z) (l body rest : bytes),
    marshalLength (len body) = Ok l →
    s_bytes s = tag :: l ++ body ++ rest →
    parseLength s = Ok (1 + len l + len body, 1 + len l);
  parseRawField_octets : ∀ (s : slice) (msg : string) (l body rest : bytes),
    marshalLength (len body) = Ok l →
    s_bytes s = OctetString :: l ++ body ++ rest →
    parseRawField s msg = Ok (RawString body, 1 + len l + len body)
}.

Section ScopedPDU.
Context `{BC : BerCodec} `{PC : PduCodec} `{CI : BlockCiphers}.

(** The layout of the plaintext scoped PDU (lines 586-595 and 655-680). *)
Lemma plainScopedPDU_layout packet pdus requestid plain :
  plainScopedPDU packet pdus requestid = Ok plain →
  ∃ idlen namelen data pduLen,
    marshalLength (len (ContextEngineID packet)) = Ok idlen
    ∧ marshalLength (len (ContextName packet)) = Ok namelen
    ∧ marshalPDU packet pdus requestid = Ok data
    ∧ marshalLength
        (len (OctetString :: idlen ++ ContextEngineID packet
                ++ OctetString :: namelen ++ ContextName packet ++ data)) = Ok pduLen
    ∧ plain = Sequence :: pduLen
                ++ OctetString :: idlen ++ ContextEngineID packet
                ++ OctetString :: namelen ++ ContextName packet ++ data.
Proof.
  unfold plainScopedPDU, prepareSnmpV3ScopedPDU. intros H.
  inv_bind H. inv_bind Hstep. inv_bind Hstep. inv_bind Hstep. apply Ok_inj in Hstep.
  inv_bind H. apply Ok_inj in H.
  assert (Ha : a = OctetString :: a0 ++ ContextEngineID packet
                   ++ OctetString :: a1 ++ ContextName packet ++ a2).
  { rewrite <- Hstep. cbn [app]. rewrite <- !app_assoc. reflexivity. }
  exists a0, a1, a2, a3. rewrite <- Ha.
  split; [assumption|]. split; [assumption|]. split; [assumption|].
  split; [assumption|]. rewrite <- H. reflexivity.
Qed.

(** Lines 929-951 on a plaintext scoped PDU followed by [junk]: the packet
    is cut after the PDU and the two context fields are read. *)
Lemma extractV3Packet_plain_run `{!BerCodecLaws}
    (pre junk spare pduLen idlen ceid namelen name data : bytes) response :
  let scoped := OctetString :: idlen ++ ceid ++ OctetString :: namelen ++ name ++ data in
  let plain := Sequence :: pduLen ++ scoped in
  marshalLength (len ceid) = Ok idlen →
  marshalLength (len name) = Ok namelen →
  marshalLength (len scoped) = Ok pduLen →
  extractV3Packet_plain (over (pre ++ plain ++ junk) spare) (len pre) response
  = Ok (set_ContextName name (set_ContextEngineID ceid response),
        over (pre ++ plain) (junk ++ spare),
        len pre + (1 + len pduLen) + (1 + len idlen + len ceid)
        + (1 + len namelen + len name)).
Proof.
  intros scoped plain Hid Hname Hpdu. unfold extractV3Packet_plain.
  rewrite (slice_from_over _ spare pre (plain ++ junk) _ eq_refl eq_refl).
  cbn [mbind outcome_bind].
  rewrite (parseLength_field _ Sequence pduLen scoped junk Hpdu).
  2:{ rewrite s_bytes_over. unfold plain. cbn [app]. rewrite <- app_assoc. reflexivity. }
  cbn [mbind outcome_bind].
  rewrite (slice_upto_over _ spare (pre ++ plain) junk).
  2:{ rewrite <- app_assoc. reflexivity. }
  2:{ unfold plain. len_eq. }
  cbn [mbind outcome_bind].
  rewrite (slice_from_over _ (junk ++ spare) (pre ++ Sequence :: pduLen) scoped).
  2:{ unfold plain. rewrite <- app_assoc. reflexivity. }
  2:{ len_eq. }
  cbn [mbind outcome_bind].
  rewrite (parseRawField_octets _ _ idlen ceid (OctetString :: namelen ++ name ++ data) Hid).
  2:{ rewrite s_bytes_over. reflexivity. }
  cbn [wrap_err mbind outcome_bind].
  rewrite (slice_from_over _ (junk ++ spare)
             (pre ++ Sequence :: pduLen ++ OctetString :: idlen ++ ceid)
             (OctetString :: namelen ++ name ++ data)).
  2:{ unfold plain, scoped. list_eq. }
  2:{ len_eq. }
  cbn [mbind outcome_bind].
  rewrite (parseRawField_octets _ _ namelen name data Hname).
  2:{ rewrite s_bytes_over. reflexivity. }
  cbn [wrap_err mbind outcome_bind].
  reflexivity.
Qed.

Lemma des_ciphertext_length `{!BlockCipherLaws} secParams plain :
  (8 ≤ length (PrivacyParameters secParams))%nat →
  len (des_ciphertext secParams plain) = len (des_padded plain)
  ∧ len (des_ciphertext secParams plain) = (len plain / 8 + 1) * 8.
Proof.
  intros Hpp. destruct (des_padded_length plain) as [Hlen Hmod].
  pose proof (len_nonneg plain) as Hn.
  pose proof (Z.div_pos (len plain) 8 ltac:(lia) ltac:(lia)) as Hq.
  assert (Hdiv : len (des_padded plain) / des_BlockSize = len plain / 8 + 1).
  { rewrite Hlen. unfold des_BlockSize. apply Z_div_mult. lia. }
  assert (Hct : length (des_ciphertext secParams plain)
                = (8 * Z.to_nat (len (des_padded plain) / des_BlockSize))%nat).
  { unfold des_ciphertext. apply cbc_encrypt_length.
    - apply des_block_length.
    - apply des_iv_of_length. assumption.
    - rewrite Hdiv. unfold len in *. lia. }
  unfold len in *. rewrite Hct, Hdiv. lia.
Qed.

(** Lines 873-925 on the octet string the builder made of a DES
    ciphertext: the padded plaintext takes the place of the octet string
    and the packet is cut after it. *)
Lemma extractV3Packet_decrypt_des `{!BerCodecLaws} `{!BlockCipherLaws}
    σ (pre plen spare : bytes) response l secParams plain :
  SecurityModel response = UserSecurityModel →
  SecurityParameters response = UsmPointer (Some l) →
  σ !! l = Some secParams →
  PrivacyProtocol secParams ≠ AES →
  PrivacyPassphrase secParams ≠ [] →
  (8 ≤ length (PrivacyParameters secParams))%nat →
  marshalLength (len (des_ciphertext secParams plain)) = Ok plen →
  extractV3Packet_decrypt σ
    (over (pre ++ OctetString :: plen ++ des_ciphertext secParams plain) spare)
    (len pre) response
  = Ok (over (pre ++ des_padded plain)
             (drop (length (des_padded plain))
                   (OctetString :: plen ++ des_ciphertext secParams plain) ++ spare)).
Proof.
  intros Hm Hsp Hl Hproto Hp Hpp Hplen.
  set (ct := des_ciphertext secParams plain) in *.
  destruct (des_ciphertext_length secParams plain Hpp) as [Hctlen Hct8]. fold ct in Hctlen, Hct8.
  destruct (des_padded_length plain) as [Hpadlen Hpadmod].
  unfold extractV3Packet_decrypt.
  rewrite (slice_from_over _ spare pre (OctetString :: plen ++ ct) _ eq_refl eq_refl).
  cbn [mbind outcome_bind].
  rewrite (parseLength_field _ OctetString plen ct [] Hplen).
  2:{ rewrite s_bytes_over, app_nil_r. reflexivity. }
  cbn [mbind outcome_bind].
  rewrite Hm, Z.eqb_refl, Hsp. cbn [fst as_usm].
  rewrite (load_Some _ _ _ Hl). cbn [mbind outcome_bind].
  rewrite (genlocalkey_spec _ Hp). cbn [mbind outcome_bind].
  destruct (Z.eqb_spec (PrivacyProtocol secParams) AES) as [E|_]; [contradiction|].
  rewrite (slice_from_over _ spare (pre ++ OctetString :: plen) ct).
  2:{ list_eq. }
  2:{ len_eq. }
  cbn [mbind outcome_bind].
  unfold over at 1. cbn [s_len]. rewrite s_bytes_over.
  assert (Hrem : Z.rem (len ct) des_BlockSize = 0).
  { rewrite Z.rem_mod_nonneg by (unfold des_BlockSize; pose proof (len_nonneg ct); lia).
    rewrite Hctlen. exact Hpadmod. }
  rewrite Hrem. cbn [Z.eqb negb].
  rewrite bytes_from_key by lia. cbn [mbind outcome_bind].
  change (Z.to_nat 8) with 8%nat.
  pose proof (des_iv_run secParams Hpp) as Hiv. unfold privacy_key in Hiv.
  rewrite Hiv. cbn [mbind outcome_bind].
  rewrite bytes_upto_key by lia. cbn [mbind outcome_bind].
  change (Z.to_nat 8) with 8%nat.
  pose proof (des_NewCipher_key secParams) as Hkey. unfold privacy_key in Hkey.
  rewrite Hkey. cbn [mbind outcome_bind].
  unfold CryptBlocks.
  replace (len ct mod des_BlockSize) with 0
    by (rewrite Hctlen; symmetry; exact Hpadmod).
  cbn [Z.eqb negb mbind outcome_bind].
  assert (Hdec : cbc_decrypt (des_decrypt_block (des_key secParams))
                             (Z.to_nat (len ct / des_BlockSize)) (des_iv_of secParams) ct
                 = des_padded plain).
  { rewrite Hctlen. unfold ct, des_ciphertext. apply cbc_roundtrip.
    - apply des_block_length.
    - apply des_block_inverse.
    - apply des_iv_of_length. assumption.
    - pose proof (len_nonneg plain).
      pose proof (Z.div_pos (len plain) 8 ltac:(lia) ltac:(lia)).
      rewrite Hpadlen. unfold des_BlockSize. rewrite Z_div_mult by lia.
      unfold len in *. lia. }
  rewrite Hdec.
  rewrite (slice_copy_from_over _ spare pre (OctetString :: plen ++ ct) (des_padded plain)
             _ eq_refl eq_refl).
  2:{ cbn [length]. rewrite length_app. unfold len in Hctlen. lia. }
  cbn [mbind outcome_bind].
  rewrite (slice_upto_over _ spare (pre ++ des_padded plain)
             (drop (length (des_padded plain)) (OctetString :: plen ++ ct))).
  2:{ list_eq. }
  2:{ len_eq. }
  reflexivity.
Qed.

(** X21.  With DES privacy the scoped PDU, [L] bytes under its
    sequence header, is followed by 8 - L mod 8 zero bytes, between one and
    eight of them, so that the padded plaintext is a multiple of 8 long;
    the ciphertext is as long as the padded plaintext, (L / 8 + 1) * 8
    bytes, and goes out as an octet string.  On a receiver with the same
    user, the parser decrypts it in place, cuts the packet at the length
    the sequence header of the plaintext gives, and is left with the
    original scoped PDU; the context engine id and name it reads are those
    of the sender. *)
Theorem des_privacy_roundtrip `{!BerCodecLaws} `{!BlockCipherLaws}
    σ packet pdus requestid l secParams plain plen (pre spare : bytes) response :
  Z.land (MsgFlags packet) AuthPriv > AuthNoPriv →
  SecurityModel packet = UserSecurityModel →
  SecurityParameters packet = UsmPointer (Some l) →
  σ !! l = Some secParams →
  PrivacyProtocol secParams ≠ AES →
  PrivacyPassphrase secParams ≠ [] →
  (8 ≤ length (PrivacyParameters secParams))%nat →
  plainScopedPDU packet pdus requestid = Ok plain →
  marshalLength ((len plain / 8 + 1) * 8) = Ok plen →
  SecurityModel response = UserSecurityModel →
  SecurityParameters response = UsmPointer (Some l) →
  let padded := plain ++ zeros (8 - len plain mod 8) in
  let ciphertext :=
    cbc_encrypt (des_encrypt_block (take 8 (privacy_key secParams)))
                (Z.to_nat (len padded / 8)) (des_iv_of secParams) padded in
  1 ≤ len padded - len plain ≤ 8 ∧
  len padded mod 8 = 0 ∧
  len ciphertext = len padded ∧
  len ciphertext = (len plain / 8 + 1) * 8 ∧
  marshalSnmpV3ScopedPDU σ packet pdus requestid = Ok (OctetString :: plen ++ ciphertext) ∧
  ∃ packet' cursor',
    extractV3Packet_scoped σ (over (pre ++ OctetString :: plen ++ ciphertext) spare)
                           (len pre) response
    = Ok (set_ContextName (ContextName packet)
            (set_ContextEngineID (ContextEngineID packet) response),
          packet', cursor')
    ∧ s_bytes packet' = pre ++ plain.
Proof.
  intros Hf Hm Hsp Hl Hproto Hp Hpp Hplain Hplen Hrm Hrsp padded ciphertext.
  pose proof (len_nonneg plain) as Hn.
  assert (Hpad : des_padded plain = padded).
  { unfold des_padded, padded, des_BlockSize. rewrite Z.rem_mod_nonneg by lia. reflexivity. }
  assert (Hct : des_ciphertext secParams plain = ciphertext).
  { unfold des_ciphertext, ciphertext, des_key, des_BlockSize. rewrite Hpad. reflexivity. }
  destruct (des_padded_length plain) as [Hpadlen Hpadmod].
  destruct (des_ciphertext_length secParams plain Hpp) as [Hctlen Hct8].
  rewrite Hpad in *. rewrite Hct in *.
  pose proof (Z.mod_pos_bound (len plain) 8 ltac:(lia)).
  pose proof (Z.div_mod (len plain) 8 ltac:(lia)).
  split; [lia|]. split; [exact Hpadmod|]. split; [exact Hctlen|]. split; [exact Hct8|].
  assert (Hplen' : marshalLength (len ciphertext) = Ok plen) by (rewrite Hct8; exact Hplen).
  split.
  { rewrite (marshalSnmpV3ScopedPDU_des σ packet pdus requestid l secParams plain)
      by assumption.
    rewrite Hct, Hplen'. reflexivity. }
  destruct (plainScopedPDU_layout _ _ _ _ Hplain)
    as (idlen & namelen & data & pduLen & Hid & Hname & _ & Hpdu & Hlayout).
  unfold extractV3Packet_scoped.
  rewrite (slice_index_over _ spare pre OctetString (plen ++ ciphertext) _ eq_refl eq_refl).
  cbn [mbind outcome_bind]. rewrite Z.eqb_refl.
  rewrite <- Hct in Hplen' |- *.
  rewrite (extractV3Packet_decrypt_des σ pre plen spare response l secParams plain)
    by assumption.
  cbn [mbind outcome_bind]. rewrite Hpad. unfold padded at 1.
  pose proof (extractV3Packet_plain_run pre (zeros (8 - len plain mod 8))
                (drop (length padded) (OctetString :: plen ++ des_ciphertext secParams plain)
                 ++ spare)
                pduLen idlen (ContextEngineID packet) namelen (ContextName packet) data
                response Hid Hname Hpdu) as Hrun.
  cbv zeta in Hrun. rewrite <- Hlayout in Hrun.
  eexists _, _. split.
  - exact Hrun.
  - apply s_bytes_over.
Qed.
End ScopedPDU.

(** ** The stand-in codec satisfies the laws *)

Lemma be_value_digits fuel n acc :
  0 ≤ n < 256 ^ Z.of_nat fuel →
  Std.be_value (Std.be_digits fuel n acc) 0 = Std.be_value acc n.
Proof.
  revert n acc. induction fuel as [|fuel IH]; intros n acc Hn.
  - cbn [Std.be_digits]. replace n with 0 by (cbn in Hn; lia). reflexivity.
  - cbn [Std.be_digits]. destruct (Z.eqb_spec n 0) as [->|Hne]; [reflexivity|].
    rewrite IH.
    + cbn [Std.be_value]. f_equal.
      pose proof (Z.div_mod n 256 ltac:(lia)). lia.
    + rewrite Nat2Z.inj_succ, Z.pow_succ_r in Hn by lia.
      split; [apply Z.div_pos; lia|].
      apply Z.div_lt_upper_bound; lia.
Qed.

(** A slice whose elements are known is that message with some spare
    capacity behind it. *)
Lemma slice_view (s : slice) x (m : bytes) :
  s_bytes s = x :: m →
  ∃ spare, s_arr s = (x :: m) ++ spare ∧ len (x :: m) ≤ s_len s.
Proof.
  unfold s_bytes. intros Hs.
  exists (drop (Z.to_nat (s_len s)) (s_arr s)). split.
  - rewrite <- Hs. symmetry. apply take_drop.
  - assert (Hlen : length (x :: m) = length (take (Z.to_nat (s_len s)) (s_arr s)))
      by (rewrite Hs; reflexivity).
    rewrite length_take in Hlen. unfold len. cbn [length] in Hlen |- *. lia.
Qed.

Lemma std_slice_sub s (a m rest : bytes) c d :
  s_arr s = a ++ m ++ rest → c = len a → d = len a + len m →
  Std.slice_sub s c d = Ok m.
Proof.
  intros Harr -> ->. unfold Std.slice_sub, s_cap. rewrite Harr.
  unfold len. rewrite !length_app.
  destruct (Z.leb_spec 0 (Z.of_nat (length a))); [|lia].
  destruct (Z.leb_spec (Z.of_nat (length a)) (Z.of_nat (length a) + Z.of_nat (length m)));
    [|lia].
  destruct (Z.leb_spec (Z.of_nat (length a) + Z.of_nat (length m))
                       (Z.of_nat (length a + (length m + length rest)))); [|lia].
  cbn [andb]. f_equal.
  rewrite Nat2Z.id, drop_app_length.
  replace (Z.to_nat (Z.of_nat (length a) + Z.of_nat (length m) - Z.of_nat (length a)))
    with (length m) by lia.
  apply take_app_length.
Qed.

Lemma std_slice_index s (a : bytes) x (rest : bytes) c :
  s_arr s = a ++ x :: rest → c = len a → len a < s_len s →
  slice_index s c = Ok x.
Proof.
  intros Harr -> Hlt. unfold slice_index. rewrite Harr. unfold len in *.
  destruct (Z.leb_spec 0 (Z.of_nat (length a))); [|lia].
  destruct (Z.ltb_spec (Z.of_nat (length a)) (s_len s)); [|lia].
  cbn [andb]. f_equal. rewrite Nat2Z.id.
  rewrite app_nth2 by lia. rewrite Nat.sub_diag. reflexivity.
Qed.

Lemma std_parseLength_field (s : slice) (tag : Z) (l body rest : bytes) :
  Std.marshalLength (len body) = Ok l →
  s_bytes s = tag :: l ++ body ++ rest →
  Std.parseLength s = Ok (1 + len l + len body, 1 + len l).
Proof.
  intros Hl Hs. destruct (slice_view _ _ _ Hs) as (spare & Harr & Hlen).
  pose proof (len_nonneg body) as Hb.
  unfold Std.marshalLength in Hl.
  destruct (Z.ltb_spec (len body) 0); [lia|].
  destruct (Z.ltb_spec (len body) 128).
  - apply Ok_inj in Hl. subst l. unfold Std.parseLength.
    rewrite (std_slice_index s [tag] (len body) (body ++ rest ++ spare) 1).
    + cbn [mbind outcome_bind]. destruct (Z.ltb_spec (len body) 128); [|lia].
      f_equal. f_equal; len_eq.
    + rewrite Harr. cbn [app]. rewrite <- !app_assoc. reflexivity.
    + reflexivity.
    + revert Hlen. cbn [app]. len_eq.
  - destruct (Z.ltb_spec (len body) (2 ^ 32)); [|discriminate].
    apply Ok_inj in Hl. subst l.
    set (d := Std.be_digits 4 (len body) []) in *.
    pose proof (len_nonneg d) as Hd.
    unfold Std.parseLength.
    rewrite (std_slice_index s [tag] (128 + len d) (d ++ body ++ rest ++ spare) 1).
    + cbn [mbind outcome_bind]. destruct (Z.ltb_spec (128 + len d) 128); [lia|].
      replace (128 + len d - 128) with (len d) by lia.
      rewrite (std_slice_sub s [tag; 128 + len d] d (body ++ rest ++ spare)).
      * cbn [mbind outcome_bind].
        assert (Hfit : 2 + len d ≤ s_len s).
        { revert Hlen. cbn [app]. len_eq. }
        destruct (Z.leb_spec (2 + len d) (s_len s)); [|lia].
        cbn [negb]. unfold d at 1. rewrite be_value_digits by (cbn; lia).
        cbn [Std.be_value]. f_equal. f_equal; len_eq.
      * rewrite Harr. cbn [app]. rewrite <- !app_assoc. reflexivity.
      * reflexivity.
      * len_eq.
    + rewrite Harr. cbn [app]. rewrite <- !app_assoc. reflexivity.
    + reflexivity.
    + revert Hlen. cbn [app]. len_eq.
Qed.

Lemma std_parseRawField_octets (s : slice) (msg : string) (l body rest : bytes) :
  Std.marshalLength (len body) = Ok l →
  s_bytes s = OctetString :: l ++ body ++ rest →
  Std.parseRawField s msg = Ok (RawString body, 1 + len l + len body).
Proof.
  intros Hl Hs. destruct (slice_view _ _ _ Hs) as (spare & Harr & Hlen).
  unfold Std.parseRawField.
  rewrite (std_slice_index s [] OctetString (l ++ body ++ rest ++ spare) 0).
  - cbn [mbind outcome_bind].
    replace (OctetString =? Integer) with false by reflexivity.
    rewrite Z.eqb_refl.
    rewrite (std_parseLength_field s OctetString l body rest Hl Hs).
    cbn [mbind outcome_bind].
    rewrite (std_slice_sub s (OctetString :: l) body (rest ++ spare)).
    + reflexivity.
    + rewrite Harr. cbn [app]. rewrite <- !app_assoc. reflexivity.
    + len_eq.
    + len_eq.
  - rewrite Harr. cbn [app]. rewrite <- !app_assoc. reflexivity.
  - reflexivity.
  - revert Hlen. cbn [app]. len_eq.
Qed.

Lemma std_codec_laws : @BerCodecLaws Std.codec.
Proof.
  split.
  - exact std_parseLength_field.
  - exact std_parseRawField_octets.
Qed.

(** ** DES privacy at a plaintext that fills its last block *)

(** A DES user whose salt has been set, and a packet with a context name
    of one byte, so that the plaintext scoped PDU has 32 bytes. *)
Definition usm_des_salted : UsmSecurityParameters :=
  mkUsm engine_a3 1 2 user_name [] [0; 0; 0; 1; 0; 0; 0; 1] MD5 DES maplesyrup maplesyrup 1 0.
Definition store_des : store := {[ 2%positive := usm_des_salted ]}.
Definition packet_des : SnmpPacket :=
  mkPacket Version3 AuthPriv UserSecurityModel (UsmPointer (Some 2%positive))
           engine_a3 [120] 0xa0 0 0.

Definition plain_des : bytes :=
  Eval vm_compute in
    match @plainScopedPDU Std.codec Std.pdus packet_des [] 1 with
    | Ok b => b
    | _ => []
    end.

Lemma plain_des_ok :
  @plainScopedPDU Std.codec Std.pdus packet_des [] 1 = Ok plain_des.
Proof. vm_compute. reflexivity. Qed.

Lemma plain_des_length : len plain_des = 32.
Proof. reflexivity. Qed.

(** The claim C3 fails at a plaintext whose length is a multiple of 8: the
    32 bytes of [plain_des] get eight more zero bytes, and the ciphertext
    has 40 bytes, where ceil(32/8)*8 is 32. *)
Lemma des_pads_a_full_block :
  @plainScopedPDU Std.codec Std.pdus packet_des [] 1 = Ok plain_des
  ∧ len plain_des = 32
  ∧ (len plain_des + 7) / 8 * 8 = 32
  ∧ ∃ ciphertext,
      @marshalSnmpV3ScopedPDU Std.codec Std.pdus Std.ciphers store_des packet_des [] 1
      = Ok (OctetString :: 40 :: ciphertext)
      ∧ len ciphertext = 40
      ∧ len ciphertext ≠ (len plain_des + 7) / 8 * 8.
Proof.
  assert (Hf : Z.land (MsgFlags packet_des) AuthPriv > AuthNoPriv) by reflexivity.
  assert (Hproto : PrivacyProtocol usm_des_salted ≠ AES) by (cbv; discriminate).
  assert (Hp : PrivacyPassphrase usm_des_salted ≠ []) by (cbv; discriminate).
  assert (Hpp : (8 ≤ length (PrivacyParameters usm_des_salted))%nat) by (cbv; lia).
  destruct (@des_ciphertext_length Std.ciphers std_cipher_laws usm_des_salted plain_des Hpp)
    as [_ H8].
  change ((len plain_des / 8 + 1) * 8) with 40 in H8.
  split; [exact plain_des_ok|]. split; [reflexivity|]. split; [reflexivity|].
  exists (@des_ciphertext Std.ciphers usm_des_salted plain_des).
  split; [|split; [exact H8|]].
  - rewrite (@marshalSnmpV3ScopedPDU_des Std.codec Std.pdus Std.ciphers store_des packet_des
               [] 1 2%positive usm_des_salted plain_des Hf eq_refl eq_refl eq_refl
               Hproto Hp Hpp plain_des_ok).
    rewrite H8.
    replace (@marshalLength Std.codec 40) with (@Ok bytes [40]) by reflexivity.
    reflexivity.
  - rewrite H8. change ((len plain_des + 7) / 8 * 8) with 32. lia.
Qed.

Lemma des_privacy_roundtrip_witness :
  ∃ ciphertext packet' cursor',
    @marshalSnmpV3ScopedPDU Std.codec Std.pdus Std.ciphers store_des packet_des [] 1
    = Ok (OctetString :: 40 :: ciphertext)
    ∧ len ciphertext = 40
    ∧ @extractV3Packet_scoped Std.codec Std.ciphers store_des
        (over ([48; 2] ++ OctetString :: [40] ++ ciphertext) []) (len [48; 2]) packet_priv
      = Ok (set_ContextName (ContextName packet_des)
              (set_ContextEngineID (ContextEngineID packet_des) packet_priv),
            packet', cursor')
    ∧ s_bytes packet' = [48; 2] ++ plain_des.
Proof.
  assert (Hf : Z.land (MsgFlags packet_des) AuthPriv > AuthNoPriv) by reflexivity.
  assert (Hproto : PrivacyProtocol usm_des_salted ≠ AES) by (cbv; discriminate).
  assert (Hp : PrivacyPassphrase usm_des_salted ≠ []) by (cbv; discriminate).
  assert (Hpp : (8 ≤ length (PrivacyParameters usm_des_salted))%nat) by (cbv; lia).
  assert (Hplen : @marshalLength Std.codec ((len plain_des / 8 + 1) * 8) = Ok [40])
    by reflexivity.
  pose proof (@des_privacy_roundtrip Std.codec Std.pdus Std.ciphers
                std_codec_laws std_cipher_laws
                store_des packet_des [] 1 2%positive usm_des_salted plain_des [40]
                [48; 2] [] packet_priv
                Hf eq_refl eq_refl eq_refl Hproto Hp Hpp plain_des_ok Hplen
                eq_refl eq_refl) as Hthm.
  cbv zeta in Hthm.
  destruct Hthm as (_ & _ & _ & H8 & Hout & packet' & cursor' & Hrun & Hbytes).
  cbn [app] in Hout.
  eexists _, packet', cursor'.
  split; [exact Hout|].
  split; [rewrite H8; reflexivity|].
  split; [exact Hrun|exact Hbytes].
Defined.

(** * Further properties of v3.go *)

(** ** Parameter validation *)

Lemma land_level flags :
  Z.land flags AuthPriv = 0 ∨ Z.land flags AuthPriv = 1
  ∨ Z.land flags AuthPriv = 2 ∨ Z.land flags AuthPriv = 3.
Proof.
  unfold AuthPriv. change 3 with (Z.ones 2). rewrite Z.land_ones by lia.
  change (2 ^ 2) with 4. change (Z.ones 2) with 3.
  pose proof (Z.mod_pos_bound flags 4 ltac:(lia)). lia.
Qed.

(** X1.  For a connection whose security parameters point to a USM object,
    [validateParametersV3] never panics, and it accepts exactly when the
    security model is USM, the two security-level bits of the flags are
    not "privacy without authentication", the user name is not empty, an
    authentication protocol above NoAuth and a non-empty authentication
    passphrase are there whenever the Auth bit is set, and a privacy
    protocol above NoPriv and a non-empty privacy passphrase whenever the
    level is AuthPriv. *)
Theorem validateParametersV3_accepts σ x l usm :
  Conn.SecurityParameters x = UsmPointer (Some l) →
  σ !! l = Some usm →
  let level := Z.land (Conn.MsgFlags x) AuthPriv in
  is_panic (validateParametersV3 σ x) = false ∧
  (validateParametersV3 σ x = Ok () ↔
     Conn.SecurityModel x = UserSecurityModel
     ∧ level ≠ 2
     ∧ UserName usm ≠ []
     ∧ (level ≠ NoAuthNoPriv →
        NoAuth < AuthenticationProtocol usm ∧ AuthenticationPassphrase usm ≠ [])
     ∧ (level = AuthPriv →
        NoPriv < PrivacyProtocol usm ∧ PrivacyPassphrase usm ≠ [])).
Proof.
  intros Hsp Hl level. unfold validateParametersV3.
  rewrite Hsp. cbn [fst as_usm]. rewrite (load_Some _ _ _ Hl).
  cbn [mbind outcome_bind]. fold level.
  unfold UserSecurityModel, AuthPriv, AuthNoPriv, NoAuthNoPriv, NoAuth, NoPriv in *.
  destruct (land_level (Conn.MsgFlags x)) as [E|[E|[E|E]]];
    unfold AuthPriv in E; fold level in E; rewrite E; cbn [Z.eqb Pos.eqb negb];
    destruct (Z.eqb_spec (Conn.SecurityModel x) 3); cbn [negb is_panic];
    repeat match goal with
           | |- context [decide (?a = ?b)] => destruct (decide (a = b))
           | |- context [?a <=? ?b] => destruct (Z.leb_spec a b)
           end;
    cbn [is_panic];
    (split; [reflexivity|]);
    (split;
     [intros Hok; try discriminate Hok; intuition (try congruence; try lia)
     |intros (Hc1 & Hc2 & Hc3 & Hc4 & Hc5); try reflexivity; exfalso;
      intuition (try congruence; try lia)]).
Qed.

Lemma validateParametersV3_accepts_witness :
  validateParametersV3 store_auth conn_auth = Ok ().
Proof.
  apply (proj2 (validateParametersV3_accepts store_auth conn_auth 1%positive usm_auth
                  eq_refl eq_refl)).
  cbv. repeat split; intros; try discriminate; try reflexivity.
Defined.

(** ** The first salt *)

Lemma word_be_be32 a b c d :
  0 ≤ a < 256 → 0 ≤ b < 256 → 0 ≤ c < 256 → 0 ≤ d < 256 →
  0 ≤ Digest.word_be [a; b; c; d] < 2 ^ 32
  ∧ be32 (Digest.word_be [a; b; c; d]) = [a; b; c; d].
Proof.
  intros Ha Hb Hc Hd. unfold Digest.word_be, Digest.word_le, be32. cbn [rev app].
  rewrite !Z.shiftl_mul_pow2, !Z.shiftr_div_pow2 by lia.
  change (2 ^ 8) with 256. change (2 ^ 16) with 65536. change (2 ^ 24) with 16777216.
  change (2 ^ 32) with 4294967296.
  split; [lia|].
  repeat f_equal; Z.div_mod_to_equations; lia.
Qed.

Lemma bytes4 (s : bytes) : len s = 4 → ∃ a b c d, s = [a; b; c; d].
Proof.
  unfold len. destruct s as [|a [|b [|c [|d [|e s]]]]]; cbn [length]; try lia.
  intros _. eauto.
Qed.

Lemma word_be_bytes (s : bytes) :
  len s = 4 → Forall (λ v, 0 ≤ v < 256) s →
  0 ≤ Digest.word_be s < 2 ^ 32 ∧ be32 (Digest.word_be s) = s.
Proof.
  intros Hlen Hall. destruct (bytes4 s Hlen) as (a & b & c & d & ->).
  apply Forall_cons in Hall as [Ha Hall]. apply Forall_cons in Hall as [Hb Hall].
  apply Forall_cons in Hall as [Hc Hall]. apply Forall_cons in Hall as [Hd _].
  apply word_be_be32; assumption.
Qed.

Lemma be64_halves (s : bytes) :
  len s = 8 → Forall (λ v, 0 ≤ v < 256) s →
  let v := Digest.word_be (take 4 s) * 2 ^ 32 + Digest.word_be (drop 4 s) in
  0 ≤ v < 2 ^ 64 ∧ be64 v = s.
Proof.
  intros Hlen Hall v.
  assert (H1 : len (take 4 s) = 4) by (unfold len in *; rewrite length_take; lia).
  assert (H2 : len (drop 4 s) = 4) by (unfold len in *; rewrite length_drop; lia).
  assert (A1 : Forall (λ v, 0 ≤ v < 256) (take 4 s)) by (apply Forall_take; exact Hall).
  assert (A2 : Forall (λ v, 0 ≤ v < 256) (drop 4 s)) by (apply Forall_drop; exact Hall).
  destruct (word_be_bytes (take 4 s) H1 A1) as [Hr1 He1].
  destruct (word_be_bytes (drop 4 s) H2 A2) as [Hr2 He2].
  change (2 ^ 64) with (2 ^ 32 * 2 ^ 32). split; [subst v; nia|].
  unfold be64. rewrite Z.shiftr_div_pow2 by lia.
  replace (v / 2 ^ 32) with (Digest.word_be (take 4 s)).
  - replace (v mod 2 ^ 32) with (Digest.word_be (drop 4 s)).
    + rewrite (Z.mod_small (Digest.word_be (take 4 s))) by lia.
      rewrite He1, He2. apply take_drop.
    + subst v. rewrite Z.add_comm, Z.mod_add by lia. symmetry. apply Z.mod_small. lia.
  - subst v. rewrite Z.add_comm, Z.div_add by lia.
    rewrite (Z.div_small (Digest.word_be (drop 4 s))) by lia. lia.
Qed.

(** What [crand.Read] gives when it gives something: as many bytes as it
    was asked for. *)
Definition reads_bytes (rand : Z → outcome bytes) : Prop :=
  ∀ n salt, rand n = Ok salt → len salt = n ∧ Forall (λ v, 0 ≤ v < 256) salt.

(** X2.  On a USM connection [setSalt] sets the Reportable flag and
    changes nothing else of the connection.  With AES it reads 8 random
    bytes and with DES 4, and the salt counter of the protocol becomes the
    number whose big-endian bytes they are; the other counter, the other
    fields and the other objects of the store stay as they were.  With any
    other privacy protocol nothing is read and the store is unchanged. *)
Theorem setSalt_seeds_counter rand σ x l secParams σ' x' :
  reads_bytes rand →
  Conn.SecurityModel x = UserSecurityModel →
  Conn.SecurityParameters x = UsmPointer (Some l) →
  σ !! l = Some secParams →
  setSalt rand σ x = Ok (σ', x') →
  x' = Conn.set_MsgFlags (Z.lor (Conn.MsgFlags x) Reportable) x
  ∧ (∀ k, k ≠ l → σ' !! k = σ !! k)
  ∧ (PrivacyProtocol secParams = AES →
     ∃ salt v, rand 8 = Ok salt ∧ 0 ≤ v < 2 ^ 64 ∧ be64 v = salt
               ∧ σ' !! l = Some (set_localAESSalt v secParams))
  ∧ (PrivacyProtocol secParams = DES →
     ∃ salt v, rand 4 = Ok salt ∧ 0 ≤ v < 2 ^ 32 ∧ be32 v = salt
               ∧ σ' !! l = Some (set_localDESSalt v secParams))
  ∧ (PrivacyProtocol secParams ≠ AES → PrivacyProtocol secParams ≠ DES → σ' = σ).
Proof.
  intros Hrand Hm Hsp Hl Hrun. unfold setSalt in Hrun.
  cbn [Conn.SecurityModel Conn.SecurityParameters Conn.set_MsgFlags] in Hrun.
  rewrite Hm, Z.eqb_refl, Hsp in Hrun. cbn [fst as_usm] in Hrun.
  rewrite (load_Some _ _ _ Hl) in Hrun. cbn [mbind outcome_bind] in Hrun.
  destruct (Z.eqb_spec (PrivacyProtocol secParams) AES) as [Ea|Ea].
  - destruct (rand 8) as [salt| |] eqn:Hr; [|discriminate|discriminate].
    apply Ok_inj in Hrun. injection Hrun as <- <-.
    destruct (Hrand _ _ Hr) as [Hlen Hall].
    destruct (be64_halves salt Hlen Hall) as [Hv He].
    split; [reflexivity|].
    split; [intros k Hk; apply lookup_insert_ne; congruence|].
    split; [intros _; eexists salt, _; split; [reflexivity|]; split; [exact Hv|];
            split; [exact He|apply lookup_insert_eq]|].
    split; [intros Ed; unfold AES, DES in *; congruence|contradiction].
  - destruct (Z.eqb_spec (PrivacyProtocol secParams) DES) as [Ed|Ed].
    + destruct (rand 4) as [salt| |] eqn:Hr; [|discriminate|discriminate].
      apply Ok_inj in Hrun. injection Hrun as <- <-.
      destruct (Hrand _ _ Hr) as [Hlen Hall].
      destruct (word_be_bytes salt Hlen Hall) as [Hv He].
      split; [reflexivity|].
      split; [intros k Hk; apply lookup_insert_ne; congruence|].
      split; [contradiction|].
      split; [intros _; eexists salt, _; split; [reflexivity|]; split; [exact Hv|];
              split; [exact He|apply lookup_insert_eq]|contradiction].
    + apply Ok_inj in Hrun. injection Hrun as <- <-.
      split; [reflexivity|]. split; [reflexivity|].
      split; [contradiction|]. split; [contradiction|reflexivity].
Qed.

(** A source of bytes that counts up from 1. *)
Definition rand_seq (n : Z) : outcome bytes := Ok (Z.of_nat <$> seq 1 (Z.to_nat n)).

Lemma rand_seq_reads : reads_bytes (λ n, if (0 <=? n) && (n <=? 8) then rand_seq n else Err "EOF").
Proof.
  intros n salt H.
  destruct (Z.leb_spec 0 n); [|discriminate].
  destruct (Z.leb_spec n 8); [|discriminate].
  cbn [andb] in H. apply Ok_inj in H. subst salt. split.
  - unfold len. rewrite length_fmap, length_seq. lia.
  - apply Forall_fmap, Forall_forall. intros k Hk. apply elem_of_seq in Hk. cbn. lia.
Qed.

Lemma setSalt_seeds_counter_witness :
  ∃ σ' x' v,
    setSalt (λ n, if (0 <=? n) && (n <=? 8) then rand_seq n else Err "EOF")
            (store_priv 0) conn_priv = Ok (σ', x')
    ∧ Conn.MsgFlags x' = 7
    ∧ be32 v = [1; 2; 3; 4]
    ∧ σ' !! 1%positive = Some (set_localDESSalt v (usm_des 0)).
Proof.
  destruct (setSalt (λ n, if (0 <=? n) && (n <=? 8) then rand_seq n else Err "EOF")
                    (store_priv 0) conn_priv) as [[σ' x']| |] eqn:Hrun;
    [|vm_compute in Hrun; discriminate|vm_compute in Hrun; discriminate].
  destruct (setSalt_seeds_counter _ (store_priv 0) conn_priv 1%positive (usm_des 0) σ' x'
              rand_seq_reads eq_refl eq_refl eq_refl Hrun)
    as (Hx & _ & _ & Hdes & _).
  destruct (Hdes eq_refl) as (salt & v & Hr & _ & He & Hs).
  exists σ', x', v. split; [reflexivity|].
  split; [rewrite Hx; reflexivity|].
  split; [|exact Hs].
  rewrite He. vm_compute in Hr. apply Ok_inj in Hr. symmetry. exact Hr.
Defined.

(** ** Builds whose packet does not fit the connection *)

(** X3.  On a USM connection with privacy enabled, [buildPacket3] returns
    an error when the connection's security parameters are not a pointer
    to a USM object.  For a version-3 USM packet with privacy it returns
    an error when the packet's parameters are of another type, but a nil
    USM pointer in the packet is not caught by the check of line 329: the
    call panics on the nil dereference.  For a packet that is not
    version 3, not USM or without privacy the counter of the connection is
    advanced all the same and the packet's object is not written. *)
Theorem buildPacket3_packet_parameters σ x msgID ids packetOut :
  Z.land (Conn.MsgFlags x) AuthPriv > AuthNoPriv →
  Conn.SecurityModel x = UserSecurityModel →
  (fst (as_usm (Conn.SecurityParameters x)) = None →
   is_err (buildPacket3 σ x msgID ids packetOut) = true) ∧
  (∀ bl base,
     Conn.SecurityParameters x = UsmPointer (Some bl) → σ !! bl = Some base →
     (Version packetOut = Version3 ∧ SecurityModel packetOut = UserSecurityModel
      ∧ Z.land (MsgFlags packetOut) AuthPriv > AuthNoPriv →
      (snd (as_usm (SecurityParameters packetOut)) = false →
       buildPacket3 σ x msgID ids packetOut
       = Err "packetOut.SecurityModel indicates the User Security Model, but packetOut.SecurityParameters is not of type &UsmSecurityParameters")
      ∧ (SecurityParameters packetOut = UsmPointer None →
         buildPacket3 σ x msgID ids packetOut = Panic NilDereference))
     ∧ (Version packetOut ≠ Version3 ∨ SecurityModel packetOut ≠ UserSecurityModel
        ∨ Z.land (MsgFlags packetOut) AuthPriv ≤ AuthNoPriv →
        buildPacket3 σ x msgID ids packetOut
        = Ok (advance_salt σ bl base,
              Conn.set_msgID (uint32 (Conn.msgID x + 1)) x, packetOut))).
Proof.
  intros Hf Hm. split.
  - intros Hnone. unfold buildPacket3.
    cbn [Conn.MsgFlags Conn.SecurityModel Conn.SecurityParameters Conn.set_msgID].
    rewrite (gt_gtb _ _ Hf), Hm, Z.eqb_refl, Hnone. reflexivity.
  - intros bl base Hsp Hl.
    assert (Hbody : buildPacket3 σ x msgID ids packetOut
              = (if (Version packetOut =? Version3)
                    && (SecurityModel packetOut =? UserSecurityModel)
                    && (Z.land (MsgFlags packetOut) AuthPriv >? AuthNoPriv)
                 then match as_usm (SecurityParameters packetOut) with
                      | (_, false) =>
                          Err "packetOut.SecurityModel indicates the User Security Model, but packetOut.SecurityParameters is not of type &UsmSecurityParameters"
                      | (None, true) => Panic NilDereference
                      | (Some pl, true) =>
                          pktSecParams ← load (advance_salt σ bl base) pl;
                          Ok (<[pl := set_PrivacyParameters (packet_salt base pktSecParams)
                                        pktSecParams]> (advance_salt σ bl base),
                              Conn.set_msgID (uint32 (Conn.msgID x + 1)) x, packetOut)
                      end
                 else Ok (advance_salt σ bl base,
                          Conn.set_msgID (uint32 (Conn.msgID x + 1)) x, packetOut))).
    { unfold buildPacket3.
      cbn [Conn.MsgFlags Conn.SecurityModel Conn.SecurityParameters Conn.set_msgID].
      rewrite (gt_gtb _ _ Hf), Hm, Z.eqb_refl, Hsp. cbn [andb fst as_usm].
      rewrite (load_Some _ _ _ Hl). cbn [mbind outcome_bind].
      unfold advance_salt, packet_salt.
      destruct (PrivacyProtocol base =? AES); [reflexivity|].
      destruct (PrivacyProtocol base =? DES); reflexivity. }
    rewrite Hbody. split.
    + intros (Hv & Hpm & Hpf).
      rewrite Hv, Hpm, (gt_gtb _ _ Hpf), !Z.eqb_refl. cbn [andb]. split.
      * intros Hno. destruct (SecurityParameters packetOut); cbn in Hno |- *;
          [reflexivity|discriminate|reflexivity].
      * intros ->. reflexivity.
    + intros Hnot.
      destruct (Z.eqb_spec (Version packetOut) Version3) as [Ev|Ev]; [|reflexivity].
      destruct (Z.eqb_spec (SecurityModel packetOut) UserSecurityModel) as [Em|Em];
        [|reflexivity].
      destruct (Z.gtb_spec (Z.land (MsgFlags packetOut) AuthPriv) AuthNoPriv) as [Ef|Ef];
        [|reflexivity].
      exfalso. destruct Hnot as [?|[?|?]]; [contradiction|contradiction|lia].
Qed.

(** A packet of version 3 with privacy whose parameters are a nil pointer. *)
Definition packet_nil : SnmpPacket :=
  mkPacket Version3 AuthPriv UserSecurityModel (UsmPointer None) engine_a3 [] 0xa0 0 0.

Lemma buildPacket3_packet_parameters_witness :
  buildPacket3 (store_priv 0) conn_priv 0 [] packet_nil = Panic NilDereference
  ∧ buildPacket3 (store_priv 0) conn_priv 0 [] packet_auth
    = Ok (advance_salt (store_priv 0) 1%positive (usm_des 0),
          Conn.set_msgID (uint32 (Conn.msgID conn_priv + 1)) conn_priv, packet_auth).
Proof.
  assert (Hf : Z.land (Conn.MsgFlags conn_priv) AuthPriv > AuthNoPriv) by reflexivity.
  destruct (buildPacket3_packet_parameters (store_priv 0) conn_priv 0 [] packet_nil
              Hf eq_refl) as [_ Hnil].
  destruct (buildPacket3_packet_parameters (store_priv 0) conn_priv 0 [] packet_auth
              Hf eq_refl) as [_ Hauth].
  split.
  - apply (Hnil 1%positive (usm_des 0) eq_refl eq_refl).
    + repeat split.
    + reflexivity.
  - apply (Hauth 1%positive (usm_des 0) eq_refl eq_refl).
    right. right. cbv. discriminate.
Defined.

(** X4.  The salt handed to the packet comes from the counter of the
    connection's protocol, chosen by the packet's protocol: when the
    packet's privacy protocol is AES and the connection's is not, every
    build gives the packet the salt of eight zero bytes, and when the
    packet's is not AES and the connection's is not DES, the engine boots
    followed by four zero bytes, whatever the counters hold. *)
Theorem buildPacket3_mismatched_protocols σ x msgID ids packetOut bl base pl pkt0 :
  Z.land (Conn.MsgFlags x) AuthPriv > AuthNoPriv →
  Conn.SecurityModel x = UserSecurityModel →
  Conn.SecurityParameters x = UsmPointer (Some bl) →
  σ !! bl = Some base →
  Version packetOut = Version3 →
  SecurityModel packetOut = UserSecurityModel →
  Z.land (MsgFlags packetOut) AuthPriv > AuthNoPriv →
  SecurityParameters packetOut = UsmPointer (Some pl) →
  σ !! pl = Some pkt0 →
  ∃ σ' x' pkt',
    buildPacket3 σ x msgID ids packetOut = Ok (σ', x', packetOut)
    ∧ σ' !! pl = Some pkt'
    ∧ (PrivacyProtocol pkt0 = AES → PrivacyProtocol base ≠ AES →
       PrivacyParameters pkt' = zeros 8)
    ∧ (PrivacyProtocol pkt0 ≠ AES → PrivacyProtocol base ≠ DES →
       PrivacyParameters pkt' = be32 (AuthoritativeEngineBoots pkt0) ++ zeros 4).
Proof.
  intros Hf Hm Hsp Hl Hv Hpm Hpf Hpsp Hpl.
  destruct (buildPacket3_step σ x msgID ids packetOut bl base pl pkt0
              Hf Hm Hsp Hl Hv Hpm Hpf Hpsp Hpl)
    as (σ1 & base1 & pkt1 & Hrun & _ & Hp1 & _ & _ & _ & _ & Hpp).
  exists σ1, (Conn.set_msgID (uint32 (Conn.msgID x + 1)) x), pkt1.
  split; [exact Hrun|]. split; [exact Hp1|]. split.
  - intros Ea Hb. rewrite Hpp, Ea. cbn [Z.eqb AES Pos.eqb].
    destruct (Z.eqb_spec (PrivacyProtocol base) AES); [contradiction|]. reflexivity.
  - intros Ea Hb. rewrite Hpp.
    destruct (Z.eqb_spec (PrivacyProtocol pkt0) AES); [contradiction|].
    destruct (Z.eqb_spec (PrivacyProtocol base) DES); [contradiction|]. reflexivity.
Qed.

(** A packet whose user has AES for privacy, on the DES connection. *)
Definition store_mixed (c : Z) : store :=
  {[ 1%positive := usm_des c; 2%positive := usm_aes 0 ]}.

Lemma buildPacket3_mismatched_protocols_witness :
  ∃ σ' x' pkt',
    buildPacket3 (store_mixed 41) conn_priv 0 [] packet_priv = Ok (σ', x', packet_priv)
    ∧ σ' !! 2%positive = Some pkt'
    ∧ PrivacyParameters pkt' = zeros 8.
Proof.
  assert (Hf : Z.land (Conn.MsgFlags conn_priv) AuthPriv > AuthNoPriv) by reflexivity.
  assert (Hpf : Z.land (MsgFlags packet_priv) AuthPriv > AuthNoPriv) by reflexivity.
  destruct (buildPacket3_mismatched_protocols (store_mixed 41) conn_priv 0 [] packet_priv
              1%positive (usm_des 41) 2%positive (usm_aes 0)
              Hf eq_refl eq_refl eq_refl eq_refl eq_refl Hpf eq_refl eq_refl)
    as (σ' & x' & pkt' & Hrun & Hl & Haes & _).
  exists σ', x', pkt'. split; [exact Hrun|]. split; [exact Hl|].
  apply Haes; [reflexivity|cbv; discriminate].
Defined.

(** ** The offset handed to [authenticate] *)

(** X5.  For a version-3 USM packet with the Auth flag and a non-empty
    passphrase, [authenticate] returns a message exactly when the twelve
    bytes from the offset on lie within the capacity of the message, the
    sum taken in 32 bits; otherwise the slice expression panics, the panic
    is recovered, and the call returns neither a message nor an error.
    The bound is the capacity, not the length: a tag may be written behind
    the end of the message. *)
Theorem authenticate_offset σ packet msg start l secParams :
  Version packet = Version3 →
  Z.land (MsgFlags packet) AuthNoPriv ≠ 0 →
  SecurityModel packet = UserSecurityModel →
  SecurityParameters packet = UsmPointer (Some l) →
  σ !! l = Some secParams →
  AuthenticationPassphrase secParams ≠ [] →
  0 ≤ start < 2 ^ 32 →
  (start + 12 < 2 ^ 32 ∧ start + 12 ≤ s_cap msg →
   ∃ out, authenticate σ packet msg start = (Some out, None)
          ∧ s_len out = s_len msg
          ∧ take 12 (drop (Z.to_nat start) (s_arr out))
            = take 12 (keyed_digest (AuthenticationProtocol secParams)
                         (localized_key (alg_of (AuthenticationProtocol secParams))
                            (AuthenticationPassphrase secParams)
                            (AuthoritativeEngineID secParams))
                         (s_bytes msg))) ∧
  (2 ^ 32 ≤ start + 12 ∨ s_cap msg < start + 12 →
   authenticate σ packet msg start = (None, None)).
Proof.
  intros Hv Hf Hm Hsp Hl Hp Hs. unfold authenticate.
  rewrite (authenticate_body_usm σ packet msg start l secParams Hv Hf Hm Hsp Hl Hp).
  set (tag := take 12 (keyed_digest _ _ _)).
  assert (Htag : length tag = 12%nat) by apply tag_length.
  unfold slice_copy, s_cap, len. split.
  - intros [Hw Hc]. rewrite uint32_small by lia.
    destruct (Z.leb_spec 0 start); [|lia].
    destruct (Z.leb_spec start (start + 12)); [|lia].
    destruct (Z.leb_spec (start + 12) (Z.of_nat (length (s_arr msg))));
      [|unfold s_cap, len in Hc; lia].
    cbn [andb]. eexists. split; [reflexivity|]. split; [reflexivity|].
    cbn [s_arr]. unfold s_cap, len in Hc.
    replace (Z.to_nat (start + 12 - start)) with 12%nat by lia.
    rewrite (take_ge tag) by lia.
    rewrite copy_into_fits by lia.
    rewrite drop_app_length' by (rewrite length_take; lia).
    apply take_app_length'. symmetry. exact Htag.
  - intros Hout.
    assert (Hb : (0 <=? start) && (start <=? uint32 (start + 12))
                 && (uint32 (start + 12) <=? Z.of_nat (length (s_arr msg))) = false).
    { destruct Hout as [Hw|Hc].
      - assert (E : uint32 (start + 12) = start + 12 - 2 ^ 32).
        { unfold uint32. symmetry. apply Z.mod_unique_pos with (q := 1); lia. }
        rewrite E. destruct (Z.leb_spec start (start + 12 - 2 ^ 32)); [lia|].
        rewrite andb_false_r. reflexivity.
      - destruct (Z.lt_ge_cases (start + 12) (2 ^ 32)) as [Hw|Hw].
        + rewrite uint32_small by lia.
          destruct (Z.leb_spec (start + 12) (Z.of_nat (length (s_arr msg))));
            [unfold s_cap, len in Hc; lia|].
          apply andb_false_r.
        + assert (E : uint32 (start + 12) = start + 12 - 2 ^ 32).
          { unfold uint32. symmetry. apply Z.mod_unique_pos with (q := 1); lia. }
          rewrite E. destruct (Z.leb_spec start (start + 12 - 2 ^ 32)); [lia|].
          rewrite andb_false_r. reflexivity. }
    rewrite Hb. reflexivity.
Qed.

Lemma authenticate_offset_witness :
  authenticate store_auth packet_auth (slice_of [48; 0]) 0 = (None, None).
Proof.
  assert (Hf : Z.land (MsgFlags packet_auth) AuthNoPriv ≠ 0) by (cbv; discriminate).
  assert (Hp : AuthenticationPassphrase usm_auth ≠ []) by (cbv; discriminate).
  assert (Hs : 0 ≤ 0 < 2 ^ 32) by lia.
  apply (proj2 (authenticate_offset store_auth packet_auth (slice_of [48; 0]) 0
                  1%positive usm_auth eq_refl Hf eq_refl eq_refl eq_refl Hp Hs)).
  right. cbv. reflexivity.
Defined.

(** ** Copies of security parameters *)

(** X6.  [Copy] on a nil pointer panics.  On a USM object it returns a
    pointer to a new object that holds the same twelve fields, the salt
    counters and the authentication parameters included; the objects that
    were there are unchanged, and a later write through either pointer
    does not reach the other object. *)
Theorem Copy_independent σ l u :
  σ !! l = Some u →
  Copy σ None = Panic NilDereference ∧
  ∃ σ' l',
    Copy σ (Some l) = Ok (σ', UsmPointer (Some l'))
    ∧ l' ≠ l
    ∧ σ !! l' = None
    ∧ σ' !! l' = Some u
    ∧ (∀ k, k ≠ l' → σ' !! k = σ !! k)
    ∧ (∀ v, <[l' := v]> σ' !! l = Some u)
    ∧ (∀ v, <[l := v]> σ' !! l' = Some u).
Proof.
  intros Hl. split; [reflexivity|].
  unfold Copy. rewrite (load_Some _ _ _ Hl). cbn [mbind outcome_bind].
  set (l' := fresh (dom σ)).
  assert (Hfresh : σ !! l' = None) by (apply not_elem_of_dom, is_fresh).
  assert (Hne : l' ≠ l) by congruence.
  eexists _, l'. split; [reflexivity|].
  split; [exact Hne|]. split; [exact Hfresh|].
  split; [rewrite lookup_insert_eq; destruct u; reflexivity|].
  split; [intros k Hk; apply lookup_insert_ne; congruence|].
  split.
  - intros v. rewrite !lookup_insert_ne by congruence. exact Hl.
  - intros v. rewrite lookup_insert_ne by congruence.
    rewrite lookup_insert_eq. destruct u. reflexivity.
Qed.

Lemma Copy_independent_witness :
  ∃ σ' l',
    Copy store_auth (Some 1%positive) = Ok (σ', UsmPointer (Some l'))
    ∧ l' ≠ 1%positive
    ∧ σ' !! l' = Some usm_auth.
Proof.
  destruct (Copy_independent store_auth 1%positive usm_auth eq_refl)
    as (_ & σ' & l' & Hrun & Hne & _ & Hcopy & _).
  exists σ', l'. split; [exact Hrun|]. split; [exact Hne|exact Hcopy].
Defined.

(** ** From the response to the next packet *)

(** The nine fields of a user that are not the engine's. *)
Definition usm_user (u : UsmSecurityParameters) :=
  (UserName u, AuthenticationParameters u, PrivacyParameters u,
   AuthenticationProtocol u, PrivacyProtocol u,
   AuthenticationPassphrase u, PrivacyPassphrase u, localDESSalt u, localAESSalt u).

Lemma usm_user_with_engine src dst : usm_user (with_engine src dst) = usm_user dst.
Proof. reflexivity. Qed.

Lemma as_usm_Some sp l : fst (as_usm sp) = Some l → sp = UsmPointer (Some l).
Proof. destruct sp as [|[k|]|]; cbn; congruence. Qed.

(** X7.  [storeSecurityParameters] on a USM response followed by
    [updatePktSecurityParameters] on the next packet: when both succeed,
    the packet's security parameters hold the engine id, boots and time of
    the response, whether or not the packet, the connection and the
    response share their objects; the user name, the protocols, the
    passphrases, the salt counters and the authentication and privacy
    parameters of the packet's object are as before.  The packet keeps its
    context engine id unless it is empty, in which case it gets the
    connection's, which is the engine id of the response if the connection
    had none. *)
Theorem engine_sync σ x result packetOut σ1 x1 σ2 packet2 pl pkt0 :
  storeSecurityParameters σ x result = Ok (σ1, x1) →
  updatePktSecurityParameters σ1 x1 packetOut = Ok (σ2, packet2) →
  SecurityModel result = UserSecurityModel →
  SecurityParameters packetOut = UsmPointer (Some pl) →
  σ !! pl = Some pkt0 →
  ∃ nl new pkt',
    SecurityParameters result = UsmPointer (Some nl)
    ∧ σ !! nl = Some new
    ∧ σ2 !! pl = Some pkt'
    ∧ engine_of pkt' = engine_of new
    ∧ usm_user pkt' = usm_user pkt0
    ∧ SecurityParameters packet2 = UsmPointer (Some pl)
    ∧ ContextEngineID packet2
      = (if decide (ContextEngineID packetOut = [])
         then (if decide (Conn.ContextEngineID x = []) then AuthoritativeEngineID new
               else Conn.ContextEngineID x)
         else ContextEngineID packetOut).
Proof.
  intros Hstore Hupd Hres Hpsp Hpl.
  destruct (storeSecurityParameters_usm _ _ _ _ _ Hstore Hres)
    as (Hxm & Hxsp & Hxm1 & _ & nl & new & Hnl & Hnew & Hctx & Hconn).
  apply as_usm_Some in Hnl.
  unfold updatePktSecurityParameters in Hupd.
  destruct (negb (Conn.Version x1 =? Version3) || negb (Version packetOut =? Version3));
    [discriminate|].
  destruct (Z.eqb_spec (Conn.SecurityModel x1) (SecurityModel packetOut)) as [_|];
    [|discriminate].
  cbn [negb] in Hupd. rewrite Hxm1, Hxm, Z.eqb_refl, Hxsp, Hpsp in Hupd.
  cbn [fst as_usm] in Hupd.
  destruct (fst (as_usm (Conn.SecurityParameters x))) as [cl|] eqn:Hcl;
    [|discriminate].
  destruct Hconn as (conn & Hc & Hσ1).
  inv_bind Hupd. inv_bind Hstep. apply load_Ok in Hstep0.
  inv_bind Hstep. apply load_Ok in Hstep1. apply Ok_inj in Hstep.
  apply Ok_inj in Hupd. injection Hupd as Hσ2 Hp2.
  assert (Ha0 : a0 = with_engine new conn).
  { rewrite Hσ1, lookup_insert_eq in Hstep0. congruence. }
  assert (Ha1 : usm_user a1 = usm_user pkt0).
  { rewrite Hσ1 in Hstep1. destruct (decide (pl = cl)) as [->|Hne].
    - rewrite lookup_insert_eq in Hstep1. injection Hstep1 as <-.
      rewrite usm_user_with_engine. congruence.
    - rewrite lookup_insert_ne in Hstep1 by congruence. congruence. }
  exists nl, new, (with_engine a0 a1).
  split; [exact Hnl|]. split; [exact Hnew|].
  split; [rewrite <- Hσ2, <- Hstep; apply lookup_insert_eq|].
  split; [rewrite engine_of_with_engine, Ha0; apply engine_of_with_engine|].
  split; [rewrite usm_user_with_engine; exact Ha1|].
  rewrite <- Hp2.
  destruct (decide (ContextEngineID packetOut = [])) as [E|E].
  - cbn [SecurityParameters ContextEngineID set_ContextEngineID].
    split; [exact Hpsp|exact Hctx].
  - split; [exact Hpsp|reflexivity].
Qed.

(** The response of an agent, the connection's user and the next packet's
    user as three objects. *)
Definition store_sync : store :=
  {[ 1%positive := usm_new; 2%positive := usm_new; 3%positive := usm_report ]}.
Definition packet_report : SnmpPacket :=
  mkPacket Version3 NoAuthNoPriv UserSecurityModel (UsmPointer (Some 3%positive))
           [] [] 0xa8 0 0.

Lemma engine_sync_witness :
  ∃ σ1 x1 σ2 packet2 pkt',
    storeSecurityParameters store_sync conn_auth packet_report = Ok (σ1, x1)
    ∧ updatePktSecurityParameters σ1 x1 packet_new = Ok (σ2, packet2)
    ∧ σ2 !! 2%positive = Some pkt'
    ∧ engine_of pkt' = engine_of usm_report
    ∧ ContextEngineID packet2 = engine_a3.
Proof.
  destruct (storeSecurityParameters store_sync conn_auth packet_report)
    as [[σ1 x1]| |] eqn:Hstore;
    [|vm_compute in Hstore; discriminate|vm_compute in Hstore; discriminate].
  destruct (updatePktSecurityParameters σ1 x1 packet_new) as [[σ2 packet2]| |] eqn:Hupd;
    [|vm_compute in Hstore; injection Hstore as <- <-; vm_compute in Hupd; discriminate
     |vm_compute in Hstore; injection Hstore as <- <-; vm_compute in Hupd; discriminate].
  destruct (engine_sync store_sync conn_auth packet_report packet_new σ1 x1 σ2 packet2
              2%positive usm_new Hstore Hupd eq_refl eq_refl eq_refl)
    as (nl & new & pkt' & Hnl & Hnew & Hp & He & _ & _ & Hctx).
  injection Hnl as <-. vm_compute in Hnew. injection Hnew as <-.
  exists σ1, x1, σ2, packet2, pkt'.
  split; [reflexivity|]. split; [exact Hupd|]. split; [exact Hp|].
  split; [exact He|]. rewrite Hctx. reflexivity.
Defined.

(** ** AES privacy, there and back *)

Lemma xor_bytes_cancel_le a b :
  (length a ≤ length b)%nat → xor_bytes (xor_bytes a b) b = a.
Proof.
  revert b. induction a as [|x a IH]; intros [|y b] H; [reflexivity..| |].
  - cbn in H. lia.
  - cbn in *. f_equal.
    + rewrite Z.lxor_assoc, Z.lxor_nilpotent, Z.lxor_0_r. reflexivity.
    + apply IH. lia.
Qed.

Lemma cfb_decrypt_nil enc n iv : cfb_decrypt enc n iv [] = [].
Proof. revert iv. induction n as [|n IH]; intros iv; [reflexivity|]. cbn. apply IH. Qed.

Lemma cfb_roundtrip enc :
  (∀ b, length b = 16%nat → length (enc b) = 16%nat) →
  ∀ n iv src, length iv = 16%nat → (length src ≤ 16 * n)%nat →
              cfb_decrypt enc n iv (cfb_encrypt enc n iv src) = src.
Proof.
  intros Henc. induction n as [|n IH]; intros iv src Hiv Hn.
  - destruct src; [reflexivity | cbn in Hn; lia].
  - cbn [cfb_encrypt cfb_decrypt].
    pose proof (Henc iv Hiv) as He.
    destruct (decide (16 ≤ length src)%nat) as [Hge|Hlt].
    + assert (Hc : length (xor_bytes (take 16 src) (enc iv)) = 16%nat).
      { rewrite xor_bytes_length, length_take. lia. }
      rewrite take_app_length' by (symmetry; exact Hc).
      rewrite drop_app_length' by (symmetry; exact Hc).
      rewrite xor_bytes_cancel_le by (rewrite length_take; lia).
      rewrite IH; [apply take_drop | exact Hc | rewrite length_drop; lia].
    + rewrite (drop_ge src) by lia. rewrite cfb_encrypt_nil, app_nil_r.
      rewrite (take_ge src) by lia.
      assert (Hc : (length (xor_bytes src (enc iv)) ≤ 16)%nat).
      { rewrite xor_bytes_length. lia. }
      rewrite (take_ge (xor_bytes src (enc iv))) by exact Hc.
      rewrite (drop_ge (xor_bytes src (enc iv))) by exact Hc.
      rewrite cfb_decrypt_nil, app_nil_r.
      apply xor_bytes_cancel_le. lia.
Qed.

Lemma aes_NewCipher_key alg p e :
  aes_NewCipher (take (Z.to_nat 16) (localized_key alg p e))
  = Ok (take (Z.to_nat 16) (localized_key alg p e)).
Proof.
  unfold aes_NewCipher, len. rewrite length_take, localized_key_length.
  pose proof (digest_size_ge alg).
  replace (Z.of_nat (Z.to_nat 16 `min` digest_size alg)) with 16 by lia.
  reflexivity.
Qed.

Section ScopedFacts.
Context `{BC : BerCodec} `{PC : PduCodec} `{CI : BlockCiphers}.

(** Lines 873-899 on the octet string the builder made of an AES
    ciphertext: the plaintext takes the place of the octet string and the
    packet is cut after it. *)
Lemma extractV3Packet_decrypt_aes `{!BerCodecLaws} `{!BlockCipherLaws}
    σ (pre plen spare : bytes) response l secParams plain :
  SecurityModel response = UserSecurityModel →
  SecurityParameters response = UsmPointer (Some l) →
  σ !! l = Some secParams →
  PrivacyProtocol secParams = AES →
  PrivacyPassphrase secParams ≠ [] →
  length (PrivacyParameters secParams) = 8%nat →
  marshalLength (len (aes_ciphertext secParams plain)) = Ok plen →
  extractV3Packet_decrypt σ
    (over (pre ++ OctetString :: plen ++ aes_ciphertext secParams plain) spare)
    (len pre) response
  = Ok (over (pre ++ plain)
             (drop (length plain)
                   (OctetString :: plen ++ aes_ciphertext secParams plain) ++ spare)).
Proof.
  intros Hm Hsp Hl Hproto Hp Hpp Hplen.
  set (ct := aes_ciphertext secParams plain) in *.
  pose proof (aes_ciphertext_length secParams plain Hpp) as Hctlen. fold ct in Hctlen.
  unfold extractV3Packet_decrypt.
  rewrite (slice_from_over _ spare pre (OctetString :: plen ++ ct) _ eq_refl eq_refl).
  cbn [mbind outcome_bind].
  rewrite (parseLength_field _ OctetString plen ct [] Hplen).
  2:{ rewrite s_bytes_over, app_nil_r. reflexivity. }
  cbn [mbind outcome_bind].
  rewrite Hm, Z.eqb_refl, Hsp. cbn [fst as_usm].
  rewrite (load_Some _ _ _ Hl). cbn [mbind outcome_bind].
  rewrite (genlocalkey_spec _ Hp). cbn [mbind outcome_bind].
  rewrite Hproto, Z.eqb_refl.
  rewrite bytes_upto_key by lia. cbn [mbind outcome_bind].
  rewrite aes_NewCipher_key. cbn [mbind outcome_bind].
  rewrite (slice_from_over _ spare (pre ++ OctetString :: plen) ct).
  2:{ list_eq. }
  2:{ len_eq. }
  cbn [mbind outcome_bind]. rewrite s_bytes_over.
  assert (Hdec : XORKeyStream (aes_encrypt_block (take (Z.to_nat 16)
                    (localized_key (alg_of (AuthenticationProtocol secParams))
                       (PrivacyPassphrase secParams) (AuthoritativeEngineID secParams))))
                   true (aes_iv secParams) ct = plain).
  { unfold XORKeyStream, len. rewrite Hctlen. unfold ct, aes_ciphertext, privacy_key, len.
    apply cfb_roundtrip.
    - apply aes_block_length.
    - rewrite aes_iv_salt by assumption. rewrite !length_app, Hpp. reflexivity.
    - pose proof (Z.div_mod (Z.of_nat (length plain) + 15) 16 ltac:(lia)).
      pose proof (Z.mod_pos_bound (Z.of_nat (length plain) + 15) 16 ltac:(lia)).
      pose proof (Z.div_pos (Z.of_nat (length plain) + 15) 16 ltac:(lia) ltac:(lia)).
      lia. }
  rewrite Hdec.
  rewrite (slice_copy_from_over _ spare pre (OctetString :: plen ++ ct) plain
             _ eq_refl eq_refl).
  2:{ cbn [length]. rewrite length_app. lia. }
  cbn [mbind outcome_bind].
  rewrite (slice_upto_over _ spare (pre ++ plain)
             (drop (length plain) (OctetString :: plen ++ ct))).
  2:{ list_eq. }
  2:{ len_eq. }
  reflexivity.
Qed.

(** X8.  With AES privacy the octet string the builder writes holds a
    ciphertext as long as the scoped PDU.  On a receiver whose user has
    the same privacy key, engine boots, engine time and salt, the parser
    decrypts it in place, cuts the packet after the plaintext and is left
    with the original scoped PDU; the context engine id and name it reads
    are those of the sender. *)
Theorem aes_privacy_roundtrip `{!BerCodecLaws} `{!BlockCipherLaws}
    σ packet pdus requestid l secParams plain plen (pre spare : bytes) response :
  Z.land (MsgFlags packet) AuthPriv > AuthNoPriv →
  SecurityModel packet = UserSecurityModel →
  SecurityParameters packet = UsmPointer (Some l) →
  σ !! l = Some secParams →
  PrivacyProtocol secParams = AES →
  PrivacyPassphrase secParams ≠ [] →
  length (PrivacyParameters secParams) = 8%nat →
  plainScopedPDU packet pdus requestid = Ok plain →
  marshalLength (len plain) = Ok plen →
  SecurityModel response = UserSecurityModel →
  SecurityParameters response = UsmPointer (Some l) →
  ∃ ciphertext packet' cursor',
    marshalSnmpV3ScopedPDU σ packet pdus requestid = Ok (OctetString :: plen ++ ciphertext)
    ∧ len ciphertext = len plain
    ∧ extractV3Packet_scoped σ (over (pre ++ OctetString :: plen ++ ciphertext) spare)
                             (len pre) response
      = Ok (set_ContextName (ContextName packet)
              (set_ContextEngineID (ContextEngineID packet) response),
            packet', cursor')
    ∧ s_bytes packet' = pre ++ plain.
Proof.
  intros Hf Hm Hsp Hl Hproto Hp Hpp Hplain Hplen Hrm Hrsp.
  pose proof (aes_ciphertext_length secParams plain Hpp) as Hctlen.
  assert (Hlen : len (aes_ciphertext secParams plain) = len plain)
    by (unfold len; rewrite Hctlen; reflexivity).
  assert (Hplen' : marshalLength (len (aes_ciphertext secParams plain)) = Ok plen)
    by (rewrite Hlen; exact Hplen).
  destruct (plainScopedPDU_layout _ _ _ _ Hplain)
    as (idlen & namelen & data & pduLen & Hid & Hname & _ & Hpdu & Hlayout).
  pose proof (extractV3Packet_plain_run pre []
                (drop (length plain)
                      (OctetString :: plen ++ aes_ciphertext secParams plain) ++ spare)
                pduLen idlen (ContextEngineID packet) namelen (ContextName packet) data
                response Hid Hname Hpdu) as Hrun.
  cbv zeta in Hrun. rewrite <- Hlayout in Hrun. rewrite app_nil_r in Hrun.
  eexists (aes_ciphertext secParams plain), _, _.
  split; [|split; [exact Hlen|split]].
  - rewrite (marshalSnmpV3ScopedPDU_aes σ packet pdus requestid l secParams plain)
      by assumption.
    rewrite Hplen'. reflexivity.
  - unfold extractV3Packet_scoped.
    rewrite (slice_index_over _ spare pre OctetString
               (plen ++ aes_ciphertext secParams plain) _ eq_refl eq_refl).
    cbn [mbind outcome_bind]. rewrite Z.eqb_refl.
    rewrite (extractV3Packet_decrypt_aes σ pre plen spare response l secParams plain)
      by assumption.
    cbn [mbind outcome_bind]. exact Hrun.
  - apply s_bytes_over.
Qed.
End ScopedFacts.

(** An AES user whose salt has been set. *)
Definition usm_aes_salted : UsmSecurityParameters :=
  mkUsm engine_a3 1 2 user_name [] [0; 0; 0; 0; 0; 0; 0; 42] SHA AES maplesyrup maplesyrup 0 42.
Definition store_aes_salted : store := {[ 2%positive := usm_aes_salted ]}.

Lemma aes_privacy_roundtrip_witness :
  ∃ ciphertext packet' cursor',
    @marshalSnmpV3ScopedPDU Std.codec Std.pdus Std.ciphers store_aes_salted packet_priv [] 1
    = Ok (OctetString :: [31] ++ ciphertext)
    ∧ len ciphertext = len plain_example
    ∧ @extractV3Packet_scoped Std.codec Std.ciphers store_aes_salted
        (over ([48; 2] ++ OctetString :: [31] ++ ciphertext) []) (len [48; 2]) packet_priv
      = Ok (set_ContextName (ContextName packet_priv)
              (set_ContextEngineID (ContextEngineID packet_priv) packet_priv),
            packet', cursor')
    ∧ s_bytes packet' = [48; 2] ++ plain_example.
Proof.
  assert (Hf : Z.land (MsgFlags packet_priv) AuthPriv > AuthNoPriv) by reflexivity.
  assert (Hp : PrivacyPassphrase usm_aes_salted ≠ []) by (cbv; discriminate).
  assert (Hplen : @marshalLength Std.codec (len plain_example) = Ok [31]) by reflexivity.
  exact (@aes_privacy_roundtrip Std.codec Std.pdus Std.ciphers
           std_codec_laws std_cipher_laws
           store_aes_salted packet_priv [] 1 2%positive usm_aes_salted plain_example [31]
           [48; 2] [] packet_priv
           Hf eq_refl eq_refl eq_refl eq_refl Hp eq_refl plain_example_ok Hplen
           eq_refl eq_refl).
Defined.

(** ** The authenticity check of the parser *)

(** The fields of a user the parser does not write before the check. *)
Definition usm_secrets (u : UsmSecurityParameters) :=
  (AuthenticationProtocol u, PrivacyProtocol u,
   AuthenticationPassphrase u, PrivacyPassphrase u, localDESSalt u, localAESSalt u).

Section ParserFacts.
Context `{BC : BerCodec} `{CI : BlockCiphers}.

Lemma extractV3Packet_fields_secrets packet cursor secParams0 c count secParameters :
  extractV3Packet_fields packet cursor secParams0 = Ok (c, count, secParameters) →
  usm_secrets secParameters = usm_secrets secParams0.
Proof.
  unfold extractV3Packet_fields. intros H.
  inv_bind H. destruct (negb (a =? Sequence)); [discriminate|].
  inv_bind H. inv_bind H. destruct a1 as [? ?].
  inv_bind H. inv_bind H. destruct a2 as [raw1 ?].
  inv_bind H. inv_bind H. destruct a3 as [raw2 ?].
  inv_bind H. inv_bind H. destruct a4 as [raw3 ?].
  inv_bind H. inv_bind H. destruct a5 as [raw4 ?].
  inv_bind H. inv_bind H. destruct a6 as [raw5 ?].
  apply Ok_inj in H. injection H as _ _ <-.
  destruct raw1, raw2, raw3, raw4, raw5; reflexivity.
Qed.

(** The parser up to the authenticity check. *)
Lemma extractV3Packet_to_check σ x packet cursor response orig c1 r1 l secParams0
    c count secParameters :
  extractV3Packet_header packet cursor response = Ok (c1, r1) →
  SecurityModel r1 = UserSecurityModel →
  SecurityParameters r1 = UsmPointer (Some l) →
  σ !! l = Some secParams0 →
  extractV3Packet_fields packet c1 secParams0 = Ok (c, count, secParameters) →
  extractV3Packet σ x packet cursor response orig
  = (packet1 ← extractV3Packet_auth packet c count r1 secParameters orig;
     '(c2, secParameters) ← extractV3Packet_privacy packet1 (c + count) secParameters;
     '(r2, packet2, c3) ← extractV3Packet_scoped (<[l := secParameters]> σ) packet1 c2 r1;
     Ok (<[l := secParameters]> σ, r2, packet2, c3)).
Proof.
  intros Hh Hm Hsp Hl Hfields. unfold extractV3Packet.
  rewrite Hh. cbn [mbind outcome_bind]. unfold extractV3Packet_usm.
  rewrite Hm, Z.eqb_refl, Hsp. cbn [fst as_usm].
  rewrite (load_Some _ _ _ Hl). cbn [mbind outcome_bind].
  rewrite Hfields. cbn [mbind outcome_bind].
  destruct (extractV3Packet_auth packet c count r1 secParameters orig) as [packet1| |];
    [|reflexivity..].
  cbn [mbind outcome_bind].
  destruct (extractV3Packet_privacy packet1 (c + count) secParameters) as [[c2 sp2]| |];
    [|reflexivity..].
  reflexivity.
Qed.

(** X9.  Parsing a message whose header gives the User Security Model and
    has the Auth flag set.  The check is made under the protocol and the
    passphrase the receiver has stored, which the parser has not written.
    If the authentication parameters field does not take 14 bytes, tag
    and length included, the parse returns the error of the wrong size.
    Otherwise the twelve bytes behind the field's header are set to zero
    and [isAuthentic] is run on the whole packet: when it answers no, the
    parse returns the error of the unauthentic packet, and when it panics
    the parse panics.  So whenever the parse returns a message, the field
    took 14 bytes and [isAuthentic] has accepted the received parameters
    for the packet with the zeros in it; with a non-empty passphrase and
    at most twelve received bytes they are then a prefix of the
    recomputed tag. *)
Theorem extractV3Packet_authenticity σ x packet cursor response orig c1 r1 l secParams0
    c count secParameters :
  extractV3Packet_header packet cursor response = Ok (c1, r1) →
  SecurityModel r1 = UserSecurityModel →
  SecurityParameters r1 = UsmPointer (Some l) →
  σ !! l = Some secParams0 →
  extractV3Packet_fields packet c1 secParams0 = Ok (c, count, secParameters) →
  Z.land (MsgFlags r1) AuthNoPriv > 0 →
  let check (zeroed : slice) :=
    isAuthentic (s_bytes zeroed) (AuthenticationParameters secParameters)
                (AuthenticationProtocol secParams0) (AuthenticationPassphrase secParams0)
                orig in
  (count ≠ 14 →
   extractV3Packet σ x packet cursor response orig
   = Err "Error authenticating incoming packet: msgAuthenticationParameters is not the correct size") ∧
  (count = 14 → ∀ zeroed,
     slice_copy packet (c + 2) (c + 14) (zeros 12) = Ok zeroed →
     (check zeroed = Ok false →
      extractV3Packet σ x packet cursor response orig
      = Err "Incoming packet is not authentic, discarding") ∧
     (∀ q, check zeroed = Panic q →
           extractV3Packet σ x packet cursor response orig = Panic q)) ∧
  (∀ res, extractV3Packet σ x packet cursor response orig = Ok res →
     count = 14 ∧
     ∃ zeroed,
       slice_copy packet (c + 2) (c + 14) (zeros 12) = Ok zeroed
       ∧ check zeroed = Ok true
       ∧ (AuthenticationPassphrase secParams0 ≠ [] →
          (length (AuthenticationParameters secParameters) ≤ 12)%nat →
          AuthenticationParameters secParameters
          = take (length (AuthenticationParameters secParameters))
              (take 12 (keyed_digest (AuthenticationProtocol secParams0)
                          (localized_key (alg_of (AuthenticationProtocol secParams0))
                             (AuthenticationPassphrase secParams0) orig)
                          (s_bytes zeroed))))).
Proof.
  intros Hh Hm Hsp Hl Hfields Hf check.
  rewrite (extractV3Packet_to_check σ x packet cursor response orig c1 r1 l secParams0
             c count secParameters Hh Hm Hsp Hl Hfields).
  pose proof (extractV3Packet_fields_secrets _ _ _ _ _ _ Hfields) as Hsec.
  unfold usm_secrets in Hsec. injection Hsec as Hap _ Hpass _ _ _.
  unfold extractV3Packet_auth. rewrite (gt_gtb _ _ Hf), Hap, Hpass.
  fold (check packet).
  split; [|split].
  - intros Hc. destruct (Z.eqb_spec count 14); [contradiction|]. reflexivity.
  - intros -> zeroed Hz. cbn [Z.eqb Pos.eqb negb]. rewrite Hz. cbn [mbind outcome_bind].
    fold (check zeroed). split.
    + intros ->. reflexivity.
    + intros q ->. reflexivity.
  - intros res Hres.
    destruct (Z.eqb_spec count 14) as [->|]; [|discriminate].
    split; [reflexivity|]. cbn [negb] in Hres.
    inv_bind Hres. inv_bind Hstep. inv_bind Hstep.
    fold (check a0) in Hstep1.
    destruct a1; [|discriminate].
    exists a0. split; [exact Hstep0|]. split; [exact Hstep1|].
    intros Hp Hn. unfold check in Hstep1.
    rewrite isAuthentic_spec in Hstep1 by assumption.
    apply Ok_inj in Hstep1. apply bool_decide_eq_true in Hstep1. exact Hstep1.
Qed.

(** X10.  The parser panics on the division by zero of key localization
    when a message of the User Security Model arrives with the Auth flag
    set, a 14-byte authentication parameters field, and the receiver's
    user has no authentication passphrase, as [validateParametersV3]
    allows at the level NoAuthNoPriv. *)
Theorem extractV3Packet_empty_passphrase σ x packet cursor response orig c1 r1 l secParams0
    c secParameters zeroed :
  extractV3Packet_header packet cursor response = Ok (c1, r1) →
  SecurityModel r1 = UserSecurityModel →
  SecurityParameters r1 = UsmPointer (Some l) →
  σ !! l = Some secParams0 →
  extractV3Packet_fields packet c1 secParams0 = Ok (c, 14, secParameters) →
  Z.land (MsgFlags r1) AuthNoPriv > 0 →
  slice_copy packet (c + 2) (c + 14) (zeros 12) = Ok zeroed →
  AuthenticationPassphrase secParams0 = [] →
  extractV3Packet σ x packet cursor response orig = Panic DivideByZero.
Proof.
  intros Hh Hm Hsp Hl Hfields Hf Hz Hp.
  rewrite (extractV3Packet_to_check σ x packet cursor response orig c1 r1 l secParams0
             c 14 secParameters Hh Hm Hsp Hl Hfields).
  pose proof (extractV3Packet_fields_secrets _ _ _ _ _ _ Hfields) as Hsec.
  unfold usm_secrets in Hsec. injection Hsec as Hap _ Hpass _ _ _.
  unfold extractV3Packet_auth. rewrite (gt_gtb _ _ Hf).
  cbn [Z.eqb Pos.eqb negb]. rewrite Hz. cbn [mbind outcome_bind].
  unfold isAuthentic. rewrite Hpass, Hp, genlocalkey_empty. reflexivity.
Qed.

(** X11.  A message whose header gives a security model other than the
    User Security Model is parsed without the security parameters being
    read: whatever its flags say, its outcome does not depend on the
    store, the connection or the engine id handed in, so no authenticity
    check is made and no key is used, and the store comes back as it
    was. *)
Theorem extractV3Packet_other_model σ x packet cursor response orig c1 r1 :
  extractV3Packet_header packet cursor response = Ok (c1, r1) →
  SecurityModel r1 ≠ UserSecurityModel →
  ∀ σ' x' orig',
    extractV3Packet σ' x' packet cursor response orig'
    = match extractV3Packet σ x packet cursor response orig with
      | Ok (_, r, p, c) => Ok (σ', r, p, c)
      | Err e => Err e
      | Panic q => Panic q
      end.
Proof.
  intros Hh Hm σ' x' orig'. unfold extractV3Packet.
  rewrite Hh. cbn [mbind outcome_bind]. unfold extractV3Packet_usm.
  destruct (Z.eqb_spec (SecurityModel r1) UserSecurityModel) as [E|_]; [contradiction|].
  cbn [mbind outcome_bind].
  assert (Hsc : extractV3Packet_scoped σ' packet c1 r1 = extractV3Packet_scoped σ packet c1 r1).
  { unfold extractV3Packet_scoped, extractV3Packet_decrypt.
    destruct (Z.eqb_spec (SecurityModel r1) UserSecurityModel) as [E|_]; [contradiction|].
    reflexivity. }
  rewrite Hsc.
  destruct (extractV3Packet_scoped σ packet c1 r1) as [[[r p] c]| |]; reflexivity.
Qed.

(** X12.  The first byte decides: the parse panics when the cursor is
    outside the packet, the empty packet included, and returns the error
    of the invalid header when the byte at the cursor is not the tag of a
    sequence. *)
Theorem extractV3Packet_first_byte σ x packet cursor response orig :
  (cursor < 0 ∨ s_len packet ≤ cursor →
   extractV3Packet σ x packet cursor response orig = Panic IndexOutOfRange) ∧
  (∀ t, slice_index packet cursor = Ok t → t ≠ Sequence →
        extractV3Packet σ x packet cursor response orig
        = Err ("Invalid SNMPV3 Header" +:+ newline)).
Proof.
  unfold extractV3Packet, extractV3Packet_header. split.
  - intros Hout. unfold slice_index.
    replace ((0 <=? cursor) && (cursor <? s_len packet)) with false; [reflexivity|].
    symmetry. destruct Hout.
    + destruct (Z.leb_spec 0 cursor); [lia|reflexivity].
    + destruct (Z.ltb_spec cursor (s_len packet)); [lia|apply andb_false_r].
  - intros t Ht Hne. rewrite Ht. cbn [mbind outcome_bind].
    destruct (Z.eqb_spec t Sequence); [contradiction|]. reflexivity.
Qed.
End ParserFacts.

(** ** Messages for the examples of the parser *)

Definition packet_noauth : SnmpPacket :=
  mkPacket Version3 NoAuthNoPriv UserSecurityModel (UsmPointer (Some 1%positive))
           engine_a3 [] 0xa0 0 0.

(** A packet of a security model that is not USM, with the Auth flag. *)
Definition packet_other : SnmpPacket :=
  mkPacket Version3 AuthNoPriv 1 NilParameters engine_a3 [] 0xa0 0 0.

(** What [prepV3pPDU] writes for a packet of [store_auth], with no PDUs,
    message id 1 and request id 1, under the stand-in codecs. *)
Definition message_of (packet : SnmpPacket) : bytes :=
  match @prepV3pPDU Std.codec Std.pdus Std.ciphers store_auth packet 1 [] [] 1 with
  | Ok (buf, _) => buf
  | _ => []
  end.

Definition msg_auth : bytes := Eval vm_compute in message_of packet_auth.
Definition msg_other : bytes := Eval vm_compute in message_of packet_other.

(** The message of [packet_noauth], whose authentication parameters are
    empty, with the Auth flag set in its flags byte. *)
Definition msg_flagged : bytes := Eval vm_compute in <[15%nat := 1]> (message_of packet_noauth).

Lemma extractV3Packet_authenticity_witness :
  @extractV3Packet Std.codec Std.ciphers store_auth conn_auth (slice_of msg_flagged) 0
     packet_auth engine_a3
  = Err "Error authenticating incoming packet: msgAuthenticationParameters is not the correct size".
Proof.
  eapply (proj1 (@extractV3Packet_authenticity Std.codec Std.ciphers
                   store_auth conn_auth (slice_of msg_flagged) 0 packet_auth engine_a3
                   _ _ 1%positive usm_auth _ _ _ _ _ _ _ _ _)).
  Unshelve.
  all: try (cbv; reflexivity).
  cbv. discriminate.
Defined.

Lemma extractV3Packet_empty_passphrase_witness :
  validateParametersV3 store_nopass
    (Conn.mk Version3 NoAuthNoPriv UserSecurityModel (UsmPointer (Some 1%positive)) [] 0 0)
  = Ok ()
  ∧ @extractV3Packet Std.codec Std.ciphers store_nopass conn_auth (slice_of msg_auth) 0
      packet_noauth engine_a3
    = Panic DivideByZero.
Proof.
  split; [reflexivity|].
  eapply (@extractV3Packet_empty_passphrase Std.codec Std.ciphers
            store_nopass conn_auth (slice_of msg_auth) 0 packet_noauth engine_a3
            _ _ 1%positive usm_nopass _ _ _).
  Unshelve.
  all: try (cbv; reflexivity).
Defined.

Lemma extractV3Packet_other_model_witness :
  @extractV3Packet Std.codec Std.ciphers store_auth conn_auth (slice_of msg_other) 0
     packet_other maplesyrup
  = match @extractV3Packet Std.codec Std.ciphers ∅ conn_priv (slice_of msg_other) 0
            packet_other [] with
    | Ok (_, r, p, c) => Ok (store_auth, r, p, c)
    | Err e => Err e
    | Panic q => Panic q
    end.
Proof.
  eapply (@extractV3Packet_other_model Std.codec Std.ciphers ∅ conn_priv
            (slice_of msg_other) 0 packet_other [] _ _).
  - cbv. reflexivity.
  - cbv. discriminate.
Defined.

Lemma extractV3Packet_first_byte_witness :
  @extractV3Packet Std.codec Std.ciphers ∅ conn_auth (slice_of []) 0 packet_auth []
  = Panic IndexOutOfRange.
Proof.
  apply (proj1 (@extractV3Packet_first_byte Std.codec Std.ciphers ∅ conn_auth
                  (slice_of []) 0 packet_auth [])).
  right. cbv. discriminate.
Defined.

(** ** Scoped PDUs the parser does not decrypt *)

Section ScopedEdges.
Context `{BC : BerCodec} `{PC : PduCodec} `{CI : BlockCiphers}.

(** The parser at an octet string, up to the choice of the cipher. *)
Lemma extractV3Packet_decrypt_key `{!BerCodecLaws}
    σ (pre plen ct rest spare : bytes) response l secParams :
  SecurityModel response = UserSecurityModel →
  SecurityParameters response = UsmPointer (Some l) →
  σ !! l = Some secParams →
  marshalLength (len ct) = Ok plen →
  extractV3Packet_scoped σ (over (pre ++ OctetString :: plen ++ ct ++ rest) spare)
                         (len pre) response
  = (packet ←
       (privkey ← genlocalkey (AuthenticationProtocol secParams)
                              (PrivacyPassphrase secParams)
                              (AuthoritativeEngineID secParams);
        let packet := over (pre ++ OctetString :: plen ++ ct ++ rest) spare in
        let cursor := len pre in
        let cursorTmp := 1 + len plen + len pre in
        if PrivacyProtocol secParams =? AES then
          let iv := aes_iv secParams in
          key ← bytes_upto privkey 16;
          block ← aes_NewCipher key;
          src ← slice_from packet cursorTmp;
          let plaintext := XORKeyStream (aes_encrypt_block block) true iv (s_bytes src) in
          packet ← slice_copy_from packet cursor plaintext;
          slice_upto packet (cursor + len plaintext)
        else
          src ← slice_from packet cursorTmp;
          if negb (Z.rem (s_len src) des_BlockSize =? 0) then
            Err "Error decrypting ScopedPDU: not multiple of des block size."
          else
          preiv ← bytes_from privkey 8;
          iv ← des_iv 8 0 preiv (PrivacyParameters secParams) (zeros 8);
          key ← bytes_upto privkey 8;
          block ← des_NewCipher key;
          plaintext ← CryptBlocks (des_decrypt_block block) true iv (s_bytes src);
          packet ← slice_copy_from packet cursor plaintext;
          slice_upto packet (cursor + len plaintext));
     extractV3Packet_plain packet (len pre) response).
Proof.
  intros Hm Hsp Hl Hplen. unfold extractV3Packet_scoped.
  rewrite (slice_index_over _ spare pre OctetString (plen ++ ct ++ rest) _ eq_refl eq_refl).
  cbn [mbind outcome_bind]. rewrite Z.eqb_refl.
  unfold extractV3Packet_decrypt.
  rewrite (slice_from_over _ spare pre (OctetString :: plen ++ ct ++ rest) _ eq_refl eq_refl).
  cbn [mbind outcome_bind].
  rewrite (parseLength_field _ OctetString plen ct rest Hplen).
  2:{ rewrite s_bytes_over. reflexivity. }
  cbn [mbind outcome_bind].
  rewrite Hm, Z.eqb_refl, Hsp. cbn [fst as_usm].
  rewrite (load_Some _ _ _ Hl). cbn [mbind outcome_bind].
  reflexivity.
Qed.

(** X13.  An encrypted scoped PDU arriving for a USM user.  If the user
    has no privacy passphrase the parser panics on the division by zero of
    key localization, whatever the privacy protocol.  With a passphrase
    and a protocol other than AES, the parser returns the error of the
    block size when the bytes from the end of the octet string's header
    to the end of the packet, not only those of the octet string, are
    not a multiple of 8 in number. *)
Theorem extractV3Packet_encrypted_edges `{!BerCodecLaws}
    σ (pre plen ct rest spare : bytes) response l secParams :
  SecurityModel response = UserSecurityModel →
  SecurityParameters response = UsmPointer (Some l) →
  σ !! l = Some secParams →
  marshalLength (len ct) = Ok plen →
  (PrivacyPassphrase secParams = [] →
   extractV3Packet_scoped σ (over (pre ++ OctetString :: plen ++ ct ++ rest) spare)
                          (len pre) response
   = Panic DivideByZero) ∧
  (PrivacyPassphrase secParams ≠ [] → PrivacyProtocol secParams ≠ AES →
   len (ct ++ rest) mod 8 ≠ 0 →
   extractV3Packet_scoped σ (over (pre ++ OctetString :: plen ++ ct ++ rest) spare)
                          (len pre) response
   = Err "Error decrypting ScopedPDU: not multiple of des block size.").
Proof.
  intros Hm Hsp Hl Hplen.
  rewrite (extractV3Packet_decrypt_key σ pre plen ct rest spare response l secParams
             Hm Hsp Hl Hplen).
  split.
  - intros Hp. rewrite Hp, genlocalkey_empty. reflexivity.
  - intros Hp Hproto Hlen. rewrite (genlocalkey_spec _ Hp). cbn [mbind outcome_bind].
    destruct (Z.eqb_spec (PrivacyProtocol secParams) AES) as [E|_]; [contradiction|].
    rewrite (slice_from_over _ spare (pre ++ OctetString :: plen) (ct ++ rest)).
    2:{ list_eq. }
    2:{ len_eq. }
    cbn [mbind outcome_bind]. unfold over at 1. cbn [s_len].
    rewrite Z.rem_mod_nonneg by (unfold des_BlockSize; pose proof (len_nonneg (ct ++ rest)); lia).
    unfold des_BlockSize.
    destruct (Z.eqb_spec (len (ct ++ rest) mod 8) 0) as [E|_]; [contradiction|].
    reflexivity.
Qed.

(** Lines 929-951 on the scoped PDU the builder wrote in the clear. *)
Lemma extractV3Packet_scoped_clear `{!BerCodecLaws}
    σ' packet pdus requestid plain (pre junk spare : bytes) response :
  plainScopedPDU packet pdus requestid = Ok plain →
  ∃ data cursor',
    marshalPDU packet pdus requestid = Ok data
    ∧ extractV3Packet_scoped σ' (over (pre ++ plain ++ junk) spare) (len pre) response
      = Ok (set_ContextName (ContextName packet)
              (set_ContextEngineID (ContextEngineID packet) response),
            over (pre ++ plain) (junk ++ spare), cursor')
    ∧ drop (Z.to_nat cursor') (pre ++ plain) = data.
Proof.
  intros Hplain.
  destruct (plainScopedPDU_layout _ _ _ _ Hplain)
    as (idlen & namelen & data & pduLen & Hid & Hname & Hdata & Hpdu & Hlayout).
  pose proof (extractV3Packet_plain_run pre junk spare
                pduLen idlen (ContextEngineID packet) namelen (ContextName packet) data
                response Hid Hname Hpdu) as Hrun.
  cbv zeta in Hrun. rewrite <- Hlayout in Hrun.
  eexists data, _. split; [exact Hdata|]. split.
  + unfold extractV3Packet_scoped.
    rewrite (slice_index_over (pre ++ plain ++ junk) spare pre Sequence
               (pduLen ++ OctetString :: idlen ++ ContextEngineID packet
                  ++ OctetString :: namelen ++ ContextName packet ++ data ++ junk)
               (len pre)).
    2:{ rewrite Hlayout. list_eq. }
    2:{ reflexivity. }
    cbn [mbind outcome_bind].
    replace (Sequence =? OctetString) with false by reflexivity.
    rewrite Z.eqb_refl. exact Hrun.
  + rewrite Hlayout.
    replace (Z.to_nat (len pre + (1 + len pduLen)
                       + (1 + len idlen + len (ContextEngineID packet))
                       + (1 + len namelen + len (ContextName packet))))
      with (length (pre ++ Sequence :: pduLen ++ OctetString :: idlen
                      ++ ContextEngineID packet ++ OctetString :: namelen
                      ++ ContextName packet)).
    * replace (pre ++ Sequence :: pduLen ++ OctetString :: idlen
                 ++ ContextEngineID packet ++ OctetString :: namelen
                 ++ ContextName packet ++ data)
        with ((pre ++ Sequence :: pduLen ++ OctetString :: idlen
                 ++ ContextEngineID packet ++ OctetString :: namelen
                 ++ ContextName packet) ++ data) by list_eq.
      apply drop_app_length.
    * rewrite <- (Nat2Z.id (length _)). f_equal. fold (len (pre ++ Sequence :: pduLen
        ++ OctetString :: idlen ++ ContextEngineID packet ++ OctetString :: namelen
        ++ ContextName packet)). len_eq.
Qed.

(** X14.  Without privacy, or under a security model other than USM,
    [marshalSnmpV3ScopedPDU] returns the scoped PDU in the clear under its
    sequence header.  The parser, at such a PDU followed by any bytes,
    cuts the packet after the PDU, reads the context engine id and the
    context name the sender wrote, and returns the cursor at the first
    byte of the PDU data. *)
Theorem plain_scoped_roundtrip `{!BerCodecLaws}
    σ σ' packet pdus requestid plain (pre junk spare : bytes) response :
  Z.land (MsgFlags packet) AuthPriv ≤ AuthNoPriv ∨ SecurityModel packet ≠ UserSecurityModel →
  plainScopedPDU packet pdus requestid = Ok plain →
  marshalSnmpV3ScopedPDU σ packet pdus requestid = Ok plain ∧
  ∃ data cursor',
    marshalPDU packet pdus requestid = Ok data
    ∧ extractV3Packet_scoped σ' (over (pre ++ plain ++ junk) spare) (len pre) response
      = Ok (set_ContextName (ContextName packet)
              (set_ContextEngineID (ContextEngineID packet) response),
            over (pre ++ plain) (junk ++ spare), cursor')
    ∧ drop (Z.to_nat cursor') (pre ++ plain) = data.
Proof.
  intros Hclear Hplain. split.
  - unfold marshalSnmpV3ScopedPDU. rewrite Hplain. cbn [mbind outcome_bind].
    destruct Hclear as [Hf|Hm].
    + replace (Z.land (MsgFlags packet) AuthPriv >? AuthNoPriv) with false; [reflexivity|].
      symmetry. rewrite Z.gtb_ltb. apply Z.ltb_ge. exact Hf.
    + destruct (Z.eqb_spec (SecurityModel packet) UserSecurityModel) as [E|_];
        [contradiction|].
      rewrite andb_false_r. reflexivity.
  - apply (extractV3Packet_scoped_clear σ' packet pdus requestid plain pre junk spare
             response Hplain).
Qed.
End ScopedEdges.

Lemma extractV3Packet_encrypted_edges_witness :
  @extractV3Packet_scoped Std.codec Std.ciphers store_auth
     (over ([] ++ OctetString :: [3] ++ [1; 2; 3] ++ []) []) (len (@nil Z)) packet_auth
  = Panic DivideByZero.
Proof.
  apply (proj1 (@extractV3Packet_encrypted_edges Std.codec Std.ciphers std_codec_laws
                  store_auth [] [3] [1; 2; 3] [] [] packet_auth 1%positive usm_auth
                  eq_refl eq_refl eq_refl eq_refl)).
  reflexivity.
Defined.

Lemma plain_scoped_roundtrip_witness :
  @marshalSnmpV3ScopedPDU Std.codec Std.pdus Std.ciphers store_auth packet_auth [] 1
  = Ok plain_example
  ∧ ∃ data cursor',
      @extractV3Packet_scoped Std.codec Std.ciphers ∅
         (over ([48; 2] ++ plain_example ++ [0; 0]) []) (len [48; 2]) packet_noauth
      = Ok (set_ContextName (ContextName packet_auth)
              (set_ContextEngineID (ContextEngineID packet_auth) packet_noauth),
            over ([48; 2] ++ plain_example) ([0; 0] ++ []), cursor')
      ∧ drop (Z.to_nat cursor') ([48; 2] ++ plain_example) = data.
Proof.
  assert (Hclear : Z.land (MsgFlags packet_auth) AuthPriv ≤ AuthNoPriv
                   ∨ SecurityModel packet_auth ≠ UserSecurityModel)
    by (left; cbv; discriminate).
  assert (Hplain : @plainScopedPDU Std.codec Std.pdus packet_auth [] 1 = Ok plain_example)
    by (vm_compute; reflexivity).
  destruct (@plain_scoped_roundtrip Std.codec Std.pdus Std.ciphers std_codec_laws
              store_auth ∅ packet_auth [] 1 plain_example [48; 2] [0; 0] [] packet_noauth
              Hclear Hplain)
    as (Hm & data & cursor' & _ & Hrun & Hdata).
  split; [exact Hm|]. exists data, cursor'. split; [exact Hrun|exact Hdata].
Defined.

(** ** Integers and short lengths of the codec *)

(** What the round trips need of the BER primitives besides
    [BerCodecLaws]: a length below 128 is written on one byte;
    [marshalUvarInt] writes 1 to 5 bytes, the first below 128, whose
    big-endian value is the number; and [parseRawField] reads an integer
    field of 1 to 8 bytes as a number congruent to the big-endian value of
    its bytes, equal to it when the first byte is below 128. *)
Class BerIntegerLaws `{BC : BerCodec} : Prop := {
  marshalLength_short : ∀ n, 0 ≤ n < 128 → marshalLength n = Ok [n];
  marshalUvarInt_length : ∀ v, 1 ≤ len (marshalUvarInt v) ≤ 5;
  marshalUvarInt_value : ∀ v, 0 ≤ v < 2 ^ 32 →
    hd 0 (marshalUvarInt v) < 128 ∧ Std.be_value (marshalUvarInt v) 0 = v;
  parseRawField_integer : ∀ (s : slice) (msg : string) (body rest : bytes),
    1 ≤ len body ≤ 8 →
    s_bytes s = Integer :: len body :: body ++ rest →
    ∃ v, parseRawField s msg = Ok (RawInt v, 2 + len body)
         ∧ v mod 2 ^ (8 * len body) = Std.be_value body 0 mod 2 ^ (8 * len body)
         ∧ (hd 0 body < 128 → v = Std.be_value body 0)
}.

Lemma be_digits_length fuel : ∀ n acc,
  (length (Std.be_digits fuel n acc) ≤ fuel + length acc)%nat.
Proof.
  induction fuel as [|fuel IH]; intros n acc; cbn [Std.be_digits]; [lia|].
  destruct (n =? 0); [lia|].
  specialize (IH (n / 256) (n mod 256 :: acc)). cbn [length] in IH. lia.
Qed.

Lemma std_marshalUvarInt_length v : 1 ≤ len (Std.marshalUvarInt v) ≤ 5.
Proof.
  unfold Std.marshalUvarInt.
  pose proof (be_digits_length 4 (uint32 v) []) as Hd. cbn [length] in Hd.
  destruct (Std.be_digits 4 (uint32 v) []) as [|d0 d] eqn:E.
  - vm_compute. split; discriminate.
  - cbn [hd]. destruct (128 <=? d0); unfold len; cbn [length] in *; lia.
Qed.

Lemma std_marshalUvarInt_value v :
  0 ≤ v < 2 ^ 32 →
  hd 0 (Std.marshalUvarInt v) < 128 ∧ Std.be_value (Std.marshalUvarInt v) 0 = v.
Proof.
  intros Hv. unfold Std.marshalUvarInt.
  rewrite (uint32_small v Hv).
  pose proof (be_value_digits 4 v [] ltac:(cbn; lia)) as Hval. cbn [Std.be_value] in Hval.
  destruct (Std.be_digits 4 v []) as [|d0 d] eqn:E.
  - subst v. vm_compute. split; reflexivity.
  - cbn [hd]. destruct (Z.leb_spec 128 d0).
    + cbn [hd Std.be_value]. split; [lia|]. rewrite <- Hval. reflexivity.
    + cbn [hd]. split; [assumption|exact Hval].
Qed.

Lemma std_parseRawField_integer (s : slice) (msg : string) (body rest : bytes) :
  1 ≤ len body ≤ 8 →
  s_bytes s = Integer :: len body :: body ++ rest →
  ∃ v, Std.parseRawField s msg = Ok (RawInt v, 2 + len body)
       ∧ v mod 2 ^ (8 * len body) = Std.be_value body 0 mod 2 ^ (8 * len body)
       ∧ (hd 0 body < 128 → v = Std.be_value body 0).
Proof.
  intros Hlen Hs. destruct (slice_view _ _ _ Hs) as (spare & Harr & Hfit).
  exists (Std.be_value body 0). split; [|split; [reflexivity|intros _; reflexivity]].
  unfold Std.parseRawField.
  rewrite (std_slice_index s [] Integer (len body :: body ++ rest ++ spare) 0).
  2:{ rewrite Harr. cbn [app]. rewrite <- !app_assoc. reflexivity. }
  2:{ reflexivity. }
  2:{ revert Hfit. cbn [app]. len_eq. }
  cbn [mbind outcome_bind]. rewrite Z.eqb_refl.
  rewrite (std_slice_index s [Integer] (len body) (body ++ rest ++ spare) 1).
  2:{ rewrite Harr. cbn [app]. rewrite <- !app_assoc. reflexivity. }
  2:{ reflexivity. }
  2:{ revert Hfit. cbn [app]. len_eq. }
  cbn [mbind outcome_bind].
  rewrite (std_slice_sub s [Integer; len body] body (rest ++ spare)).
  2:{ rewrite Harr. cbn [app]. rewrite <- !app_assoc. reflexivity. }
  2:{ reflexivity. }
  2:{ len_eq. }
  cbn [mbind outcome_bind].
  destruct (Z.leb_spec (2 + len body) (s_len s)) as [_|Hbad].
  - cbn [negb]. f_equal. f_equal. lia.
  - exfalso. revert Hfit Hbad. cbn [app]. rewrite !len_cons, !len_app. unfold len. lia.
Qed.

Lemma std_integer_laws : @BerIntegerLaws Std.codec.
Proof.
  split.
  - intros n Hn. cbn. unfold Std.marshalLength.
    destruct (Z.ltb_spec n 0); [lia|]. destruct (Z.ltb_spec n 128); [reflexivity|lia].
  - exact std_marshalUvarInt_length.
  - exact std_marshalUvarInt_value.
  - exact std_parseRawField_integer.
Qed.

(** ** The parser on what the builder wrote: header and security parameters *)

Lemma uint8_small z : 0 ≤ z < 256 → uint8 z = z.
Proof. intros. unfold uint8. apply Z.mod_small. assumption. Qed.

Lemma uint8_uint8 z : uint8 (uint8 z) = uint8 z.
Proof. unfold uint8. apply Z.mod_mod. lia. Qed.

Lemma be_value_be32 v : Std.be_value (be32 v) 0 = uint32 v.
Proof.
  unfold be32, uint32. cbn [Std.be_value]. rewrite !Z.shiftr_div_pow2 by lia.
  change (2 ^ 8) with 256. change (2 ^ 16) with 65536. change (2 ^ 24) with 16777216.
  change (2 ^ 32) with 4294967296.
  Z.div_mod_to_equations. lia.
Qed.

(** Unfolds the local names of a proof before comparing lists or
    lengths. *)
Ltac unfold_local :=
  repeat match goal with x := _ |- _ => subst x end.
Lemma len_be32 v : len (be32 v) = 4.
Proof. reflexivity. Qed.

Ltac lists := unfold_local; list_eq.
Ltac lens :=
  unfold_local;
  repeat (progress (rewrite ?len_app, ?len_cons, ?len_be32));
  unfold len; cbn [length]; lia.

Section RoundTrip.
Context `{BC : BerCodec} `{PC : PduCodec} `{CI : BlockCiphers}.
Context `{BL : !BerCodecLaws} `{IL : !BerIntegerLaws}.

Lemma parseLength_over tag l body rest spare :
  marshalLength (len body) = Ok l →
  parseLength (over (tag :: l ++ body ++ rest) spare) = Ok (1 + len l + len body, 1 + len l).
Proof. intros Hl. apply (parseLength_field _ tag l body rest Hl). apply s_bytes_over. Qed.

Lemma parseRawField_string_over (v rest spare : bytes) msg :
  len v < 128 →
  parseRawField (over (OctetString :: uint8 (len v) :: v ++ rest) spare) msg
  = Ok (RawString v, 2 + len v).
Proof.
  intros Hv. pose proof (len_nonneg v).
  rewrite uint8_small by lia.
  rewrite (parseRawField_octets _ msg [len v] v rest).
  - replace (1 + len [len v] + len v) with (2 + len v) by len_eq. reflexivity.
  - apply marshalLength_short. lia.
  - apply s_bytes_over.
Qed.

Lemma parseRawField_integer_over (body rest spare : bytes) msg :
  1 ≤ len body ≤ 8 →
  ∃ v, parseRawField (over (Integer :: uint8 (len body) :: body ++ rest) spare) msg
       = Ok (RawInt v, 2 + len body)
       ∧ v mod 2 ^ (8 * len body) = Std.be_value body 0 mod 2 ^ (8 * len body)
       ∧ (hd 0 body < 128 → v = Std.be_value body 0).
Proof.
  intros Hb. rewrite uint8_small by lia.
  apply (parseRawField_integer _ msg body rest); [assumption|apply s_bytes_over].
Qed.

Lemma parseRawField_uvarint_over (n : Z) (rest spare : bytes) msg :
  0 ≤ n < 2 ^ 32 →
  parseRawField (over (Integer :: uint8 (len (marshalUvarInt n)) :: marshalUvarInt n ++ rest)
                      spare) msg
  = Ok (RawInt n, 2 + len (marshalUvarInt n)).
Proof.
  intros Hn. pose proof (marshalUvarInt_length n) as Hlen.
  destruct (marshalUvarInt_value n Hn) as [Hhd Hval].
  assert (Hlen8 : 1 ≤ len (marshalUvarInt n) ≤ 8) by lia.
  destruct (parseRawField_integer_over (marshalUvarInt n) rest spare msg Hlen8)
    as (v & Hparse & _ & Hv).
  rewrite Hparse, (Hv Hhd), Hval. reflexivity.
Qed.

Lemma marshalSnmpV3Header_layout packet msgid header :
  marshalSnmpV3Header packet msgid = Ok header →
  header = Integer :: 4 :: be32 msgid
           ++ Integer :: uint8 (len (marshalUvarInt rxBufSize)) :: marshalUvarInt rxBufSize
           ++ [OctetString; 1; uint8 (MsgFlags packet);
               Integer; 1; uint8 (SecurityModel packet)].
Proof.
  unfold marshalSnmpV3Header. intros Hm. apply Ok_inj in Hm. rewrite <- Hm. list_eq.
Qed.

(** Lines 728-776 on the header the builder wrote. *)
Lemma extractV3Packet_header_run packet msgid header (spl sp rest pre spare : bytes) response :
  marshalSnmpV3Header packet msgid = Ok header →
  marshalLength (len sp) = Ok spl →
  len header < 128 ∧
  extractV3Packet_header
    (over (pre ++ Sequence :: uint8 (len header) :: header ++ OctetString :: spl ++ sp ++ rest)
          spare)
    (len pre) response
  = Ok (len pre + 2 + len header + 1 + len spl,
        set_SecurityModel (uint8 (SecurityModel packet))
          (set_MsgFlags (uint8 (MsgFlags packet))
             (set_MsgID (uint32 msgid) response))).
Proof.
  intros Hh Hspl. apply marshalSnmpV3Header_layout in Hh.
  set (mms := marshalUvarInt rxBufSize) in *.
  pose proof (marshalUvarInt_length rxBufSize) as Hmms. fold mms in Hmms.
  set (flags := [OctetString; 1; uint8 (MsgFlags packet)]) in *.
  set (model := [Integer; 1; uint8 (SecurityModel packet)]) in *.
  set (tail := OctetString :: spl ++ sp ++ rest).
  assert (Hheader : header = Integer :: 4 :: be32 msgid
                             ++ Integer :: uint8 (len mms) :: mms ++ flags ++ model).
  { rewrite Hh. lists. }
  assert (Hlen : len header = 14 + len mms).
  { rewrite Hheader. unfold flags, model.
    repeat (progress (rewrite ?len_app, ?len_cons, ?len_nil)).
    change (len (be32 msgid)) with 4. lia. }
  split; [lia|].
  assert (Hhl : marshalLength (len header) = Ok [uint8 (len header)]).
  { rewrite uint8_small by lia. apply marshalLength_short. lia. }
  unfold extractV3Packet_header.
  rewrite (slice_index_over _ spare pre Sequence (uint8 (len header) :: header ++ tail)
             (len pre) eq_refl eq_refl).
  cbn [mbind outcome_bind]. rewrite Z.eqb_refl. cbn [negb].
  rewrite (slice_from_over _ spare pre
             (Sequence :: [uint8 (len header)] ++ header ++ tail) (len pre)).
  2:{ lists. }
  2:{ reflexivity. }
  cbn [mbind outcome_bind].
  rewrite (parseLength_over Sequence [uint8 (len header)] header tail spare Hhl).
  cbn [mbind outcome_bind].
  (* msgID *)
  rewrite (slice_from_over _ spare (pre ++ [Sequence; uint8 (len header)])
             (Integer :: uint8 (len (be32 msgid)) :: be32 msgid
              ++ (Integer :: uint8 (len mms) :: mms ++ flags ++ model ++ tail))).
  2:{ rewrite Hheader. lists. }
  2:{ lens. }
  cbn [mbind outcome_bind].
  assert (Hlen4 : 1 ≤ len (be32 msgid) ≤ 8) by (change (len (be32 msgid)) with 4; lia).
  destruct (parseRawField_integer_over (be32 msgid)
              (Integer :: uint8 (len mms) :: mms ++ flags ++ model ++ tail) spare "msgID"
              Hlen4)
    as (v & Hparse & Hmod & _).
  rewrite Hparse. cbn [wrap_err mbind outcome_bind].
  assert (Hid : uint32 v = uint32 msgid).
  { change (len (be32 msgid)) with 4 in Hmod. change (2 ^ (8 * 4)) with (2 ^ 32) in Hmod.
    rewrite be_value_be32 in Hmod. unfold uint32 in *. rewrite Hmod. apply Z.mod_mod. lia. }
  rewrite Hid.
  (* maxMsgSize *)
  rewrite (slice_from_over _ spare
             (pre ++ [Sequence; uint8 (len header)] ++ Integer :: 4 :: be32 msgid)
             (Integer :: uint8 (len mms) :: mms ++ (flags ++ model ++ tail))).
  2:{ rewrite Hheader. lists. }
  2:{ lens. }
  cbn [mbind outcome_bind].
  assert (Hlen8 : 1 ≤ len mms ≤ 8) by lia.
  destruct (parseRawField_integer_over mms (flags ++ model ++ tail) spare "maxMsgSize"
              Hlen8)
    as (v2 & Hparse2 & _ & _).
  rewrite Hparse2. cbn [wrap_err mbind outcome_bind].
  (* msgFlags *)
  rewrite (slice_from_over _ spare
             (pre ++ [Sequence; uint8 (len header)] ++ Integer :: 4 :: be32 msgid
                  ++ Integer :: uint8 (len mms) :: mms)
             (OctetString :: [1] ++ [uint8 (MsgFlags packet)] ++ (model ++ tail))).
  2:{ rewrite Hheader. lists. }
  2:{ lens. }
  cbn [mbind outcome_bind].
  rewrite (parseRawField_octets _ "msgFlags" [1] [uint8 (MsgFlags packet)] (model ++ tail)).
  2:{ apply (marshalLength_short 1). lia. }
  2:{ apply s_bytes_over. }
  cbn [wrap_err mbind outcome_bind].
  change (index [uint8 (MsgFlags packet)] 0) with (@Ok byte (uint8 (MsgFlags packet))).
  cbn [mbind outcome_bind].
  (* msgSecurityModel *)
  rewrite (slice_from_over _ spare
             (pre ++ [Sequence; uint8 (len header)] ++ Integer :: 4 :: be32 msgid
                  ++ Integer :: uint8 (len mms) :: mms ++ flags)
             (Integer :: uint8 (len [uint8 (SecurityModel packet)])
                :: [uint8 (SecurityModel packet)] ++ tail)).
  2:{ rewrite Hheader. lists. }
  2:{ lens. }
  cbn [mbind outcome_bind].
  assert (Hlen1 : 1 ≤ len [uint8 (SecurityModel packet)] ≤ 8)
    by (rewrite len_cons, len_nil; lia).
  destruct (parseRawField_integer_over [uint8 (SecurityModel packet)] tail spare
              "msgSecurityModel" Hlen1)
    as (v3 & Hparse3 & Hmod3 & _).
  rewrite Hparse3. cbn [wrap_err mbind outcome_bind].
  assert (Hmodel : uint8 v3 = uint8 (SecurityModel packet)).
  { change (len [uint8 (SecurityModel packet)]) with 1 in Hmod3.
    change (2 ^ (8 * 1)) with (2 ^ 8) in Hmod3. cbn [Std.be_value] in Hmod3.
    unfold uint8 in *. rewrite Hmod3. cbn [Z.mul Z.add]. apply Z.mod_mod. lia. }
  rewrite Hmodel.
  (* msgSecurityParameters *)
  rewrite (slice_index_over _ spare
             (pre ++ [Sequence; uint8 (len header)] ++ header) OctetString
             (spl ++ sp ++ rest)).
  2:{ lists. }
  2:{ rewrite Hheader. lens. }
  cbn [mbind outcome_bind]. rewrite Z.eqb_refl. cbn [negb].
  rewrite (slice_from_over _ spare (pre ++ [Sequence; uint8 (len header)] ++ header)
             (OctetString :: spl ++ sp ++ rest)).
  2:{ lists. }
  2:{ rewrite Hheader. lens. }
  cbn [mbind outcome_bind].
  rewrite (parseLength_over OctetString spl sp rest spare Hspl).
  cbn [mbind outcome_bind].
  f_equal. f_equal. rewrite Hlen. lens.
Qed.

(** X15.  The header [marshalSnmpV3Header] writes, under the sequence
    header [prepV3pPDU] puts before it and followed by the octet string of
    the security parameters, is read back by the parser: the message id
    modulo 2^32, the flags and the security model modulo 256 are those of
    the sender, and the cursor stands at the first byte of the security
    parameters. *)
Theorem header_roundtrip packet msgid header (spl sp rest pre spare : bytes) response :
  marshalSnmpV3Header packet msgid = Ok header →
  marshalLength (len sp) = Ok spl →
  len header < 128 ∧
  extractV3Packet_header
    (over (pre ++ Sequence :: uint8 (len header) :: header ++ OctetString :: spl ++ sp ++ rest)
          spare)
    (len pre) response
  = Ok (len pre + 2 + len header + 1 + len spl,
        set_SecurityModel (uint8 (SecurityModel packet))
          (set_MsgFlags (uint8 (MsgFlags packet))
             (set_MsgID (uint32 msgid) response))).
Proof. apply extractV3Packet_header_run. Qed.

(** The four fields of the security parameters before the authentication
    parameters, and the whole block with the authentication parameters
    [auth] and the privacy field [priv]. *)
Definition usm_fields (u : UsmSecurityParameters) : bytes :=
  OctetString :: uint8 (len (AuthoritativeEngineID u)) :: AuthoritativeEngineID u
  ++ Integer :: uint8 (len (marshalUvarInt (AuthoritativeEngineBoots u)))
       :: marshalUvarInt (AuthoritativeEngineBoots u)
  ++ Integer :: uint8 (len (marshalUvarInt (AuthoritativeEngineTime u)))
       :: marshalUvarInt (AuthoritativeEngineTime u)
  ++ OctetString :: uint8 (len (UserName u)) :: UserName u.

Definition usm_block (u : UsmSecurityParameters) (auth priv : bytes) : bytes :=
  usm_fields u ++ OctetString :: len auth :: auth ++ priv.

(** The authentication parameters the builder writes, and the privacy
    parameters it sends. *)
Definition auth_slot (packet : SnmpPacket) : bytes :=
  if Z.land (MsgFlags packet) AuthNoPriv >? 0 then zeros 12 else [].
Definition priv_sent (packet : SnmpPacket) (u : UsmSecurityParameters) : bytes :=
  if Z.land (MsgFlags packet) AuthPriv >? AuthNoPriv then PrivacyParameters u else [].

Lemma marshalSnmpV3UsmSecurityParameters_layout σ packet out off l secParams :
  SecurityParameters packet = UsmPointer (Some l) →
  σ !! l = Some secParams →
  marshalSnmpV3UsmSecurityParameters σ packet = Ok (out, off) →
  ∃ paramLen privlen,
    marshalLength (len (priv_sent packet secParams)) = Ok privlen
    ∧ marshalLength
        (len (usm_block secParams (auth_slot packet)
                (OctetString :: privlen ++ priv_sent packet secParams))) = Ok paramLen
    ∧ out = Sequence :: paramLen
            ++ usm_block secParams (auth_slot packet)
                 (OctetString :: privlen ++ priv_sent packet secParams)
    ∧ off = uint32 (uint32 (len (usm_fields secParams) + 2)
                    + uint32 (len (Sequence :: paramLen))).
Proof.
  intros Hsp Hl Hrun. unfold marshalSnmpV3UsmSecurityParameters in Hrun.
  rewrite Hsp in Hrun. cbn [fst as_usm] in Hrun.
  rewrite (load_Some _ _ _ Hl) in Hrun. cbn [mbind outcome_bind] in Hrun.
  inv_bind Hrun. inv_bind Hrun. apply Ok_inj in Hrun. injection Hrun as Hout Hoff.
  unfold auth_slot, priv_sent.
  assert (Hbody : ∃ privlen,
            marshalLength (len (if Z.land (MsgFlags packet) AuthPriv >? AuthNoPriv
                                then PrivacyParameters secParams else [])) = Ok privlen
            ∧ a = usm_block secParams
                    (if Z.land (MsgFlags packet) AuthNoPriv >? 0 then zeros 12 else [])
                    (OctetString :: privlen
                       ++ (if Z.land (MsgFlags packet) AuthPriv >? AuthNoPriv
                           then PrivacyParameters secParams else []))).
  { destruct (Z.land (MsgFlags packet) AuthPriv >? AuthNoPriv).
    - inv_bind Hstep. apply Ok_inj in Hstep. exists a1. split; [assumption|].
      rewrite <- Hstep. unfold usm_block, usm_fields.
      destruct (Z.land (MsgFlags packet) AuthNoPriv >? 0); list_eq.
    - apply Ok_inj in Hstep. exists [0]. split; [apply (marshalLength_short 0); lia|].
      rewrite <- Hstep. unfold usm_block, usm_fields.
      destruct (Z.land (MsgFlags packet) AuthNoPriv >? 0); list_eq. }
  destruct Hbody as (privlen & Hprivlen & Ha).
  exists a0, privlen. rewrite <- Ha.
  split; [exact Hprivlen|]. split; [exact Hstep0|].
  split; [rewrite <- Hout; list_eq|].
  rewrite <- Hoff. f_equal. f_equal. f_equal. unfold usm_fields. len_eq.
Qed.

(** Lines 784-839 on the block the builder wrote, whatever stands in the
    authentication parameters. *)
Lemma extractV3Packet_fields_run (pre paramLen auth priv rest spare : bytes) u recv :
  marshalLength (len (usm_block u auth priv)) = Ok paramLen →
  len (AuthoritativeEngineID u) < 128 →
  len (UserName u) < 128 →
  0 ≤ AuthoritativeEngineBoots u < 2 ^ 32 →
  0 ≤ AuthoritativeEngineTime u < 2 ^ 32 →
  len auth < 128 →
  extractV3Packet_fields
    (over (pre ++ Sequence :: paramLen ++ usm_block u auth priv ++ rest) spare)
    (len pre) recv
  = Ok (len (pre ++ Sequence :: paramLen ++ usm_fields u), 2 + len auth,
        set_AuthenticationParameters auth
          (set_UserName (UserName u)
             (set_AuthoritativeEngineTime (AuthoritativeEngineTime u)
                (set_AuthoritativeEngineBoots (AuthoritativeEngineBoots u)
                   (set_AuthoritativeEngineID (AuthoritativeEngineID u) recv))))).
Proof.
  intros HparamLen Heid Huser Hboots Htime Hauth.
  set (eid := AuthoritativeEngineID u) in *.
  set (B := marshalUvarInt (AuthoritativeEngineBoots u)) in *.
  set (T := marshalUvarInt (AuthoritativeEngineTime u)) in *.
  set (user := UserName u) in *.
  set (Feid := OctetString :: uint8 (len eid) :: eid).
  set (FB := Integer :: uint8 (len B) :: B).
  set (FT := Integer :: uint8 (len T) :: T).
  set (Fuser := OctetString :: uint8 (len user) :: user).
  set (Fauth := OctetString :: len auth :: auth).
  assert (Hblock : usm_block u auth priv = Feid ++ FB ++ FT ++ Fuser ++ Fauth ++ priv).
  { unfold usm_block, usm_fields. lists. }
  assert (Hfields : usm_fields u = Feid ++ FB ++ FT ++ Fuser).
  { unfold usm_fields. lists. }
  unfold extractV3Packet_fields.
  rewrite (slice_index_over _ spare pre Sequence (paramLen ++ usm_block u auth priv ++ rest)
             (len pre) eq_refl eq_refl).
  cbn [mbind outcome_bind]. rewrite Z.eqb_refl. cbn [negb].
  rewrite (slice_from_over _ spare pre
             (Sequence :: paramLen ++ usm_block u auth priv ++ rest) (len pre)
             eq_refl eq_refl).
  cbn [mbind outcome_bind].
  rewrite (parseLength_over Sequence paramLen (usm_block u auth priv) rest spare HparamLen).
  cbn [mbind outcome_bind].
  (* msgAuthoritativeEngineID *)
  rewrite (slice_from_over _ spare (pre ++ Sequence :: paramLen)
             (OctetString :: uint8 (len eid) :: eid
              ++ (FB ++ FT ++ Fuser ++ Fauth ++ priv ++ rest))).
  2:{ rewrite Hblock. lists. }
  2:{ lens. }
  cbn [mbind outcome_bind].
  rewrite parseRawField_string_over by exact Heid.
  cbn [wrap_err mbind outcome_bind].
  (* msgAuthoritativeEngineBoots *)
  rewrite (slice_from_over _ spare (pre ++ Sequence :: paramLen ++ Feid)
             (Integer :: uint8 (len B) :: B ++ (FT ++ Fuser ++ Fauth ++ priv ++ rest))).
  2:{ rewrite Hblock. lists. }
  2:{ lens. }
  cbn [mbind outcome_bind].
  unfold B at 1 2. rewrite parseRawField_uvarint_over by exact Hboots. fold B.
  cbn [wrap_err mbind outcome_bind].
  rewrite (uint32_small _ Hboots).
  (* msgAuthoritativeEngineTime *)
  rewrite (slice_from_over _ spare (pre ++ Sequence :: paramLen ++ Feid ++ FB)
             (Integer :: uint8 (len T) :: T ++ (Fuser ++ Fauth ++ priv ++ rest))).
  2:{ rewrite Hblock. lists. }
  2:{ lens. }
  cbn [mbind outcome_bind].
  unfold T at 1 2. rewrite parseRawField_uvarint_over by exact Htime. fold T.
  cbn [wrap_err mbind outcome_bind].
  rewrite (uint32_small _ Htime).
  (* msgUserName *)
  rewrite (slice_from_over _ spare (pre ++ Sequence :: paramLen ++ Feid ++ FB ++ FT)
             (OctetString :: uint8 (len user) :: user ++ (Fauth ++ priv ++ rest))).
  2:{ rewrite Hblock. lists. }
  2:{ lens. }
  cbn [mbind outcome_bind].
  rewrite parseRawField_string_over by exact Huser.
  cbn [wrap_err mbind outcome_bind].
  (* msgAuthenticationParameters *)
  rewrite (slice_from_over _ spare (pre ++ Sequence :: paramLen ++ Feid ++ FB ++ FT ++ Fuser)
             (OctetString :: [len auth] ++ auth ++ (priv ++ rest))).
  2:{ rewrite Hblock. lists. }
  2:{ lens. }
  cbn [mbind outcome_bind].
  rewrite (parseRawField_octets _ "msgAuthenticationParameters" [len auth] auth (priv ++ rest)).
  2:{ apply marshalLength_short. pose proof (len_nonneg auth). lia. }
  2:{ apply s_bytes_over. }
  cbn [wrap_err mbind outcome_bind].
  replace (len pre + (1 + len paramLen) + (2 + len eid) + (2 + len B) + (2 + len T)
           + (2 + len user))
    with (len (pre ++ Sequence :: paramLen ++ usm_fields u)) by (rewrite Hfields; lens).
  replace (1 + len [len auth] + len auth) with (2 + len auth) by lens.
  reflexivity.
Qed.

(** Lines 857-867 on the privacy field the builder wrote. *)
Lemma extractV3Packet_privacy_run (pre privlen priv rest spare : bytes) recv :
  marshalLength (len priv) = Ok privlen →
  extractV3Packet_privacy (over (pre ++ OctetString :: privlen ++ priv ++ rest) spare)
                          (len pre) recv
  = Ok (len pre + (1 + len privlen + len priv), set_PrivacyParameters priv recv).
Proof.
  intros Hprivlen. unfold extractV3Packet_privacy.
  rewrite (slice_from_over _ spare pre (OctetString :: privlen ++ priv ++ rest) (len pre)
             eq_refl eq_refl).
  cbn [mbind outcome_bind].
  rewrite (parseRawField_octets _ "msgPrivacyParameters" privlen priv rest Hprivlen).
  2:{ apply s_bytes_over. }
  reflexivity.
Qed.

Lemma slice_copy_over (pre slot post spare src : bytes) a b :
  a = len pre → b = len pre + len slot → length src = length slot →
  slice_copy (over (pre ++ slot ++ post) spare) a b src
  = Ok (over (pre ++ src ++ post) spare).
Proof.
  intros -> -> Hsrc. unfold slice_copy, over, s_cap, len. cbn [s_arr s_len].
  rewrite !length_app.
  destruct (Z.leb_spec 0 (Z.of_nat (length pre))); [|lia].
  destruct (Z.leb_spec (Z.of_nat (length pre))
                       (Z.of_nat (length pre) + Z.of_nat (length slot))); [|lia].
  destruct (Z.leb_spec (Z.of_nat (length pre) + Z.of_nat (length slot))
                       (Z.of_nat (length pre + (length slot + length post) + length spare)));
    [|lia].
  cbn [andb]. f_equal.
  replace (Z.to_nat (Z.of_nat (length pre) + Z.of_nat (length slot) - Z.of_nat (length pre)))
    with (length slot) by lia.
  rewrite (take_ge src) by lia. rewrite Nat2Z.id.
  rewrite copy_into_fits by (rewrite !length_app; lia).
  f_equal.
  - rewrite <- !app_assoc. rewrite take_app_length. f_equal. f_equal.
    rewrite Hsrc.
    rewrite (app_assoc pre slot (post ++ spare)).
    rewrite <- length_app. rewrite drop_app_length. reflexivity.
  - lia.
Qed.

Lemma land_uint8_auth z : Z.land (uint8 z) AuthNoPriv = Z.land z AuthNoPriv.
Proof.
  unfold uint8, AuthNoPriv. rewrite <- (Z.land_ones z 8) by lia.
  rewrite <- Z.land_assoc. reflexivity.
Qed.

Lemma land_uint8_priv z : Z.land (uint8 z) AuthPriv = Z.land z AuthPriv.
Proof.
  unfold uint8, AuthPriv. rewrite <- (Z.land_ones z 8) by lia.
  rewrite <- Z.land_assoc. reflexivity.
Qed.

Lemma prepV3pPDU_layout σ packet msgid buf pdus requestid buf' off l secParams :
  SecurityModel packet = UserSecurityModel →
  SecurityParameters packet = UsmPointer (Some l) →
  σ !! l = Some secParams →
  prepV3pPDU σ packet msgid buf pdus requestid = Ok (buf', off) →
  ∃ header spl paramLen privlen scoped,
    marshalSnmpV3Header packet msgid = Ok header
    ∧ marshalLength (len (priv_sent packet secParams)) = Ok privlen
    ∧ marshalLength
        (len (usm_block secParams (auth_slot packet)
                (OctetString :: privlen ++ priv_sent packet secParams))) = Ok paramLen
    ∧ marshalLength
        (len (Sequence :: paramLen
              ++ usm_block secParams (auth_slot packet)
                   (OctetString :: privlen ++ priv_sent packet secParams))) = Ok spl
    ∧ marshalSnmpV3ScopedPDU σ packet pdus requestid = Ok scoped
    ∧ buf' = buf ++ Sequence :: uint8 (len header) :: header ++ OctetString :: spl
             ++ (Sequence :: paramLen
                 ++ usm_block secParams (auth_slot packet)
                      (OctetString :: privlen ++ priv_sent packet secParams))
             ++ scoped
    ∧ off = uint32 (uint32 (uint32 (len (usm_fields secParams) + 2)
                            + uint32 (len (Sequence :: paramLen)))
                    + uint32 (len (buf ++ Sequence :: uint8 (len header) :: header
                                   ++ OctetString :: spl))).
Proof.
  intros Hm Hsp Hl Hprep. unfold prepV3pPDU in Hprep.
  inv_bind Hprep. rewrite Hm, Z.eqb_refl in Hprep.
  inv_bind Hprep. destruct a0 as [securityParameters authParamStart].
  inv_bind Hprep. inv_bind Hprep. apply Ok_inj in Hprep. injection Hprep as Hb Ho.
  destruct (marshalSnmpV3UsmSecurityParameters_layout _ _ _ _ _ _ Hsp Hl Hstep0)
    as (paramLen & privlen & Hprivlen & HparamLen & Hout & Hoff).
  exists a, a0, paramLen, privlen, a1. rewrite <- Hout.
  split; [exact Hstep|]. split; [exact Hprivlen|]. split; [exact HparamLen|].
  split; [exact Hstep1|]. split; [exact Hstep2|].
  split; [rewrite <- Hb; list_eq|].
  rewrite <- Ho, Hoff. f_equal. f_equal. f_equal. f_equal. list_eq.
Qed.
(** The message up to the security parameters, the response after the
    header has been read, and the receiver's user after the security
    parameters have been read. *)
Definition message_front (hdr buf header spl : bytes) : bytes :=
  hdr ++ buf ++ Sequence :: uint8 (len header) :: header ++ OctetString :: spl.

Definition header_read (packet : SnmpPacket) (msgid : Z) (response : SnmpPacket) : SnmpPacket :=
  set_SecurityModel (uint8 (SecurityModel packet))
    (set_MsgFlags (uint8 (MsgFlags packet)) (set_MsgID (uint32 msgid) response)).

Definition fields_read (u : UsmSecurityParameters) (auth : bytes)
    (recv : UsmSecurityParameters) : UsmSecurityParameters :=
  set_AuthenticationParameters auth
    (set_UserName (UserName u)
       (set_AuthoritativeEngineTime (AuthoritativeEngineTime u)
          (set_AuthoritativeEngineBoots (AuthoritativeEngineBoots u)
             (set_AuthoritativeEngineID (AuthoritativeEngineID u) recv)))).

(** The parser on a message of the builder, up to the authenticity
    check; [auth] is what stands in the authentication parameters. *)
Lemma extractV3Packet_usm_run (hdr buf header spl paramLen auth priv scoped spare : bytes)
    packet msgid u σr x response rl recv orig :
  marshalSnmpV3Header packet msgid = Ok header →
  SecurityModel packet = UserSecurityModel →
  marshalLength (len (usm_block u auth priv)) = Ok paramLen →
  marshalLength (len (Sequence :: paramLen ++ usm_block u auth priv)) = Ok spl →
  len (AuthoritativeEngineID u) < 128 →
  len (UserName u) < 128 →
  0 ≤ AuthoritativeEngineBoots u < 2 ^ 32 →
  0 ≤ AuthoritativeEngineTime u < 2 ^ 32 →
  len auth < 128 →
  SecurityParameters response = UsmPointer (Some rl) →
  σr !! rl = Some recv →
  let front := message_front hdr buf header spl ++ Sequence :: paramLen in
  let msg := over (front ++ usm_block u auth priv ++ scoped) spare in
  let r1 := header_read packet msgid response in
  extractV3Packet σr x msg (len (hdr ++ buf)) response orig
  = (packet1 ← extractV3Packet_auth msg (len (front ++ usm_fields u)) (2 + len auth) r1
                                    (fields_read u auth recv) orig;
     '(c2, secParameters) ←
       extractV3Packet_privacy packet1 (len (front ++ usm_fields u) + (2 + len auth))
                               (fields_read u auth recv);
     '(r2, packet2, c3) ← extractV3Packet_scoped (<[rl := secParameters]> σr) packet1 c2 r1;
     Ok (<[rl := secParameters]> σr, r2, packet2, c3)).
Proof.
  intros Hheader Hm HparamLen Hspl Heid Huser Hboots Htime Hauth Hrsp Hrl front msg r1.
  destruct (extractV3Packet_header_run packet msgid header spl
              (Sequence :: paramLen ++ usm_block u auth priv) scoped (hdr ++ buf) spare
              response Hheader Hspl) as [Hhl Hh].
  assert (Hmsg : msg
            = over ((hdr ++ buf) ++ Sequence :: uint8 (len header) :: header
                    ++ OctetString :: spl
                    ++ (Sequence :: paramLen ++ usm_block u auth priv) ++ scoped) spare).
  { unfold msg, front, message_front. f_equal. list_eq. }
  rewrite <- Hmsg in Hh.
  assert (Hfields :
            extractV3Packet_fields msg (len (hdr ++ buf) + 2 + len header + 1 + len spl) recv
            = Ok (len (front ++ usm_fields u), 2 + len auth, fields_read u auth recv)).
  { replace (len (hdr ++ buf) + 2 + len header + 1 + len spl)
      with (len (message_front hdr buf header spl)) by (unfold message_front; lens).
    replace msg
      with (over (message_front hdr buf header spl ++ Sequence :: paramLen
                  ++ usm_block u auth priv ++ scoped) spare)
      by (unfold msg, front; f_equal; list_eq).
    rewrite (extractV3Packet_fields_run (message_front hdr buf header spl) paramLen
               auth priv scoped spare u recv HparamLen Heid Huser Hboots Htime Hauth).
    unfold front, fields_read. f_equal. f_equal. f_equal. f_equal. list_eq. }
  apply (extractV3Packet_to_check σr x msg (len (hdr ++ buf)) response orig _ r1 rl recv
           _ _ _ Hh).
  - unfold r1, header_read. cbn [SecurityModel set_SecurityModel]. rewrite Hm. reflexivity.
  - exact Hrsp.
  - exact Hrl.
  - exact Hfields.
Qed.
Lemma marshalSnmpV3ScopedPDU_clear σ packet pdus requestid :
  Z.land (MsgFlags packet) AuthPriv ≤ AuthNoPriv →
  marshalSnmpV3ScopedPDU σ packet pdus requestid = plainScopedPDU packet pdus requestid.
Proof.
  intros Hf. unfold marshalSnmpV3ScopedPDU.
  destruct (plainScopedPDU packet pdus requestid) as [plain| |]; [|reflexivity..].
  cbn [mbind outcome_bind].
  replace (Z.land (MsgFlags packet) AuthPriv >? AuthNoPriv) with false; [reflexivity|].
  symmetry. rewrite Z.gtb_ltb. apply Z.ltb_ge. exact Hf.
Qed.

(** The message of a packet without privacy, as [prepV3pPDU] lays it
    out. *)
Lemma prepV3pPDU_clear_layout σ packet msgid buf pdus requestid buf' off l u (hdr : bytes) :
  SecurityModel packet = UserSecurityModel →
  SecurityParameters packet = UsmPointer (Some l) →
  σ !! l = Some u →
  Z.land (MsgFlags packet) AuthPriv ≤ AuthNoPriv →
  prepV3pPDU σ packet msgid buf pdus requestid = Ok (buf', off) →
  len (hdr ++ buf') < 2 ^ 32 →
  ∃ header spl paramLen plain,
    let priv := OctetString :: [0] ++ [] in
    let front := message_front hdr buf header spl ++ Sequence :: paramLen in
    marshalSnmpV3Header packet msgid = Ok header
    ∧ marshalLength (len (usm_block u (auth_slot packet) priv)) = Ok paramLen
    ∧ marshalLength (len (Sequence :: paramLen ++ usm_block u (auth_slot packet) priv))
      = Ok spl
    ∧ plainScopedPDU packet pdus requestid = Ok plain
    ∧ hdr ++ buf' = front ++ usm_block u (auth_slot packet) priv ++ plain
    ∧ uint32 (off + uint32 (len hdr)) = len (front ++ usm_fields u) + 2.
Proof.
  intros Hm Hsp Hl Hnp Hprep Hsz.
  destruct (prepV3pPDU_layout _ _ _ _ _ _ _ _ _ _ Hm Hsp Hl Hprep)
    as (header & spl & paramLen & privlen & scoped & Hheader & Hprivlen & HparamLen
        & Hspl & Hscoped & Hbuf & Hoff).
  assert (Hpriv : priv_sent packet u = []).
  { unfold priv_sent.
    replace (Z.land (MsgFlags packet) AuthPriv >? AuthNoPriv) with false; [reflexivity|].
    symmetry. rewrite Z.gtb_ltb. apply Z.ltb_ge. exact Hnp. }
  rewrite Hpriv in *.
  assert (Hzero : privlen = [0]).
  { pose proof (marshalLength_short 0 ltac:(lia)) as H0.
    change (len (@nil Z)) with 0 in Hprivlen. congruence. }
  subst privlen.
  rewrite marshalSnmpV3ScopedPDU_clear in Hscoped by exact Hnp.
  exists header, spl, paramLen, scoped. cbv zeta.
  split; [exact Hheader|]. split; [exact HparamLen|]. split; [exact Hspl|].
  split; [exact Hscoped|].
  assert (Hmsg : hdr ++ buf'
                 = (message_front hdr buf header spl ++ Sequence :: paramLen)
                   ++ usm_block u (auth_slot packet) (OctetString :: [0] ++ []) ++ scoped).
  { rewrite Hbuf. unfold message_front. list_eq. }
  split; [exact Hmsg|].
  rewrite Hmsg in Hsz. rewrite Hoff.
  unfold message_front, usm_block in Hsz |- *.
  repeat (progress (rewrite ?len_app, ?len_cons in Hsz)).
  repeat (progress (rewrite ?len_app, ?len_cons)).
  pose proof (len_nonneg hdr). pose proof (len_nonneg buf). pose proof (len_nonneg header).
  pose proof (len_nonneg spl). pose proof (len_nonneg paramLen).
  pose proof (len_nonneg (usm_fields u)). pose proof (len_nonneg (auth_slot packet)).
  pose proof (len_nonneg scoped). pose proof (len_nonneg (@nil Z)).
  rewrite (uint32_small (len (usm_fields u) + 2)) by lia.
  rewrite (uint32_small (1 + len paramLen)) by lia.
  rewrite (uint32_small (len (usm_fields u) + 2 + (1 + len paramLen))) by lia.
  rewrite (uint32_small (len buf + (1 + (1 + (len header + (1 + len spl)))))) by lia.
  rewrite (uint32_small (len hdr)) by lia.
  rewrite (uint32_small
             (len (usm_fields u) + 2 + (1 + len paramLen)
              + (len buf + (1 + (1 + (len header + (1 + len spl))))))) by lia.
  rewrite uint32_small by lia. lia.
Qed.
(** X16.  A message without authentication and privacy, as [prepV3pPDU]
    writes it behind any bytes [buf] and under any outer header [hdr], is
    parsed by [extractV3Packet] from the end of [buf] on, whatever engine
    id is handed in and whatever flags the response and keys the receiver's
    user held before (the security level is the one the message states):
    the response gets the message id, the flags, the
    security model and the context engine id and name of the sender, the
    receiver's user gets the engine id, boots and time and the user name
    of the sender and empty authentication and privacy parameters and
    keeps its protocols, passphrases and salt counters, the packet comes
    back as it was, and the cursor stands at the PDU data.  The engine id
    and the user name have to be shorter than 128 bytes, the builder
    giving their length one byte. *)
Theorem unauthenticated_roundtrip σ packet msgid buf pdus requestid buf' off l u
    (hdr spare : bytes) σr x response rl recv orig :
  SecurityModel packet = UserSecurityModel →
  SecurityParameters packet = UsmPointer (Some l) →
  σ !! l = Some u →
  Z.land (MsgFlags packet) AuthPriv = NoAuthNoPriv →
  len (AuthoritativeEngineID u) < 128 →
  len (UserName u) < 128 →
  0 ≤ AuthoritativeEngineBoots u < 2 ^ 32 →
  0 ≤ AuthoritativeEngineTime u < 2 ^ 32 →
  prepV3pPDU σ packet msgid buf pdus requestid = Ok (buf', off) →
  len (hdr ++ buf') < 2 ^ 32 →
  SecurityParameters response = UsmPointer (Some rl) →
  σr !! rl = Some recv →
  ∃ data cursor',
    marshalPDU packet pdus requestid = Ok data
    ∧ extractV3Packet σr x (over (hdr ++ buf') spare) (len (hdr ++ buf)) response orig
      = Ok (<[rl := set_PrivacyParameters [] (fields_read u [] recv)]> σr,
            set_ContextName (ContextName packet)
              (set_ContextEngineID (ContextEngineID packet)
                 (header_read packet msgid response)),
            over (hdr ++ buf') spare, cursor')
    ∧ drop (Z.to_nat cursor') (hdr ++ buf') = data.
Proof.
  intros Hm Hsp Hl Hlevel Heid Huser Hboots Htime Hprep Hsz Hrsp Hrl.
  assert (Hnp : Z.land (MsgFlags packet) AuthPriv ≤ AuthNoPriv)
    by (rewrite Hlevel; unfold NoAuthNoPriv, AuthNoPriv; lia).
  assert (Hna : Z.land (MsgFlags packet) AuthNoPriv = 0).
  { rewrite <- land_level_auth, Hlevel. reflexivity. }
  destruct (prepV3pPDU_clear_layout _ _ _ _ _ _ _ _ _ _ hdr Hm Hsp Hl Hnp Hprep Hsz)
    as (header & spl & paramLen & plain & Hheader & HparamLen & Hspl & Hplain & Hmsg & _).
  cbv zeta in *.
  assert (Hslot : auth_slot packet = []).
  { unfold auth_slot. rewrite Hna. reflexivity. }
  rewrite Hslot in *.
  set (priv := OctetString :: [0] ++ []) in *.
  set (front := message_front hdr buf header spl ++ Sequence :: paramLen) in *.
  destruct (extractV3Packet_scoped_clear (<[rl := set_PrivacyParameters [] (fields_read u [] recv)]> σr)
              packet pdus requestid plain (front ++ usm_block u [] priv) [] spare
              (header_read packet msgid response) Hplain)
    as (data & cursor' & Hdata & Hscoped & Hdrop).
  exists data, cursor'. split; [exact Hdata|].
  rewrite Hmsg.
  split; [|rewrite <- app_assoc in Hdrop; exact Hdrop].
  assert (Hempty : len (@nil Z) < 128) by (unfold len; cbn [length]; lia).
  pose proof (extractV3Packet_usm_run hdr buf header spl paramLen [] priv plain spare
                packet msgid u σr x response rl recv orig
                Hheader Hm HparamLen Hspl Heid Huser Hboots Htime Hempty Hrsp Hrl) as Hrun.
  cbv zeta in Hrun. fold front in Hrun. rewrite Hrun. clear Hrun.
  unfold extractV3Packet_auth.
  replace (Z.land (MsgFlags (header_read packet msgid response)) AuthNoPriv >? 0) with false.
  2:{ unfold header_read. cbn [MsgFlags set_SecurityModel set_MsgFlags].
      rewrite land_uint8_auth, Hna. reflexivity. }
  cbn [mbind outcome_bind].
  replace (over (front ++ usm_block u [] priv ++ plain) spare)
    with (over ((front ++ usm_fields u ++ [OctetString; 0])
                ++ OctetString :: [0] ++ [] ++ plain) spare)
    by (unfold usm_block, priv; change (len (@nil Z)) with 0; rewrite ?app_nil_r;
        f_equal; list_eq).
  replace (len (front ++ usm_fields u) + (2 + len (@nil Z)))
    with (len (front ++ usm_fields u ++ [OctetString; 0])) by lens.
  rewrite (extractV3Packet_privacy_run (front ++ usm_fields u ++ [OctetString; 0]) [0] []
             plain spare (fields_read u [] recv)).
  2:{ apply (marshalLength_short 0). lia. }
  cbn [mbind outcome_bind].
  replace (over ((front ++ usm_fields u ++ [OctetString; 0])
                 ++ OctetString :: [0] ++ [] ++ plain) spare)
    with (over ((front ++ usm_block u [] priv) ++ plain ++ []) spare)
    by (unfold usm_block, priv; change (len (@nil Z)) with 0; rewrite ?app_nil_r;
        f_equal; list_eq).
  replace (len (front ++ usm_fields u ++ [OctetString; 0]) + (1 + len [0] + len (@nil Z)))
    with (len (front ++ usm_block u [] priv)) by (unfold usm_block, priv; lens).
  rewrite Hscoped. cbn [mbind outcome_bind].
  f_equal. f_equal. f_equal. rewrite app_nil_r. list_eq.
Qed.
(** X17.  A message with authentication and without privacy, built by
    [prepV3pPDU] and signed by [authenticate], is accepted by
    [extractV3Packet] on a receiver whose user has the sender's
    authentication protocol and passphrase, when the sender's engine id
    is handed in: the parse returns no error, the response gets the
    message id, the flags, the security model and the context of the
    sender, the receiver's user gets the engine id, boots and time, the
    user name and the twelve bytes of the tag, and the packet that comes
    back is the message with the twelve bytes set to zero again. *)
Theorem authenticated_roundtrip σ packet msgid buf pdus requestid buf' off l u
    (hdr spare : bytes) σr x response rl recv :
  Version packet = Version3 →
  SecurityModel packet = UserSecurityModel →
  SecurityParameters packet = UsmPointer (Some l) →
  σ !! l = Some u →
  Z.land (MsgFlags packet) AuthPriv = AuthNoPriv →
  AuthenticationPassphrase u ≠ [] →
  len (AuthoritativeEngineID u) < 128 →
  len (UserName u) < 128 →
  0 ≤ AuthoritativeEngineBoots u < 2 ^ 32 →
  0 ≤ AuthoritativeEngineTime u < 2 ^ 32 →
  prepV3pPDU σ packet msgid buf pdus requestid = Ok (buf', off) →
  len (hdr ++ buf') < 2 ^ 32 →
  SecurityParameters response = UsmPointer (Some rl) →
  σr !! rl = Some recv →
  AuthenticationProtocol recv = AuthenticationProtocol u →
  AuthenticationPassphrase recv = AuthenticationPassphrase u →
  let tag := take 12 (keyed_digest (AuthenticationProtocol u)
                        (localized_key (alg_of (AuthenticationProtocol u))
                           (AuthenticationPassphrase u) (AuthoritativeEngineID u))
                        (hdr ++ buf')) in
  ∃ signed data cursor',
    authenticate σ packet (over (hdr ++ buf') spare) (uint32 (off + uint32 (len hdr)))
    = (Some signed, None)
    ∧ marshalPDU packet pdus requestid = Ok data
    ∧ extractV3Packet σr x signed (len (hdr ++ buf)) response (AuthoritativeEngineID u)
      = Ok (<[rl := set_PrivacyParameters [] (fields_read u tag recv)]> σr,
            set_ContextName (ContextName packet)
              (set_ContextEngineID (ContextEngineID packet)
                 (header_read packet msgid response)),
            over (hdr ++ buf') spare, cursor')
    ∧ drop (Z.to_nat cursor') (hdr ++ buf') = data.
Proof.
  intros Hv Hm Hsp Hl Hlevel Hp Heid Huser Hboots Htime Hprep Hsz Hrsp Hrl Hproto Hpass tag.
  assert (Hnp : Z.land (MsgFlags packet) AuthPriv ≤ AuthNoPriv) by (rewrite Hlevel; lia).
  assert (Hna : Z.land (MsgFlags packet) AuthNoPriv = 1).
  { rewrite <- land_level_auth, Hlevel. reflexivity. }
  assert (Hf : Z.land (MsgFlags packet) AuthNoPriv ≠ 0) by (rewrite Hna; discriminate).
  destruct (prepV3pPDU_clear_layout _ _ _ _ _ _ _ _ _ _ hdr Hm Hsp Hl Hnp Hprep Hsz)
    as (header & spl & paramLen & plain & Hheader & HparamLen & Hspl & Hplain & Hmsg
        & Hstart).
  cbv zeta in *.
  assert (Hslot : auth_slot packet = zeros 12).
  { unfold auth_slot. rewrite Hna. reflexivity. }
  rewrite Hslot in *.
  set (priv := OctetString :: [0] ++ []) in *.
  set (front := message_front hdr buf header spl ++ Sequence :: paramLen) in *.
  assert (Htag : length tag = 12%nat) by apply tag_length.
  assert (Hlentag : len tag = 12) by (unfold len; rewrite Htag; reflexivity).
  assert (Hzeros : len (zeros 12) = 12) by reflexivity.
  (* the two messages *)
  set (pre := front ++ usm_fields u ++ [OctetString; 12]).
  set (post := priv ++ plain).
  assert (Hclear : hdr ++ buf' = pre ++ zeros 12 ++ post).
  { rewrite Hmsg. unfold pre, post, usm_block. rewrite Hzeros. list_eq. }
  assert (Hsigned : front ++ usm_block u tag priv ++ plain = pre ++ tag ++ post).
  { unfold pre, post, usm_block. rewrite Hlentag. list_eq. }
  assert (Hpre : len (front ++ usm_fields u) + 2 = len pre) by (unfold pre; lens).
  exists (over (pre ++ tag ++ post) spare).
  destruct (extractV3Packet_scoped_clear
              (<[rl := set_PrivacyParameters [] (fields_read u tag recv)]> σr)
              packet pdus requestid plain (front ++ usm_block u (zeros 12) priv) [] spare
              (header_read packet msgid response) Hplain)
    as (data & cursor' & Hdata & Hscoped & Hdrop).
  exists data, cursor'.
  split; [|split; [exact Hdata|split]].
  - (* authenticate *)
    unfold authenticate.
    rewrite (authenticate_body_usm σ packet _ _ l u Hv Hf Hm Hsp Hl Hp).
    rewrite s_bytes_over. fold tag. rewrite Hstart, Hpre.
    rewrite Hclear in Hsz |- *.
    rewrite uint32_small.
    2:{ revert Hsz. rewrite !len_app, Hzeros.
        pose proof (len_nonneg pre). pose proof (len_nonneg post). lia. }
    rewrite (slice_copy_over pre (zeros 12) post spare tag (len pre) (len pre + 12)).
    + reflexivity.
    + reflexivity.
    + rewrite Hzeros. reflexivity.
    + rewrite Htag. reflexivity.
  - (* extractV3Packet *)
    rewrite <- Hsigned.
    assert (HparamLen' : marshalLength (len (usm_block u tag priv)) = Ok paramLen).
    { replace (len (usm_block u tag priv)) with (len (usm_block u (zeros 12) priv));
        [exact HparamLen|].
      unfold usm_block. rewrite !len_app, !len_cons, !len_app, Hlentag, Hzeros. reflexivity. }
    assert (Hspl' : marshalLength (len (Sequence :: paramLen ++ usm_block u tag priv))
                    = Ok spl).
    { replace (len (Sequence :: paramLen ++ usm_block u tag priv))
        with (len (Sequence :: paramLen ++ usm_block u (zeros 12) priv)); [exact Hspl|].
      unfold usm_block.
      rewrite !len_cons, !len_app, !len_cons, !len_app, Hlentag, Hzeros. reflexivity. }
    assert (Hshort : len tag < 128) by lia.
    pose proof (extractV3Packet_usm_run hdr buf header spl paramLen tag priv plain spare
                  packet msgid u σr x response rl recv (AuthoritativeEngineID u)
                  Hheader Hm HparamLen' Hspl' Heid Huser Hboots Htime Hshort Hrsp Hrl)
      as Hrun.
    cbv zeta in Hrun. fold front in Hrun. rewrite Hrun. clear Hrun.
    unfold extractV3Packet_auth.
    replace (Z.land (MsgFlags (header_read packet msgid response)) AuthNoPriv >? 0)
      with true.
    2:{ unfold header_read. cbn [MsgFlags set_SecurityModel set_MsgFlags].
        rewrite land_uint8_auth, Hna. reflexivity. }
    rewrite Hlentag. change (2 + 12) with 14. change (14 =? 14) with true. cbn [negb].
    rewrite Hsigned.
    rewrite (slice_copy_over pre tag post spare (zeros 12)
               (len (front ++ usm_fields u) + 2) (len (front ++ usm_fields u) + 14)).
    2:{ exact Hpre. }
    2:{ rewrite <- Hpre, Hlentag. lia. }
    2:{ rewrite Htag. reflexivity. }
    cbn [mbind outcome_bind]. rewrite s_bytes_over.
    replace (AuthenticationParameters (fields_read u tag recv)) with tag by reflexivity.
    replace (AuthenticationProtocol (fields_read u tag recv))
      with (AuthenticationProtocol u) by (symmetry; exact Hproto).
    replace (AuthenticationPassphrase (fields_read u tag recv))
      with (AuthenticationPassphrase u) by (symmetry; exact Hpass).
    rewrite isAuthentic_spec by (try exact Hp; rewrite Htag; lia).
    rewrite <- Hclear. fold tag.
    rewrite bool_decide_true by (rewrite Htag; symmetry; apply take_ge; rewrite Htag; lia).
    cbn [negb mbind outcome_bind].
    (* msgPrivacyParameters *)
    rewrite Hmsg.
    replace (over (front ++ usm_block u (zeros 12) priv ++ plain) spare)
      with (over ((pre ++ zeros 12) ++ OctetString :: [0] ++ [] ++ plain) spare)
      by (unfold pre, usm_block, priv; rewrite Hzeros; f_equal; list_eq).
    replace (len (front ++ usm_fields u) + 14) with (len (pre ++ zeros 12))
      by (rewrite len_app, Hzeros, <- Hpre; lia).
    rewrite (extractV3Packet_privacy_run (pre ++ zeros 12) [0] [] plain spare
               (fields_read u tag recv)).
    2:{ apply (marshalLength_short 0). lia. }
    cbn [mbind outcome_bind].
    replace (over ((pre ++ zeros 12) ++ OctetString :: [0] ++ [] ++ plain) spare)
      with (over ((front ++ usm_block u (zeros 12) priv) ++ plain ++ []) spare)
      by (unfold pre, usm_block, priv; rewrite Hzeros, ?app_nil_r; f_equal; list_eq).
    replace (len (pre ++ zeros 12) + (1 + len [0] + len (@nil Z)))
      with (len (front ++ usm_block u (zeros 12) priv))
      by (unfold pre, usm_block, priv; rewrite Hzeros; lens).
    rewrite Hscoped. cbn [mbind outcome_bind].
    f_equal. f_equal. f_equal. rewrite app_nil_r. list_eq.
  - rewrite Hmsg. rewrite <- app_assoc in Hdrop. exact Hdrop.
Qed.
End RoundTrip.

Lemma header_roundtrip_witness :
  ∃ header,
    @marshalSnmpV3Header Std.codec packet_auth 1 = Ok header
    ∧ @extractV3Packet_header Std.codec
        (over ([48; 130] ++ Sequence :: uint8 (len header) :: header
               ++ OctetString :: [2] ++ [5; 0] ++ [7]) [])
        (len [48; 130]) packet_noauth
      = Ok (len [48; 130] + 2 + len header + 1 + len [2],
            set_SecurityModel (uint8 (SecurityModel packet_auth))
              (set_MsgFlags (uint8 (MsgFlags packet_auth))
                 (set_MsgID (uint32 1) packet_noauth))).
Proof.
  destruct (@marshalSnmpV3Header Std.codec packet_auth 1) as [header| |] eqn:Hh;
    [|discriminate Hh..].
  exists header. split; [reflexivity|].
  apply (header_roundtrip (BC := Std.codec) (BL := std_codec_laws) (IL := std_integer_laws)
           packet_auth 1 header [2] [5; 0] [7] [48; 130] [] packet_noauth Hh eq_refl).
Defined.

Lemma unauthenticated_roundtrip_witness :
  ∃ buf' off,
    @prepV3pPDU Std.codec Std.pdus Std.ciphers store_auth packet_noauth 1 version_field [] 1
    = Ok (buf', off)
    ∧ is_ok (@extractV3Packet Std.codec Std.ciphers store_nopass conn_auth
               (over ([48; 130] ++ buf') []) (len ([48; 130] ++ version_field))
               packet_noauth maplesyrup) = true.
Proof.
  destruct (@prepV3pPDU Std.codec Std.pdus Std.ciphers store_auth packet_noauth 1
              version_field [] 1) as [[buf' off]| |] eqn:Hprep;
    [|vm_compute in Hprep; discriminate..].
  exists buf', off. split; [reflexivity|].
  assert (Hsz : len ([48; 130] ++ buf') < 2 ^ 32).
  { vm_compute in Hprep. injection Hprep as <- <-. vm_compute. reflexivity. }
  assert (Heid : len (AuthoritativeEngineID usm_auth) < 128) by (vm_compute; reflexivity).
  assert (Huser : len (UserName usm_auth) < 128) by (vm_compute; reflexivity).
  assert (Hboots : 0 ≤ AuthoritativeEngineBoots usm_auth < 2 ^ 32)
    by (vm_compute; split; [discriminate|reflexivity]).
  assert (Htime : 0 ≤ AuthoritativeEngineTime usm_auth < 2 ^ 32)
    by (vm_compute; split; [discriminate|reflexivity]).
  destruct (unauthenticated_roundtrip (BC := Std.codec) (PC := Std.pdus) (CI := Std.ciphers)
              (BL := std_codec_laws) (IL := std_integer_laws)
              store_auth packet_noauth 1 version_field [] 1 buf' off 1%positive usm_auth
              [48; 130] [] store_nopass conn_auth packet_noauth 1%positive usm_nopass
              maplesyrup
              eq_refl eq_refl eq_refl eq_refl Heid Huser Hboots Htime Hprep Hsz
              eq_refl eq_refl)
    as (data & cursor' & _ & Hparse & _).
  rewrite Hparse. reflexivity.
Defined.

Lemma authenticated_roundtrip_witness :
  ∃ buf' off signed,
    @prepV3pPDU Std.codec Std.pdus Std.ciphers store_auth packet_auth 1 version_field [] 1
    = Ok (buf', off)
    ∧ authenticate store_auth packet_auth (over ([48; 130] ++ buf') [])
                   (uint32 (off + uint32 (len [48; 130])))
      = (Some signed, None)
    ∧ is_ok (@extractV3Packet Std.codec Std.ciphers store_auth conn_auth signed
               (len ([48; 130] ++ version_field)) packet_noauth
               (AuthoritativeEngineID usm_auth)) = true.
Proof.
  destruct (@prepV3pPDU Std.codec Std.pdus Std.ciphers store_auth packet_auth 1
              version_field [] 1) as [[buf' off]| |] eqn:Hprep;
    [|vm_compute in Hprep; discriminate..].
  exists buf', off.
  assert (Hsz : len ([48; 130] ++ buf') < 2 ^ 32).
  { vm_compute in Hprep. injection Hprep as <- <-. vm_compute. reflexivity. }
  assert (Hp : AuthenticationPassphrase usm_auth ≠ []) by (cbv; discriminate).
  assert (Heid : len (AuthoritativeEngineID usm_auth) < 128) by (vm_compute; reflexivity).
  assert (Huser : len (UserName usm_auth) < 128) by (vm_compute; reflexivity).
  assert (Hboots : 0 ≤ AuthoritativeEngineBoots usm_auth < 2 ^ 32)
    by (vm_compute; split; [discriminate|reflexivity]).
  assert (Htime : 0 ≤ AuthoritativeEngineTime usm_auth < 2 ^ 32)
    by (vm_compute; split; [discriminate|reflexivity]).
  destruct (authenticated_roundtrip (BC := Std.codec) (PC := Std.pdus) (CI := Std.ciphers)
              (BL := std_codec_laws) (IL := std_integer_laws)
              store_auth packet_auth 1 version_field [] 1 buf' off 1%positive usm_auth
              [48; 130] [] store_auth conn_auth packet_noauth 1%positive usm_auth
              eq_refl eq_refl eq_refl eq_refl eq_refl Hp Heid Huser Hboots Htime Hprep Hsz
              eq_refl eq_refl eq_refl eq_refl)
    as (signed & data & cursor' & Hauth & _ & Hparse & _).
  exists signed. split; [reflexivity|]. split; [exact Hauth|].
  rewrite Hparse. reflexivity.
Defined.

(** ** Signed messages, with or without privacy *)

(** What the privacy of a scoped PDU depends on. *)
Definition privacy_view (u : UsmSecurityParameters) :=
  (AuthenticationProtocol u, PrivacyProtocol u, PrivacyPassphrase u,
   AuthoritativeEngineID u, AuthoritativeEngineBoots u, AuthoritativeEngineTime u,
   PrivacyParameters u).

Section PrivateRoundTrip.
Context `{BC : BerCodec} `{PC : PduCodec} `{CI : BlockCiphers}.
Context `{BL : !BerCodecLaws} `{IL : !BerIntegerLaws} `{CL : !BlockCipherLaws}.

Lemma privacy_view_ciphertext a b plain :
  privacy_view a = privacy_view b →
  des_ciphertext a plain = des_ciphertext b plain
  ∧ aes_ciphertext a plain = aes_ciphertext b plain.
Proof.
  unfold privacy_view. intros Hview. injection Hview as H1 H2 H3 H4 H5 H6 H7.
  unfold des_ciphertext, aes_ciphertext, des_key, des_iv_of, privacy_key, aes_iv.
  rewrite H1, H3, H4, H5, H6, H7. split; reflexivity.
Qed.

(** The message of a USM packet as [prepV3pPDU] lays it out, and the
    offset it reports, moved by the length of an outer header. *)
Lemma prepV3pPDU_message_layout σ packet msgid buf pdus requestid buf' off l u (hdr : bytes) :
  SecurityModel packet = UserSecurityModel →
  SecurityParameters packet = UsmPointer (Some l) →
  σ !! l = Some u →
  prepV3pPDU σ packet msgid buf pdus requestid = Ok (buf', off) →
  len (hdr ++ buf') < 2 ^ 32 →
  ∃ header spl paramLen privlen scoped,
    let priv := OctetString :: privlen ++ priv_sent packet u in
    let front := message_front hdr buf header spl ++ Sequence :: paramLen in
    marshalSnmpV3Header packet msgid = Ok header
    ∧ marshalLength (len (priv_sent packet u)) = Ok privlen
    ∧ marshalLength (len (usm_block u (auth_slot packet) priv)) = Ok paramLen
    ∧ marshalLength (len (Sequence :: paramLen ++ usm_block u (auth_slot packet) priv))
      = Ok spl
    ∧ marshalSnmpV3ScopedPDU σ packet pdus requestid = Ok scoped
    ∧ hdr ++ buf' = front ++ usm_block u (auth_slot packet) priv ++ scoped
    ∧ uint32 (off + uint32 (len hdr)) = len (front ++ usm_fields u) + 2.
Proof.
  intros Hm Hsp Hl Hprep Hsz.
  destruct (prepV3pPDU_layout _ _ _ _ _ _ _ _ _ _ Hm Hsp Hl Hprep)
    as (header & spl & paramLen & privlen & scoped & Hheader & Hprivlen & HparamLen
        & Hspl & Hscoped & Hbuf & Hoff).
  exists header, spl, paramLen, privlen, scoped. cbv zeta.
  split; [exact Hheader|]. split; [exact Hprivlen|]. split; [exact HparamLen|].
  split; [exact Hspl|]. split; [exact Hscoped|].
  assert (Hmsg : hdr ++ buf'
                 = (message_front hdr buf header spl ++ Sequence :: paramLen)
                   ++ usm_block u (auth_slot packet)
                        (OctetString :: privlen ++ priv_sent packet u) ++ scoped).
  { rewrite Hbuf. unfold message_front. list_eq. }
  split; [exact Hmsg|].
  rewrite Hmsg in Hsz. rewrite Hoff.
  unfold message_front, usm_block in Hsz |- *.
  repeat (progress (rewrite ?len_app, ?len_cons in Hsz)).
  repeat (progress (rewrite ?len_app, ?len_cons)).
  pose proof (len_nonneg hdr). pose proof (len_nonneg buf). pose proof (len_nonneg header).
  pose proof (len_nonneg spl). pose proof (len_nonneg paramLen).
  pose proof (len_nonneg (usm_fields u)). pose proof (len_nonneg (auth_slot packet)).
  pose proof (len_nonneg scoped). pose proof (len_nonneg privlen).
  pose proof (len_nonneg (priv_sent packet u)).
  rewrite (uint32_small (len (usm_fields u) + 2)) by lia.
  rewrite (uint32_small (1 + len paramLen)) by lia.
  rewrite (uint32_small (len (usm_fields u) + 2 + (1 + len paramLen))) by lia.
  rewrite (uint32_small (len buf + (1 + (1 + (len header + (1 + len spl)))))) by lia.
  rewrite (uint32_small (len hdr)) by lia.
  rewrite (uint32_small
             (len (usm_fields u) + 2 + (1 + len paramLen)
              + (len buf + (1 + (1 + (len header + (1 + len spl))))))) by lia.
  rewrite uint32_small by lia. lia.
Qed.

(** A signed message up to its scoped PDU: [authenticate] writes the tag,
    and the parser on a receiver with the sender's authentication
    protocol and passphrase accepts it and goes on to the scoped PDU with
    the zeros back in the packet. *)
Lemma signed_message_run σ packet msgid buf pdus requestid buf' off l u
    (hdr spare : bytes) σr x response rl recv :
  Version packet = Version3 →
  SecurityModel packet = UserSecurityModel →
  SecurityParameters packet = UsmPointer (Some l) →
  σ !! l = Some u →
  Z.land (MsgFlags packet) AuthNoPriv ≠ 0 →
  AuthenticationPassphrase u ≠ [] →
  len (AuthoritativeEngineID u) < 128 →
  len (UserName u) < 128 →
  0 ≤ AuthoritativeEngineBoots u < 2 ^ 32 →
  0 ≤ AuthoritativeEngineTime u < 2 ^ 32 →
  prepV3pPDU σ packet msgid buf pdus requestid = Ok (buf', off) →
  len (hdr ++ buf') < 2 ^ 32 →
  SecurityParameters response = UsmPointer (Some rl) →
  σr !! rl = Some recv →
  AuthenticationProtocol recv = AuthenticationProtocol u →
  AuthenticationPassphrase recv = AuthenticationPassphrase u →
  let tag := take 12 (keyed_digest (AuthenticationProtocol u)
                        (localized_key (alg_of (AuthenticationProtocol u))
                           (AuthenticationPassphrase u) (AuthoritativeEngineID u))
                        (hdr ++ buf')) in
  let recv' := set_PrivacyParameters (priv_sent packet u) (fields_read u tag recv) in
  ∃ (prefix scoped : bytes) signed,
    marshalSnmpV3ScopedPDU σ packet pdus requestid = Ok scoped
    ∧ hdr ++ buf' = prefix ++ scoped
    ∧ authenticate σ packet (over (hdr ++ buf') spare) (uint32 (off + uint32 (len hdr)))
      = (Some signed, None)
    ∧ extractV3Packet σr x signed (len (hdr ++ buf)) response (AuthoritativeEngineID u)
      = ('(r2, packet2, c3) ←
           extractV3Packet_scoped (<[rl := recv']> σr) (over (prefix ++ scoped) spare)
                                  (len prefix) (header_read packet msgid response);
         Ok (<[rl := recv']> σr, r2, packet2, c3)).
Proof.
  intros Hv Hm Hsp Hl Hf Hp Heid Huser Hboots Htime Hprep Hsz Hrsp Hrl Hproto Hpass tag recv'.
  destruct (prepV3pPDU_message_layout _ _ _ _ _ _ _ _ _ _ hdr Hm Hsp Hl Hprep Hsz)
    as (header & spl & paramLen & privlen & scoped & Hheader & Hprivlen & HparamLen & Hspl
        & Hscoped & Hmsg & Hstart).
  cbv zeta in *.
  assert (Hslot : auth_slot packet = zeros 12).
  { unfold auth_slot. rewrite (land1_pos _ Hf). reflexivity. }
  rewrite Hslot in *.
  set (sent := priv_sent packet u) in *.
  set (priv := OctetString :: privlen ++ sent) in *.
  set (front := message_front hdr buf header spl ++ Sequence :: paramLen) in *.
  assert (Htag : length tag = 12%nat) by apply tag_length.
  assert (Hlentag : len tag = 12) by (unfold len; rewrite Htag; reflexivity).
  assert (Hzeros : len (zeros 12) = 12) by reflexivity.
  set (pre := front ++ usm_fields u ++ [OctetString; 12]).
  set (post := priv ++ scoped).
  assert (Hclear : hdr ++ buf' = pre ++ zeros 12 ++ post).
  { rewrite Hmsg. unfold pre, post, usm_block. rewrite Hzeros. list_eq. }
  assert (Hsigned : front ++ usm_block u tag priv ++ scoped = pre ++ tag ++ post).
  { unfold pre, post, usm_block. rewrite Hlentag. list_eq. }
  assert (Hpre : len (front ++ usm_fields u) + 2 = len pre) by (unfold pre; lens).
  exists (front ++ usm_block u (zeros 12) priv), scoped, (over (pre ++ tag ++ post) spare).
  split; [exact Hscoped|]. split; [rewrite Hmsg; list_eq|]. split.
  - unfold authenticate.
    rewrite (authenticate_body_usm σ packet _ _ l u Hv Hf Hm Hsp Hl Hp).
    rewrite s_bytes_over. fold tag. rewrite Hstart, Hpre.
    rewrite Hclear in Hsz |- *.
    rewrite uint32_small.
    2:{ revert Hsz. rewrite !len_app, Hzeros.
        pose proof (len_nonneg pre). pose proof (len_nonneg post). lia. }
    rewrite (slice_copy_over pre (zeros 12) post spare tag (len pre) (len pre + 12)).
    + reflexivity.
    + reflexivity.
    + rewrite Hzeros. reflexivity.
    + rewrite Htag. reflexivity.
  - rewrite <- Hsigned.
    assert (HparamLen' : marshalLength (len (usm_block u tag priv)) = Ok paramLen).
    { replace (len (usm_block u tag priv)) with (len (usm_block u (zeros 12) priv));
        [exact HparamLen|].
      unfold usm_block. rewrite !len_app, !len_cons, !len_app, Hlentag, Hzeros. reflexivity. }
    assert (Hspl' : marshalLength (len (Sequence :: paramLen ++ usm_block u tag priv))
                    = Ok spl).
    { replace (len (Sequence :: paramLen ++ usm_block u tag priv))
        with (len (Sequence :: paramLen ++ usm_block u (zeros 12) priv)); [exact Hspl|].
      unfold usm_block.
      rewrite !len_cons, !len_app, !len_cons, !len_app, Hlentag, Hzeros. reflexivity. }
    assert (Hshort : len tag < 128) by lia.
    pose proof (extractV3Packet_usm_run hdr buf header spl paramLen tag priv scoped spare
                  packet msgid u σr x response rl recv (AuthoritativeEngineID u)
                  Hheader Hm HparamLen' Hspl' Heid Huser Hboots Htime Hshort Hrsp Hrl)
      as Hrun.
    cbv zeta in Hrun. fold front in Hrun. rewrite Hrun. clear Hrun.
    unfold extractV3Packet_auth.
    replace (Z.land (MsgFlags (header_read packet msgid response)) AuthNoPriv >? 0)
      with true.
    2:{ unfold header_read. cbn [MsgFlags set_SecurityModel set_MsgFlags].
        rewrite land_uint8_auth. symmetry. apply land1_pos. exact Hf. }
    rewrite Hlentag. change (2 + 12) with 14. change (14 =? 14) with true. cbn [negb].
    rewrite Hsigned.
    rewrite (slice_copy_over pre tag post spare (zeros 12)
               (len (front ++ usm_fields u) + 2) (len (front ++ usm_fields u) + 14)).
    2:{ exact Hpre. }
    2:{ rewrite <- Hpre, Hlentag. lia. }
    2:{ rewrite Htag. reflexivity. }
    cbn [mbind outcome_bind]. rewrite s_bytes_over.
    replace (AuthenticationParameters (fields_read u tag recv)) with tag by reflexivity.
    replace (AuthenticationProtocol (fields_read u tag recv))
      with (AuthenticationProtocol u) by (symmetry; exact Hproto).
    replace (AuthenticationPassphrase (fields_read u tag recv))
      with (AuthenticationPassphrase u) by (symmetry; exact Hpass).
    rewrite isAuthentic_spec by (try exact Hp; rewrite Htag; lia).
    rewrite <- Hclear. fold tag.
    rewrite bool_decide_true by (rewrite Htag; symmetry; apply take_ge; rewrite Htag; lia).
    cbn [negb mbind outcome_bind].
    rewrite Hmsg.
    replace (over (front ++ usm_block u (zeros 12) priv ++ scoped) spare)
      with (over ((pre ++ zeros 12) ++ OctetString :: privlen ++ sent ++ scoped) spare)
      by (unfold pre, usm_block, priv; rewrite Hzeros; f_equal; list_eq).
    replace (len (front ++ usm_fields u) + 14) with (len (pre ++ zeros 12))
      by (rewrite len_app, Hzeros, <- Hpre; lia).
    rewrite (extractV3Packet_privacy_run (pre ++ zeros 12) privlen sent scoped spare
               (fields_read u tag recv) Hprivlen).
    cbn [mbind outcome_bind].
    replace (over ((pre ++ zeros 12) ++ OctetString :: privlen ++ sent ++ scoped) spare)
      with (over ((front ++ usm_block u (zeros 12) priv) ++ scoped) spare)
      by (unfold pre, usm_block, priv; rewrite Hzeros; f_equal; list_eq).
    replace (len (pre ++ zeros 12) + (1 + len privlen + len sent))
      with (len (front ++ usm_block u (zeros 12) priv))
      by (unfold pre, usm_block, priv; rewrite Hzeros; lens).
    reflexivity.
Qed.
(** Lines 929-951 on a scoped PDU of the builder followed by [junk]. *)
Lemma extractV3Packet_plain_clear packet pdus requestid plain (pre junk spare : bytes)
    response :
  plainScopedPDU packet pdus requestid = Ok plain →
  ∃ data cursor',
    marshalPDU packet pdus requestid = Ok data
    ∧ extractV3Packet_plain (over (pre ++ plain ++ junk) spare) (len pre) response
      = Ok (set_ContextName (ContextName packet)
              (set_ContextEngineID (ContextEngineID packet) response),
            over (pre ++ plain) (junk ++ spare), cursor')
    ∧ drop (Z.to_nat cursor') (pre ++ plain) = data.
Proof.
  intros Hplain.
  destruct (plainScopedPDU_layout _ _ _ _ Hplain)
    as (idlen & namelen & data & pduLen & Hid & Hname & Hdata & Hpdu & Hlayout).
  pose proof (extractV3Packet_plain_run pre junk spare
                pduLen idlen (ContextEngineID packet) namelen (ContextName packet) data
                response Hid Hname Hpdu) as Hrun.
  cbv zeta in Hrun. rewrite <- Hlayout in Hrun.
  eexists data, _. split; [exact Hdata|]. split; [exact Hrun|].
  rewrite Hlayout.
  set (before := pre ++ Sequence :: pduLen ++ OctetString :: idlen
                   ++ ContextEngineID packet ++ OctetString :: namelen
                   ++ ContextName packet).
  replace (Z.to_nat (len pre + (1 + len pduLen)
                     + (1 + len idlen + len (ContextEngineID packet))
                     + (1 + len namelen + len (ContextName packet))))
    with (length before).
  - replace (pre ++ Sequence :: pduLen ++ OctetString :: idlen
               ++ ContextEngineID packet ++ OctetString :: namelen
               ++ ContextName packet ++ data)
      with (before ++ data) by lists.
    apply drop_app_length.
  - rewrite <- (Nat2Z.id (length before)). f_equal. fold (len before). lens.
Qed.

(** The parser at the octet string of a DES or AES ciphertext, on a
    receiver whose user has what the privacy of the sender depends on. *)
Lemma extractV3Packet_scoped_private σ packet pdus requestid plain plen
    (pre spare : bytes) response l secParams :
  SecurityModel response = UserSecurityModel →
  SecurityParameters response = UsmPointer (Some l) →
  σ !! l = Some secParams →
  PrivacyPassphrase secParams ≠ [] →
  plainScopedPDU packet pdus requestid = Ok plain →
  let ciphertext :=
    if PrivacyProtocol secParams =? AES then aes_ciphertext secParams plain
    else des_ciphertext secParams plain in
  (PrivacyProtocol secParams = AES ∧ length (PrivacyParameters secParams) = 8%nat
   ∨ PrivacyProtocol secParams ≠ AES ∧ (8 ≤ length (PrivacyParameters secParams))%nat) →
  marshalLength (len ciphertext) = Ok plen →
  ∃ data packet' cursor',
    marshalPDU packet pdus requestid = Ok data
    ∧ extractV3Packet_scoped σ (over (pre ++ OctetString :: plen ++ ciphertext) spare)
                             (len pre) response
      = Ok (set_ContextName (ContextName packet)
              (set_ContextEngineID (ContextEngineID packet) response),
            packet', cursor')
    ∧ s_bytes packet' = pre ++ plain
    ∧ drop (Z.to_nat cursor') (pre ++ plain) = data.
Proof.
  intros Hm Hsp Hl Hp Hplain ciphertext Hcase Hplen. unfold extractV3Packet_scoped.
  rewrite (slice_index_over _ spare pre OctetString (plen ++ ciphertext) _ eq_refl eq_refl).
  cbn [mbind outcome_bind]. rewrite Z.eqb_refl.
  destruct Hcase as [[Ha Hpp]|[Hd Hpp]].
  - unfold ciphertext in *. rewrite Ha in *. cbn [Z.eqb AES Pos.eqb] in *.
    rewrite (extractV3Packet_decrypt_aes σ pre plen spare response l secParams plain)
      by assumption.
    cbn [mbind outcome_bind].
    destruct (extractV3Packet_plain_clear packet pdus requestid plain pre []
                (drop (length plain)
                      (OctetString :: plen ++ aes_ciphertext secParams plain) ++ spare)
                response Hplain) as (data & cursor' & Hdata & Hrun & Hdrop).
    rewrite app_nil_r in Hrun.
    eexists data, _, cursor'. split; [exact Hdata|]. split; [exact Hrun|].
    split; [apply s_bytes_over|exact Hdrop].
  - unfold ciphertext in *.
    destruct (Z.eqb_spec (PrivacyProtocol secParams) AES) as [E|_]; [contradiction|].
    rewrite (extractV3Packet_decrypt_des σ pre plen spare response l secParams plain)
      by assumption.
    cbn [mbind outcome_bind].
    destruct (extractV3Packet_plain_clear packet pdus requestid plain pre
                (zeros (des_BlockSize - Z.rem (len plain) des_BlockSize))
                (drop (length (des_padded plain))
                      (OctetString :: plen ++ des_ciphertext secParams plain) ++ spare)
                response Hplain) as (data & cursor' & Hdata & Hrun & Hdrop).
    eexists data, _, cursor'. split; [exact Hdata|].
    unfold des_padded at 1. split; [exact Hrun|].
    split; [apply s_bytes_over|exact Hdrop].
Qed.

(** X18.  A message with authentication and privacy, DES or AES, built by
    [prepV3pPDU] with a salt of eight bytes in the privacy parameters and
    signed by [authenticate], goes through [extractV3Packet] on a
    receiver whose user has the sender's protocols and passphrases, when
    the sender's engine id is handed in: the tag is accepted, the
    receiver's user gets the engine id, boots and time, the user name,
    the tag and the salt of the sender, the scoped PDU is decrypted under
    them, and the packet that comes back holds the message up to the
    scoped PDU, the tag set to zero, followed by the scoped PDU in the
    clear, with the cursor at the PDU data. *)
Theorem private_roundtrip σ packet msgid buf pdus requestid buf' off l u
    (hdr spare : bytes) σr x response rl recv :
  Version packet = Version3 →
  SecurityModel packet = UserSecurityModel →
  SecurityParameters packet = UsmPointer (Some l) →
  σ !! l = Some u →
  Z.land (MsgFlags packet) AuthPriv = AuthPriv →
  AuthenticationPassphrase u ≠ [] →
  PrivacyPassphrase u ≠ [] →
  (PrivacyProtocol u = AES ∧ length (PrivacyParameters u) = 8%nat
   ∨ PrivacyProtocol u ≠ AES ∧ (8 ≤ length (PrivacyParameters u))%nat) →
  len (AuthoritativeEngineID u) < 128 →
  len (UserName u) < 128 →
  0 ≤ AuthoritativeEngineBoots u < 2 ^ 32 →
  0 ≤ AuthoritativeEngineTime u < 2 ^ 32 →
  prepV3pPDU σ packet msgid buf pdus requestid = Ok (buf', off) →
  len (hdr ++ buf') < 2 ^ 32 →
  SecurityParameters response = UsmPointer (Some rl) →
  σr !! rl = Some recv →
  AuthenticationProtocol recv = AuthenticationProtocol u →
  AuthenticationPassphrase recv = AuthenticationPassphrase u →
  PrivacyProtocol recv = PrivacyProtocol u →
  PrivacyPassphrase recv = PrivacyPassphrase u →
  let tag := take 12 (keyed_digest (AuthenticationProtocol u)
                        (localized_key (alg_of (AuthenticationProtocol u))
                           (AuthenticationPassphrase u) (AuthoritativeEngineID u))
                        (hdr ++ buf')) in
  let recv' := set_PrivacyParameters (PrivacyParameters u) (fields_read u tag recv) in
  ∃ (prefix scoped plain : bytes) signed data packet' cursor',
    hdr ++ buf' = prefix ++ scoped
    ∧ plainScopedPDU packet pdus requestid = Ok plain
    ∧ marshalPDU packet pdus requestid = Ok data
    ∧ authenticate σ packet (over (hdr ++ buf') spare) (uint32 (off + uint32 (len hdr)))
      = (Some signed, None)
    ∧ extractV3Packet σr x signed (len (hdr ++ buf)) response (AuthoritativeEngineID u)
      = Ok (<[rl := recv']> σr,
            set_ContextName (ContextName packet)
              (set_ContextEngineID (ContextEngineID packet)
                 (header_read packet msgid response)),
            packet', cursor')
    ∧ s_bytes packet' = prefix ++ plain
    ∧ drop (Z.to_nat cursor') (prefix ++ plain) = data.
Proof.
  intros Hv Hm Hsp Hl Hlevel Hp Hpp Hcase Heid Huser Hboots Htime Hprep Hsz Hrsp Hrl
         Hproto Hpass Hpproto Hppass tag recv'.
  assert (Hna : Z.land (MsgFlags packet) AuthNoPriv ≠ 0).
  { rewrite <- land_level_auth, Hlevel. cbv. discriminate. }
  assert (Hpf : Z.land (MsgFlags packet) AuthPriv > AuthNoPriv)
    by (rewrite Hlevel; reflexivity).
  destruct (signed_message_run σ packet msgid buf pdus requestid buf' off l u hdr spare
              σr x response rl recv Hv Hm Hsp Hl Hna Hp Heid Huser Hboots Htime Hprep Hsz
              Hrsp Hrl Hproto Hpass)
    as (prefix & scoped & signed & Hscoped & Hmsg & Hauth & Hparse).
  fold tag in Hparse.
  assert (Hsent : priv_sent packet u = PrivacyParameters u).
  { unfold priv_sent. rewrite (gt_gtb _ _ Hpf). reflexivity. }
  rewrite Hsent in Hparse. fold recv' in Hparse.
  destruct (plainScopedPDU packet pdus requestid) as [plain| |] eqn:Hplain;
    [|unfold marshalSnmpV3ScopedPDU in Hscoped; rewrite Hplain in Hscoped;
      discriminate Hscoped..].
  assert (Hview : privacy_view recv' = privacy_view u).
  { unfold privacy_view, recv', fields_read.
    cbn [AuthenticationProtocol PrivacyProtocol PrivacyPassphrase AuthoritativeEngineID
         AuthoritativeEngineBoots AuthoritativeEngineTime PrivacyParameters
         set_PrivacyParameters set_AuthenticationParameters set_UserName
         set_AuthoritativeEngineTime set_AuthoritativeEngineBoots set_AuthoritativeEngineID].
    rewrite Hproto, Hpproto, Hppass. reflexivity. }
  destruct (privacy_view_ciphertext recv' u plain Hview) as [Hdes Haes].
  assert (Hrproto : PrivacyProtocol recv' = PrivacyProtocol u).
  { unfold privacy_view in Hview. congruence. }
  assert (Hrpass : PrivacyPassphrase recv' = PrivacyPassphrase u).
  { unfold privacy_view in Hview. congruence. }
  assert (Hrpp : PrivacyParameters recv' = PrivacyParameters u) by reflexivity.
  assert (Hct : ∃ plen,
            scoped = OctetString :: plen
                       ++ (if PrivacyProtocol recv' =? AES then aes_ciphertext recv' plain
                           else des_ciphertext recv' plain)
            ∧ marshalLength
                (len (if PrivacyProtocol recv' =? AES then aes_ciphertext recv' plain
                      else des_ciphertext recv' plain)) = Ok plen).
  { rewrite Hrproto, Hdes, Haes. destruct Hcase as [[Ha Hlen]|[Hd Hlen]].
    - rewrite (marshalSnmpV3ScopedPDU_aes σ packet pdus requestid l u plain) in Hscoped
        by assumption.
      inv_bind Hscoped. apply Ok_inj in Hscoped.
      exists a. rewrite Ha. cbn [Z.eqb AES Pos.eqb]. split; [|exact Hstep].
      rewrite <- Hscoped. reflexivity.
    - rewrite (marshalSnmpV3ScopedPDU_des σ packet pdus requestid l u plain) in Hscoped
        by assumption.
      inv_bind Hscoped. apply Ok_inj in Hscoped.
      exists a. destruct (Z.eqb_spec (PrivacyProtocol u) AES) as [E|_]; [contradiction|].
      split; [|exact Hstep]. rewrite <- Hscoped. reflexivity. }
  destruct Hct as (plen & Hshape & Hplen).
  destruct (extractV3Packet_scoped_private (<[rl := recv']> σr) packet pdus requestid plain
              plen prefix spare (header_read packet msgid response) rl recv')
    as (data & packet' & cursor' & Hdata & Hrun & Hbytes & Hdrop).
  - unfold header_read. cbn [SecurityModel set_SecurityModel]. rewrite Hm. reflexivity.
  - exact Hrsp.
  - apply lookup_insert_eq.
  - rewrite Hrpass. exact Hpp.
  - exact Hplain.
  - rewrite Hrproto, Hrpp. exact Hcase.
  - exact Hplen.
  - exists prefix, scoped, plain, signed, data, packet', cursor'.
    split; [exact Hmsg|]. split; [reflexivity|]. split; [exact Hdata|].
    split; [exact Hauth|]. split; [|split; [exact Hbytes|exact Hdrop]].
    rewrite Hparse, Hshape, Hrun. reflexivity.
Qed.
End PrivateRoundTrip.

Lemma private_roundtrip_witness :
  ∃ buf' off signed,
    @prepV3pPDU Std.codec Std.pdus Std.ciphers store_des packet_des 1 version_field [] 1
    = Ok (buf', off)
    ∧ authenticate store_des packet_des (over ([48; 130] ++ buf') [])
                   (uint32 (off + uint32 (len [48; 130])))
      = (Some signed, None)
    ∧ is_ok (@extractV3Packet Std.codec Std.ciphers store_des conn_priv signed
               (len ([48; 130] ++ version_field)) packet_priv
               (AuthoritativeEngineID usm_des_salted)) = true.
Proof.
  assert (Hf : Z.land (MsgFlags packet_des) AuthPriv > AuthNoPriv) by reflexivity.
  assert (Hproto : PrivacyProtocol usm_des_salted ≠ AES) by (cbv; discriminate).
  assert (Hp : AuthenticationPassphrase usm_des_salted ≠ []) by (cbv; discriminate).
  assert (Hpp : PrivacyPassphrase usm_des_salted ≠ []) by (cbv; discriminate).
  assert (Hsalt : (8 ≤ length (PrivacyParameters usm_des_salted))%nat) by (cbv; lia).
  assert (Heid : len (AuthoritativeEngineID usm_des_salted) < 128)
    by (vm_compute; reflexivity).
  assert (Huser : len (UserName usm_des_salted) < 128) by (vm_compute; reflexivity).
  assert (Hboots : 0 ≤ AuthoritativeEngineBoots usm_des_salted < 2 ^ 32)
    by (vm_compute; split; [discriminate|reflexivity]).
  assert (Htime : 0 ≤ AuthoritativeEngineTime usm_des_salted < 2 ^ 32)
    by (vm_compute; split; [discriminate|reflexivity]).
  (* the builder returns a message: its scoped PDU is an octet string of 40 bytes *)
  assert (Hscoped : ∃ scoped,
            @marshalSnmpV3ScopedPDU Std.codec Std.pdus Std.ciphers store_des packet_des [] 1
            = Ok scoped ∧ len scoped = 42).
  { destruct (@des_ciphertext_length Std.ciphers std_cipher_laws usm_des_salted plain_des
                Hsalt) as [_ H8].
    change ((len plain_des / 8 + 1) * 8) with 40 in H8.
    exists (OctetString :: [40] ++ @des_ciphertext Std.ciphers usm_des_salted plain_des).
    rewrite (@marshalSnmpV3ScopedPDU_des Std.codec Std.pdus Std.ciphers store_des packet_des
               [] 1 2%positive usm_des_salted plain_des Hf eq_refl eq_refl eq_refl
               Hproto Hp Hsalt plain_des_ok).
    rewrite H8.
    replace (@marshalLength Std.codec 40) with (@Ok bytes [40]) by reflexivity.
    split; [reflexivity|]. rewrite len_cons, len_app, H8. reflexivity. }
  destruct Hscoped as (scoped & Hscoped & Hslen).
  assert (Hprep : ∃ buf' off,
            @prepV3pPDU Std.codec Std.pdus Std.ciphers store_des packet_des 1
               version_field [] 1 = Ok (buf', off)
            ∧ len buf' < 1000).
  { unfold prepV3pPDU. rewrite Hscoped.
    eexists _, _. split; [vm_compute; reflexivity|].
    repeat (progress (rewrite ?len_app, ?len_cons)). rewrite Hslen.
    vm_compute. reflexivity. }
  destruct Hprep as (buf' & off & Hprep & Hlen).
  exists buf', off.
  assert (Hsz : len ([48; 130] ++ buf') < 2 ^ 32).
  { rewrite len_app. change (len [48; 130]) with 2. lia. }
  destruct (private_roundtrip (BC := Std.codec) (PC := Std.pdus) (CI := Std.ciphers)
              (BL := std_codec_laws) (IL := std_integer_laws) (CL := std_cipher_laws)
              store_des packet_des 1 version_field [] 1 buf' off 2%positive usm_des_salted
              [48; 130] [] store_des conn_priv packet_priv 2%positive usm_des_salted
              eq_refl eq_refl eq_refl eq_refl eq_refl Hp Hpp (or_intror (conj Hproto Hsalt))
              Heid Huser Hboots Htime Hprep Hsz
              eq_refl eq_refl eq_refl eq_refl eq_refl eq_refl)
    as (prefix & scoped' & plain & signed & data & packet' & cursor' & _ & _ & _ & Hauth
        & Hparse & _).
  exists signed. split; [exact Hprep|]. split; [exact Hauth|].
  rewrite Hparse. reflexivity.
Defined.

(** ** Forged tags *)

Section Forgery.
Context `{BC : BerCodec} `{PC : PduCodec} `{CI : BlockCiphers}.
Context `{BL : !BerCodecLaws} `{IL : !BerIntegerLaws}.

(** X19.  Take a message [prepV3pPDU] built for a USM packet with the
    Auth flag, with or without privacy, and put any twelve bytes other
    than the tag at the offset it reports.  On a receiver whose user has
    the sender's authentication protocol and passphrase, with the
    sender's engine id handed in, [extractV3Packet] returns the error of
    the unauthentic packet. *)
Theorem forged_tag_rejected σ packet msgid buf pdus requestid buf' off l u
    (hdr spare forged : bytes) σr x response rl recv :
  SecurityModel packet = UserSecurityModel →
  SecurityParameters packet = UsmPointer (Some l) →
  σ !! l = Some u →
  Z.land (MsgFlags packet) AuthNoPriv ≠ 0 →
  AuthenticationPassphrase u ≠ [] →
  len (AuthoritativeEngineID u) < 128 →
  len (UserName u) < 128 →
  0 ≤ AuthoritativeEngineBoots u < 2 ^ 32 →
  0 ≤ AuthoritativeEngineTime u < 2 ^ 32 →
  prepV3pPDU σ packet msgid buf pdus requestid = Ok (buf', off) →
  len (hdr ++ buf') < 2 ^ 32 →
  SecurityParameters response = UsmPointer (Some rl) →
  σr !! rl = Some recv →
  AuthenticationProtocol recv = AuthenticationProtocol u →
  AuthenticationPassphrase recv = AuthenticationPassphrase u →
  let tag := take 12 (keyed_digest (AuthenticationProtocol u)
                        (localized_key (alg_of (AuthenticationProtocol u))
                           (AuthenticationPassphrase u) (AuthoritativeEngineID u))
                        (hdr ++ buf')) in
  let start := Z.to_nat (uint32 (off + uint32 (len hdr))) in
  length forged = 12%nat →
  forged ≠ tag →
  take 12 (drop start (hdr ++ buf')) = zeros 12 ∧
  extractV3Packet σr x
    (over (take start (hdr ++ buf') ++ forged ++ drop (start + 12) (hdr ++ buf')) spare)
    (len (hdr ++ buf)) response (AuthoritativeEngineID u)
  = Err "Incoming packet is not authentic, discarding".
Proof.
  intros Hm Hsp Hl Hf Hp Heid Huser Hboots Htime Hprep Hsz Hrsp Hrl Hproto Hpass tag start
         Hforged Hne.
  destruct (prepV3pPDU_message_layout _ _ _ _ _ _ _ _ _ _ hdr Hm Hsp Hl Hprep Hsz)
    as (header & spl & paramLen & privlen & scoped & Hheader & Hprivlen & HparamLen & Hspl
        & Hscoped & Hmsg & Hstart).
  cbv zeta in *.
  assert (Hslot : auth_slot packet = zeros 12).
  { unfold auth_slot. rewrite (land1_pos _ Hf). reflexivity. }
  rewrite Hslot in *.
  set (sent := priv_sent packet u) in *.
  set (priv := OctetString :: privlen ++ sent) in *.
  set (front := message_front hdr buf header spl ++ Sequence :: paramLen) in *.
  assert (Htag : length tag = 12%nat) by apply tag_length.
  assert (Hlenf : len forged = 12) by (unfold len; rewrite Hforged; reflexivity).
  assert (Hzeros : len (zeros 12) = 12) by reflexivity.
  set (pre := front ++ usm_fields u ++ [OctetString; 12]).
  set (post := priv ++ scoped).
  assert (Hclear : hdr ++ buf' = pre ++ zeros 12 ++ post).
  { rewrite Hmsg. unfold pre, post, usm_block. rewrite Hzeros. list_eq. }
  assert (Hforge : front ++ usm_block u forged priv ++ scoped = pre ++ forged ++ post).
  { unfold pre, post, usm_block. rewrite Hlenf. list_eq. }
  assert (Hpre : len (front ++ usm_fields u) + 2 = len pre) by (unfold pre; lens).
  assert (Hs : start = length pre).
  { unfold start. rewrite Hstart, Hpre. unfold len. apply Nat2Z.id. }
  rewrite Hs, Hclear.
  rewrite take_app_length, drop_app_length.
  replace (length pre + 12)%nat with (length (pre ++ zeros 12))
    by (rewrite length_app; reflexivity).
  rewrite (app_assoc pre (zeros 12) post), drop_app_length.
  split; [apply take_app_length'; reflexivity|].
  rewrite <- Hforge.
  assert (HparamLen' : marshalLength (len (usm_block u forged priv)) = Ok paramLen).
  { replace (len (usm_block u forged priv)) with (len (usm_block u (zeros 12) priv));
      [exact HparamLen|].
    unfold usm_block. rewrite !len_app, !len_cons, !len_app, Hlenf, Hzeros. reflexivity. }
  assert (Hspl' : marshalLength (len (Sequence :: paramLen ++ usm_block u forged priv))
                  = Ok spl).
  { replace (len (Sequence :: paramLen ++ usm_block u forged priv))
      with (len (Sequence :: paramLen ++ usm_block u (zeros 12) priv)); [exact Hspl|].
    unfold usm_block.
    rewrite !len_cons, !len_app, !len_cons, !len_app, Hlenf, Hzeros. reflexivity. }
  assert (Hshort : len forged < 128) by lia.
  pose proof (extractV3Packet_usm_run hdr buf header spl paramLen forged priv scoped spare
                packet msgid u σr x response rl recv (AuthoritativeEngineID u)
                Hheader Hm HparamLen' Hspl' Heid Huser Hboots Htime Hshort Hrsp Hrl)
    as Hrun.
  cbv zeta in Hrun. fold front in Hrun. rewrite Hrun. clear Hrun.
  unfold extractV3Packet_auth.
  replace (Z.land (MsgFlags (header_read packet msgid response)) AuthNoPriv >? 0)
    with true.
  2:{ unfold header_read. cbn [MsgFlags set_SecurityModel set_MsgFlags].
      rewrite land_uint8_auth. symmetry. apply land1_pos. exact Hf. }
  rewrite Hlenf. change (2 + 12) with 14. change (14 =? 14) with true. cbn [negb].
  rewrite Hforge.
  rewrite (slice_copy_over pre forged post spare (zeros 12)
             (len (front ++ usm_fields u) + 2) (len (front ++ usm_fields u) + 14)).
  2:{ exact Hpre. }
  2:{ rewrite <- Hpre, Hlenf. lia. }
  2:{ rewrite Hforged. reflexivity. }
  cbn [mbind outcome_bind]. rewrite s_bytes_over.
  replace (AuthenticationParameters (fields_read u forged recv)) with forged by reflexivity.
  replace (AuthenticationProtocol (fields_read u forged recv))
    with (AuthenticationProtocol u) by (symmetry; exact Hproto).
  replace (AuthenticationPassphrase (fields_read u forged recv))
    with (AuthenticationPassphrase u) by (symmetry; exact Hpass).
  rewrite isAuthentic_spec by (try exact Hp; rewrite Hforged; lia).
  rewrite <- Hclear. fold tag.
  rewrite bool_decide_false.
  2:{ rewrite Hforged, take_ge by (rewrite Htag; lia). exact Hne. }
  reflexivity.
Qed.
End Forgery.

Lemma forged_tag_rejected_witness :
  ∃ buf' off forged,
    @prepV3pPDU Std.codec Std.pdus Std.ciphers store_auth packet_auth 1 version_field [] 1
    = Ok (buf', off)
    ∧ length forged = 12%nat
    ∧ @extractV3Packet Std.codec Std.ciphers store_auth conn_auth
        (over (take (Z.to_nat (uint32 (off + uint32 (len [48; 130])))) ([48; 130] ++ buf')
               ++ forged
               ++ drop (Z.to_nat (uint32 (off + uint32 (len [48; 130]))) + 12)
                    ([48; 130] ++ buf')) [])
        (len ([48; 130] ++ version_field)) packet_noauth (AuthoritativeEngineID usm_auth)
      = Err "Incoming packet is not authentic, discarding".
Proof.
  destruct (@prepV3pPDU Std.codec Std.pdus Std.ciphers store_auth packet_auth 1
              version_field [] 1) as [[buf' off]| |] eqn:Hprep;
    [|vm_compute in Hprep; discriminate..].
  exists buf', off.
  assert (Hsz : len ([48; 130] ++ buf') < 2 ^ 32).
  { vm_compute in Hprep. injection Hprep as <- <-. vm_compute. reflexivity. }
  assert (Hf : Z.land (MsgFlags packet_auth) AuthNoPriv ≠ 0) by (cbv; discriminate).
  assert (Hp : AuthenticationPassphrase usm_auth ≠ []) by (cbv; discriminate).
  assert (Heid : len (AuthoritativeEngineID usm_auth) < 128) by (vm_compute; reflexivity).
  assert (Huser : len (UserName usm_auth) < 128) by (vm_compute; reflexivity).
  assert (Hboots : 0 ≤ AuthoritativeEngineBoots usm_auth < 2 ^ 32)
    by (vm_compute; split; [discriminate|reflexivity]).
  assert (Htime : 0 ≤ AuthoritativeEngineTime usm_auth < 2 ^ 32)
    by (vm_compute; split; [discriminate|reflexivity]).
  pose proof (λ forged Hlen Hne,
                proj2 (forged_tag_rejected (BC := Std.codec) (PC := Std.pdus)
                         (CI := Std.ciphers) (BL := std_codec_laws) (IL := std_integer_laws)
                         store_auth packet_auth 1 version_field [] 1 buf' off 1%positive
                         usm_auth [48; 130] [] forged store_auth conn_auth packet_noauth
                         1%positive usm_auth
                         eq_refl eq_refl eq_refl Hf Hp Heid Huser Hboots Htime Hprep Hsz
                         eq_refl eq_refl eq_refl eq_refl Hlen Hne)) as Hthm.
  cbv zeta in Hthm.
  set (tag := take 12 (keyed_digest (AuthenticationProtocol usm_auth)
                         (localized_key (alg_of (AuthenticationProtocol usm_auth))
                            (AuthenticationPassphrase usm_auth)
                            (AuthoritativeEngineID usm_auth))
                         ([48; 130] ++ buf'))) in Hthm.
  clearbody tag.
  assert (Hchoice : ∃ forged, length forged = 12%nat ∧ forged ≠ tag).
  { destruct (decide (zeros 12 = tag)) as [E|N].
    - exists (replicate 12 1). split; [reflexivity|]. rewrite <- E. cbv. discriminate.
    - exists (zeros 12). split; [reflexivity|exact N]. }
  destruct Hchoice as (forged & Hlen & Hne).
  exists forged. split; [reflexivity|]. split; [exact Hlen|].
  exact (Hthm forged Hlen Hne).
Defined.

(** ** A header without flags *)

Section EmptyFlags.
Context `{BC : BerCodec} `{CI : BlockCiphers}.
Context `{BL : !BerCodecLaws} `{IL : !BerIntegerLaws}.

(** X20.  A message whose msgFlags field is an octet string of no bytes
    makes the parser panic: the first byte of the flags is read without a
    check of the length (line 757). *)
Theorem extractV3Packet_empty_flags σ x msgid (l pre rest spare : bytes) response orig :
  let mms := marshalUvarInt rxBufSize in
  let header := Integer :: 4 :: be32 msgid
                ++ Integer :: uint8 (len mms) :: mms ++ OctetString :: 0 :: rest in
  marshalLength (len header) = Ok l →
  extractV3Packet σ x (over (pre ++ Sequence :: l ++ header) spare) (len pre) response orig
  = Panic IndexOutOfRange.
Proof.
  intros mms header Hl.
  pose proof (marshalUvarInt_length rxBufSize) as Hmms. fold mms in Hmms.
  unfold extractV3Packet, extractV3Packet_header.
  rewrite (slice_index_over _ spare pre Sequence (l ++ header) (len pre) eq_refl eq_refl).
  cbn [mbind outcome_bind]. rewrite Z.eqb_refl. cbn [negb].
  rewrite (slice_from_over _ spare pre (Sequence :: l ++ header ++ []) (len pre)).
  2:{ rewrite app_nil_r. reflexivity. }
  2:{ reflexivity. }
  cbn [mbind outcome_bind].
  rewrite (parseLength_field _ Sequence l header [] Hl) by apply s_bytes_over.
  cbn [mbind outcome_bind].
  rewrite (slice_from_over _ spare (pre ++ Sequence :: l)
             (Integer :: uint8 (len (be32 msgid)) :: be32 msgid
              ++ (Integer :: uint8 (len mms) :: mms ++ OctetString :: 0 :: rest))).
  2:{ lists. }
  2:{ lens. }
  cbn [mbind outcome_bind].
  assert (Hlen4 : 1 ≤ len (be32 msgid) ≤ 8) by (rewrite len_be32; lia).
  destruct (parseRawField_integer_over (be32 msgid)
              (Integer :: uint8 (len mms) :: mms ++ OctetString :: 0 :: rest) spare "msgID"
              Hlen4)
    as (v & Hparse & _ & _).
  rewrite Hparse. cbn [wrap_err mbind outcome_bind].
  rewrite (slice_from_over _ spare (pre ++ Sequence :: l ++ Integer :: 4 :: be32 msgid)
             (Integer :: uint8 (len mms) :: mms ++ (OctetString :: 0 :: rest))).
  2:{ lists. }
  2:{ lens. }
  cbn [mbind outcome_bind].
  assert (Hlen8 : 1 ≤ len mms ≤ 8) by lia.
  destruct (parseRawField_integer_over mms (OctetString :: 0 :: rest) spare "maxMsgSize"
              Hlen8)
    as (v2 & Hparse2 & _ & _).
  rewrite Hparse2. cbn [wrap_err mbind outcome_bind].
  rewrite (slice_from_over _ spare
             (pre ++ Sequence :: l ++ Integer :: 4 :: be32 msgid
                  ++ Integer :: uint8 (len mms) :: mms)
             (OctetString :: [0] ++ [] ++ rest)).
  2:{ lists. }
  2:{ lens. }
  cbn [mbind outcome_bind].
  rewrite (parseRawField_octets _ "msgFlags" [0] [] rest).
  2:{ apply (marshalLength_short 0). lia. }
  2:{ apply s_bytes_over. }
  cbn [wrap_err mbind outcome_bind].
  reflexivity.
Qed.
End EmptyFlags.

Lemma extractV3Packet_empty_flags_witness :
  @extractV3Packet Std.codec Std.ciphers store_auth conn_auth
     (over ([] ++ Sequence :: [13]
            ++ (Integer :: 4 :: be32 1
                ++ Integer :: uint8 (len (@marshalUvarInt Std.codec (@rxBufSize Std.codec)))
                     :: @marshalUvarInt Std.codec (@rxBufSize Std.codec)
                ++ OctetString :: 0 :: [])) [])
     (len (@nil Z)) packet_auth []
  = Panic IndexOutOfRange.
Proof.
  apply (extractV3Packet_empty_flags (BC := Std.codec) (CI := Std.ciphers)
           (BL := std_codec_laws) (IL := std_integer_laws)
           store_auth conn_auth 1 [13] [] [] [] packet_auth []).
  reflexivity.
Defined.
